(** * Gerenciador Financeiro Pessoal: the state store and its persistence

    A shallow embedding of [app_gerenciador_financeiro_react_tailwind.jsx]:
    the six pieces of React state ([user], [categories], [entries],
    [expenses], [goals], [fixedCosts]), the handlers that update them, the
    derived totals, the load / save / export / import paths, and of the
    render of the two tabs what decides whether it throws.

    The program is JavaScript, so the data it holds is dynamically typed:
    a document read back from storage can put any JSON value in any field.
    Values are therefore embedded as a universal type [value]; numbers are
    IEEE 754 binary64, which is what the kernel's primitive floats are. *)

From Stdlib Require Import Floats List String Ascii DecimalString Bool ZArith Lia.
Import ListNotations.

Local Open Scope string_scope.
Local Open Scope list_scope.

Set Implicit Arguments.
Set Warnings "-register-all,-inexact-float".

(* ================================================================== *)
(** * Strings                                                          *)
(* ================================================================== *)

(** A JavaScript string is a sequence of 16-bit code units. *)
Definition jstring := list N.

Module Str.

(** ** Literals: from the UTF-8 text of this file to UTF-16 *)

Definition utf16 (cp : N) : list N :=
  if (cp <? 65536)%N then [cp]
  else [55296 + (cp - 65536) / 1024; 56320 + (cp - 65536) mod 1024]%N.

Fixpoint decode (l : list N) : list N :=
  match l with
  | [] => []
  | b :: r =>
      if (b <? 128)%N then b :: decode r
      else
        match r with
        | [] => [b]
        | b2 :: r2 =>
            if (b <? 224)%N
            then ((b - 192) * 64 + (b2 - 128))%N :: decode r2
            else
              match r2 with
              | [] => [b; b2]
              | b3 :: r3 =>
                  if (b <? 240)%N
                  then ((b - 224) * 4096 + (b2 - 128) * 64 + (b3 - 128))%N
                         :: decode r3
                  else
                    match r3 with
                    | [] => [b; b2; b3]
                    | b4 :: r4 =>
                        ((b - 240) * 262144 + (b2 - 128) * 4096
                         + (b3 - 128) * 64 + (b4 - 128))%N :: decode r4
                    end
              end
        end
  end.

Definition lit (s : string) : jstring :=
  flat_map utf16 (decode (map N_of_ascii (list_ascii_of_string s))).

(** ** Operations *)

Definition eqb (a b : jstring) : bool :=
  if list_eq_dec N.eq_dec a b then true else false.

Definition isEmpty (s : jstring) : bool :=
  match s with [] => true | _ => false end.

(** [s.slice(from, to)] for [0 <= from] and [0 <= to]. *)
Definition slice (from to : nat) (s : jstring) : jstring :=
  skipn from (firstn to s).

Definition isHigh (c : N) : bool := ((55296 <=? c) && (c <? 56320))%N.
Definition isLow (c : N) : bool := ((56320 <=? c) && (c <? 57344))%N.

(** The code points of a string, each as a string of its own: what
    iterating a string (spreading it into an array) visits.  A high
    surrogate followed by a low one is one code point. *)
Fixpoint codePoints (s : jstring) : list jstring :=
  match s with
  | [] => []
  | c :: r =>
      match r with
      | d :: r' =>
          if isHigh c && isLow d then [c; d] :: codePoints r'
          else [c] :: codePoints r
      | [] => [[c]]
      end
  end.

(** ECMAScript's WhiteSpace and LineTerminator code points: TAB, LF,
    VT, FF, CR, SP, NBSP, U+1680, U+2000 to U+200A, U+2028, U+2029,
    U+202F, U+205F, U+3000 and U+FEFF. *)
Definition isWhite (c : N) : bool :=
  (((9 <=? c) && (c <=? 13)) || (c =? 32) || (c =? 160) || (c =? 5760)
   || ((8192 <=? c) && (c <=? 8202)) || (c =? 8232) || (c =? 8233)
   || (c =? 8239) || (c =? 8287) || (c =? 12288) || (c =? 65279))%N.

Fixpoint dropWhite (s : jstring) : jstring :=
  match s with
  | c :: rest => if isWhite c then dropWhite rest else s
  | [] => []
  end.

(** The string without its leading and trailing white space. *)
Definition trim (s : jstring) : jstring :=
  rev (dropWhite (rev (dropWhite s))).

Fixpoint startsWith (pre s : jstring) : option jstring :=
  match pre, s with
  | [], _ => Some s
  | p :: pre', c :: s' => if (p =? c)%N then startsWith pre' s' else None
  | _ :: _, [] => None
  end.

End Str.

Definition js (s : string) : jstring := Str.lit s.

(* ================================================================== *)
(** * Numbers                                                          *)
(* ================================================================== *)

Module Num.

(** The three numbers that are falsy: [+0], [-0] and [NaN]. *)
Definition isFalsy (n : float) : bool :=
  match classify n with
  | PZero | NZero | NaN => true
  | _ => false
  end.

Definition isNaN (n : float) : bool :=
  match classify n with NaN => true | _ => false end.

Definition isNegZero (n : float) : bool :=
  match classify n with NZero => true | _ => false end.

(** [Number.isFinite]. *)
Definition isFinite (n : float) : bool :=
  match classify n with
  | NaN | PInf | NInf => false
  | _ => true
  end.

(** ** From decimal and radix literals to binary64 *)

Definition digitOf (c : N) : option Z :=
  let n := Z.of_N c in
  if ((48 <=? n) && (n <=? 57))%Z then Some (n - 48)%Z
  else if ((97 <=? n) && (n <=? 122))%Z then Some (n - 87)%Z
  else if ((65 <=? n) && (n <=? 90))%Z then Some (n - 55)%Z
  else None.

Definition isDigitIn (base : Z) (c : N) : bool :=
  match digitOf c with
  | Some d => (d <? base)%Z
  | None => false
  end.

(** The longest prefix of digits of [base], and what follows it. *)
Fixpoint spanDigits (base : Z) (l : jstring) : jstring * jstring :=
  match l with
  | c :: rest =>
      if isDigitIn base c
      then let (ds, tl) := spanDigits base rest in (c :: ds, tl)
      else ([], l)
  | [] => ([], [])
  end.

Definition digitsValue (base : Z) (ds : jstring) : Z :=
  fold_left
    (fun acc c => match digitOf c with
                  | Some d => (acc * base + d)%Z
                  | None => acc
                  end)
    ds 0%Z.

(** The binary64 nearest to the integer [m] (ties to even). *)
Definition ofInteger (m : Z) : float :=
  SF2Prim (binary_normalize prec emax m 0 false).

(** The binary64 nearest to [m * 10^e], for [m >= 0], with the sign
    [neg].  Literals far beyond the range are settled without building
    the power of ten: [10^e > 2^1024] once [e > 310], and for [e < 0]
    the literal is below [2^(log2 m + 1 + 3e)], which rounds to zero
    from [2^-1075] down. *)
Definition ofDecimal (neg : bool) (m : Z) (e : Z) : float :=
  let signed (x : float) := if neg then (- x)%float else x in
  match m with
  | Z0 => signed 0%float
  | Zpos p =>
      if (0 <=? e)%Z
      then
        if (310 <? e)%Z then signed infinity
        else signed (ofInteger (m * 10 ^ e))
      else
        if (Z.log2 m + 1 + 3 * e <=? -1075)%Z then signed 0%float
        else
          match (10 ^ (- e))%Z with
          | Zpos q =>
              SF2Prim (SFdiv prec emax (S754_finite neg p 0)
                                       (S754_finite false q 0))
          | _ => nan
          end
  | Zneg _ => nan
  end.

Definition isChar (ch : string) (c : N) : bool :=
  match js ch with
  | [d] => (c =? d)%N
  | _ => false
  end.

(** ExponentPart: [e] or [E], an optional sign, at least one digit,
    and nothing after it.  [None] when the text is not of that form. *)
Definition exponentPart (l : jstring) : option Z :=
  match l with
  | [] => Some 0%Z
  | c :: rest =>
      if (isChar "e" c || isChar "E" c)%bool
      then
        let '(neg, body) :=
          match rest with
          | s :: r =>
              if isChar "-" s then (true, r)
              else if isChar "+" s then (false, r)
              else (false, rest)
          | [] => (false, rest)
          end in
        match spanDigits 10 body with
        | ((_ :: _) as ds, []) =>
            let v := digitsValue 10 ds in
            Some (if neg then (- v)%Z else v)
        | _ => None
        end
      else None
  end.

(** StrUnsignedDecimalLiteral other than [Infinity]: digits, an
    optional fraction, an optional exponent. *)
Definition unsignedDecimal (neg : bool) (l : jstring) : float :=
  let (ip, afterInt) := spanDigits 10 l in
  let (fp, afterFrac) :=
    match afterInt with
    | c :: rest =>
        if isChar "." c then spanDigits 10 rest else ([], afterInt)
    | [] => ([], afterInt)
    end in
  match ip ++ fp with
  | [] => nan
  | ds =>
      match exponentPart afterFrac with
      | Some ex =>
          ofDecimal neg (digitsValue 10 ds) (ex - Z.of_nat (List.length fp))
      | None => nan
      end
  end.

Definition strDecimal (neg : bool) (l : jstring) : float :=
  match Str.startsWith (js "Infinity") l with
  | Some [] => if neg then neg_infinity else infinity
  | _ => unsignedDecimal neg l
  end.

(** NonDecimalIntegerLiteral: [0x], [0o], [0b] and their capitals,
    followed by at least one digit of the radix and nothing else. *)
Definition radixOf (l : jstring) : option (Z * jstring) :=
  match l with
  | z :: r :: body =>
      if isChar "0" z then
        if (isChar "x" r || isChar "X" r)%bool then Some (16%Z, body)
        else if (isChar "o" r || isChar "O" r)%bool then Some (8%Z, body)
        else if (isChar "b" r || isChar "B" r)%bool then Some (2%Z, body)
        else None
      else None
  | _ => None
  end.

(** StringToNumber (ECMA-262, 7.1.4.1.1): white space is trimmed, the
    empty text is [+0], and a text that is not a StringNumericLiteral
    is [NaN]. *)
Definition StringToNumber (s : jstring) : float :=
  let l := Str.trim s in
  match l with
  | [] => 0%float
  | c :: rest =>
      match radixOf l with
      | Some (base, body) =>
          match spanDigits base body with
          | ((_ :: _) as ds, []) => ofInteger (digitsValue base ds)
          | _ => nan
          end
      | None =>
          if isChar "-" c then strDecimal true rest
          else if isChar "+" c then strDecimal false rest
          else strDecimal false l
      end
  end.

End Num.

(* ================================================================== *)
(** * Values and the primitives of the language                        *)
(* ================================================================== *)

Inductive value : Type :=
| VUndefined
| VNull
| VBool (b : bool)
| VNum (n : float)
| VStr (s : jstring)
| VArr (elems : list value)
| VObj (props : list (jstring * value))
| VBuiltin (name : string).
(** [VObj] lists an object's own properties in property order.
    [VBuiltin] is a function of the standard library reached through a
    prototype; the only one the program can get hold of is
    [Array.prototype.entries], by reading [entries] off an array. *)

(** What is thrown: a [TypeError], a [SyntaxError], and the [Error] with
    which React refuses an object given to it as a child. *)
Inductive error : Type := TypeError | SyntaxError | InvalidChild.

Inductive result (A : Type) : Type :=
| Ok (a : A)
| Throw (e : error).

Arguments Ok {A} a.
Arguments Throw {A} e.

Definition bind {A B : Type} (r : result A) (k : A -> result B) : result B :=
  match r with
  | Ok a => k a
  | Throw e => Throw e
  end.

Notation "x <- r ;; k" := (bind r (fun x => k))
  (at level 61, r at next level, right associativity).

Module JS.

(** ToBoolean. *)
Definition truthy (v : value) : bool :=
  match v with
  | VUndefined | VNull => false
  | VBool b => b
  | VNum n => negb (Num.isFalsy n)
  | VStr s => negb (Str.isEmpty s)
  | VArr _ | VObj _ | VBuiltin _ => true
  end.

(** [a || b]. *)
Definition orElse (a b : value) : value := if truthy a then a else b.

(** [!a]. *)
Definition not (a : value) : value := VBool (negb (truthy a)).

Fixpoint lookup (k : jstring) (props : list (jstring * value)) : option value :=
  match props with
  | [] => None
  | (k', v) :: rest => if Str.eqb k' k then Some v else lookup k rest
  end.

(** Defining property [k]: an existing property keeps its place, a new
    one goes last. *)
Fixpoint setProp (k : jstring) (v : value) (props : list (jstring * value))
  : list (jstring * value) :=
  match props with
  | [] => [(k, v)]
  | (k', v') :: rest =>
      if Str.eqb k' k then (k, v) :: rest else (k', v') :: setProp k v rest
  end.

(** [o.k] for the property names the program reads ([user],
    [categories], [entries], [expenses], [goals], [fixedCosts], [id],
    [value], [bought], and for display [name], [email], [desc], [cat],
    [date], [price], [priority]): none of them is on a prototype except
    [entries] on arrays, and a function has a [name] of its own. *)
Definition getProp (o : value) (k : jstring) : result value :=
  match o with
  | VUndefined | VNull => Throw TypeError
  | VObj props =>
      match lookup k props with
      | Some v => Ok v
      | None => Ok VUndefined
      end
  | VArr _ =>
      if Str.eqb k (js "entries") then Ok (VBuiltin "Array.prototype.entries")
      else Ok VUndefined
  | VBuiltin _ =>
      if Str.eqb k (js "name") then Ok (VStr (js "entries")) else Ok VUndefined
  | _ => Ok VUndefined
  end.

(** [a === s] against a string. *)
Definition strictEqStr (a : value) (s : jstring) : bool :=
  match a with
  | VStr t => Str.eqb t s
  | _ => false
  end.

(** [[...s]]: the elements an iteration of [s] yields. *)
Definition spreadArray (s : value) : result (list value) :=
  match s with
  | VArr xs => Ok xs
  | VStr t => Ok (map VStr (Str.codePoints t))
  | _ => Throw TypeError
  end.

Definition indexKey (i : nat) : jstring :=
  js (NilEmpty.string_of_uint (Nat.to_uint i)).

Definition indexed (xs : list value) : list (jstring * value) :=
  combine (map indexKey (seq 0 (List.length xs))) xs.

(** [{...o}]: the own enumerable properties of [o]. *)
Definition spreadObject (o : value) : list (jstring * value) :=
  match o with
  | VObj props => props
  | VArr xs => indexed xs
  | VStr t => indexed (map (fun c => VStr [c]) t)
  | _ => []
  end.

Definition asArray (a : value) : result (list value) :=
  match a with
  | VArr xs => Ok xs
  | _ => Throw TypeError
  end.

(** [xs.filter(p)], [xs.map(f)] and [xs.reduce(f, init)] on the
    elements of an array, with callbacks that may throw. *)
Fixpoint filterM (p : value -> result bool) (xs : list value)
  : result (list value) :=
  match xs with
  | [] => Ok []
  | x :: rest =>
      keep <- p x ;;
      rest' <- filterM p rest ;;
      Ok (if keep then x :: rest' else rest')
  end.

Fixpoint mapM (f : value -> result value) (xs : list value)
  : result (list value) :=
  match xs with
  | [] => Ok []
  | x :: rest =>
      y <- f x ;;
      rest' <- mapM f rest ;;
      Ok (y :: rest')
  end.

Fixpoint reduceM (A : Type) (f : A -> value -> result A) (xs : list value)
                 (init : A) : result A :=
  match xs with
  | [] => Ok init
  | x :: rest => s <- f init x ;; reduceM f rest s
  end.

Definition filter (p : value -> result bool) (a : value) : result value :=
  xs <- asArray a ;; ys <- filterM p xs ;; Ok (VArr ys).

Definition map (f : value -> result value) (a : value) : result value :=
  xs <- asArray a ;; ys <- mapM f xs ;; Ok (VArr ys).

Definition reduce (A : Type) (f : A -> value -> result A) (a : value)
                  (init : A) : result A :=
  xs <- asArray a ;; reduceM f xs init.

(** ** ToNumber *)

Definition hasKey (k : jstring) (props : list (jstring * value)) : bool :=
  match lookup k props with Some _ => true | None => false end.

(** Converting an object to a primitive calls its [valueOf] and then
    its [toString].  The inherited [valueOf] gives the object back, so
    it is [toString] that decides; an own property of that name, which
    in data read from JSON is never a function, hides the inherited
    method, and the conversion throws.  Converting an array joins the
    conversions of its elements. *)
Fixpoint toPrimitiveThrows (v : value) : bool :=
  match v with
  | VObj props => hasKey (js "toString") props
  | VArr xs => existsb toPrimitiveThrows xs
  | _ => false
  end.

(** The number read off a value whose conversion does not throw.  An
    array converts through the text of its elements joined by commas:
    the empty array is the empty text, a singleton is the text of its
    element (empty for [null] and [undefined], and the text of a number
    reads back as that number, [-0] as [+0]), and a longer array has a
    comma in it, which no numeric literal has.  An object or a function
    converts to a text that is no numeric literal. *)
Fixpoint numberOf (v : value) : float :=
  match v with
  | VUndefined => nan
  | VNull => 0%float
  | VBool b => if b then 1%float else 0%float
  | VNum n => n
  | VStr s => Num.StringToNumber s
  | VArr [] => 0%float
  | VArr [x] =>
      match x with
      | VUndefined | VNull => 0%float
      | VNum n => if Num.isNegZero n then 0%float else n
      | VBool _ => nan
      | _ => numberOf x
      end
  | VArr (_ :: _ :: _) => nan
  | VObj _ | VBuiltin _ => nan
  end.

(** [Number(v)]. *)
Definition Number (v : value) : result float :=
  if toPrimitiveThrows v then Throw TypeError else Ok (numberOf v).

End JS.

(* ================================================================== *)
(** * JSON                                                             *)
(* ================================================================== *)

(** A JSON document, as [JSON.parse] reads it: a number is the binary64
    its literal rounds to, an object lists its members in the property
    order of the object built from it. *)
Inductive json : Type :=
| JNull
| JBool (b : bool)
| JNumber (n : float)
| JString (s : jstring)
| JArray (elems : list json)
| JObject (members : list (jstring * json)).

(** The program looks at a stored or imported text in two ways only: it
    tests it for emptiness ([if (raw)]) and hands it to [JSON.parse].
    Texts are kept up to these two observations. *)
Inductive text : Type :=
| Blank                (* the empty string *)
| Malformed            (* a non-empty string that is not a JSON text *)
| Encoded (doc : json) (* a JSON text, and the document it denotes *).

Module JSON.

(** The value [JSON.parse] builds from a document. *)
Fixpoint revive (j : json) : value :=
  match j with
  | JNull => VNull
  | JBool b => VBool b
  | JNumber n => VNum n
  | JString s => VStr s
  | JArray xs => VArr (List.map revive xs)
  | JObject ms => VObj (List.map (fun m => (fst m, revive (snd m))) ms)
  end.

Definition parse (t : text) : result value :=
  match t with
  | Encoded j => Ok (revive j)
  | Blank | Malformed => Throw SyntaxError
  end.

(** SerializeJSONProperty: [None] where [JSON.stringify] gives
    [undefined].  A number that is not finite is written [null], [-0]
    is written [0]; in an array a value without a serialization is
    written [null], in an object its property is left out. *)
Fixpoint serialize (v : value) : option json :=
  match v with
  | VUndefined | VBuiltin _ => None
  | VNull => Some JNull
  | VBool b => Some (JBool b)
  | VNum n =>
      Some (if Num.isFinite n
            then JNumber (if Num.isNegZero n then 0%float else n)
            else JNull)
  | VStr s => Some (JString s)
  | VArr xs =>
      Some (JArray (List.map
                      (fun x => match serialize x with
                                | Some j => j
                                | None => JNull
                                end) xs))
  | VObj props =>
      Some (JObject (flat_map
                       (fun p => match serialize (snd p) with
                                 | Some j => [(fst p, j)]
                                 | None => []
                                 end) props))
  end.

(** [JSON.stringify(v)] used as a string: the text ["undefined"] when
    there is no serialization. *)
Definition stringify (v : value) : text :=
  match serialize v with
  | Some j => Encoded j
  | None => Malformed
  end.

End JSON.

(* ================================================================== *)
(** * The application state                                            *)
(* ================================================================== *)

(** The two forms hold what the user typed: every field is a string. *)
Module Form.
Record t : Type := make
  { type : jstring; value : jstring; desc : jstring;
    cat : jstring; date : jstring }.

(** [{ ...form, value: "", desc: "" }] *)
Definition cleared (f : t) : t :=
  {| type := type f; value := []; desc := []; cat := cat f; date := date f |}.
End Form.

Module GoalForm.
Record t : Type := make
  { name : jstring; price : jstring; priority : jstring }.
End GoalForm.

(** The six state variables that are saved, exported and imported. *)
Record Store : Type := mkStore
  { user : value;
    categories : value;
    entries : value;
    expenses : value;
    goals : value;
    fixedCosts : value }.

(** The two tabs: [tab] is ["dashboard"] or ["finance"]. *)
Inductive Tab : Type := dashboard | finance.

(** The component's state, the stored item [myfinance_v1], and what the
    program has shown to the user ([alert]) and logged ([console.error]),
    oldest first. *)
Record App : Type := mkApp
  { store : Store;
    form : Form.t;
    goalForm : GoalForm.t;
    localStorage : option text;
    alerts : list jstring;
    console : list jstring;
    tab : Tab }.

Definition DEFAULT_USER : value :=
  VObj [ (js "name", VStr (js "Seu Nome"));
         (js "email", VStr (js "seu@email.com"));
         (js "bio", VStr (js "Programador em progresso 💙")) ].

Definition SAMPLE_CATEGORIES : value :=
  VArr (List.map (fun c => VStr (js c))
          [ "Salário"; "Alimentação"; "Transporte"; "Lazer";
            "Assinaturas"; "Outros" ]).

(** [uid()], given the text [r] of [Math.random().toString(36)]. *)
Definition uid (r : jstring) : jstring := Str.slice 2 9 r.

Definition initialStore : Store :=
  {| user := DEFAULT_USER; categories := SAMPLE_CATEGORIES;
     entries := VArr []; expenses := VArr []; goals := VArr [];
     fixedCosts := VArr [] |}.

Definition initialForm : Form.t :=
  Form.make (js "expense") [] [] (js "Alimentação") [].

Definition initialGoalForm : GoalForm.t :=
  GoalForm.make [] [] (js "Média").

(** The first render, over whatever the browser has stored. *)
Definition initialApp (stored : option text) : App :=
  {| store := initialStore; form := initialForm; goalForm := initialGoalForm;
     localStorage := stored; alerts := []; console := []; tab := dashboard |}.

(** ** State setters *)

Definition setUser (v : value) (s : Store) : Store :=
  mkStore v (categories s) (entries s) (expenses s) (goals s) (fixedCosts s).
Definition setCategories (v : value) (s : Store) : Store :=
  mkStore (user s) v (entries s) (expenses s) (goals s) (fixedCosts s).
Definition setEntries (v : value) (s : Store) : Store :=
  mkStore (user s) (categories s) v (expenses s) (goals s) (fixedCosts s).
Definition setExpenses (v : value) (s : Store) : Store :=
  mkStore (user s) (categories s) (entries s) v (goals s) (fixedCosts s).
Definition setGoals (v : value) (s : Store) : Store :=
  mkStore (user s) (categories s) (entries s) (expenses s) v (fixedCosts s).
Definition setFixedCosts (v : value) (s : Store) : Store :=
  mkStore (user s) (categories s) (entries s) (expenses s) (goals s) v.

Definition withStore (s : Store) (a : App) : App :=
  mkApp s (form a) (goalForm a) (localStorage a) (alerts a) (console a) (tab a).
Definition setForm (f : Form.t) (a : App) : App :=
  mkApp (store a) f (goalForm a) (localStorage a) (alerts a) (console a) (tab a).
Definition setGoalForm (g : GoalForm.t) (a : App) : App :=
  mkApp (store a) (form a) g (localStorage a) (alerts a) (console a) (tab a).
Definition setTab (t : Tab) (a : App) : App :=
  mkApp (store a) (form a) (goalForm a) (localStorage a) (alerts a) (console a) t.
Definition setItem (t : text) (a : App) : App :=
  mkApp (store a) (form a) (goalForm a) (Some t) (alerts a) (console a) (tab a).
Definition alert (msg : jstring) (a : App) : App :=
  mkApp (store a) (form a) (goalForm a) (localStorage a)
        (alerts a ++ [msg]) (console a) (tab a).
Definition consoleError (msg : jstring) (a : App) : App :=
  mkApp (store a) (form a) (goalForm a) (localStorage a)
        (alerts a) (console a ++ [msg]) (tab a).

(** ** Saving (the second effect)

    [{ user, categories, entries, expenses, goals, fixedCosts }] *)
Definition payload (s : Store) : value :=
  VObj [ (js "user", user s); (js "categories", categories s);
         (js "entries", entries s); (js "expenses", expenses s);
         (js "goals", goals s); (js "fixedCosts", fixedCosts s) ].

Definition save (a : App) : App :=
  setItem (JSON.stringify (payload (store a))) a.

(** A call of one of the six setters with an updater: the updater runs
    on the current value when the component renders again, and the save
    effect follows the render.  An updater that throws takes the
    application down ([Throw]).  What the handlers write is displayed
    wherever the state before was (see [render] below and the theorem
    on it), so the display is not gone through again here. *)
Definition update (f : Store -> result Store) (a : App) : result App :=
  s <- f (store a) ;; Ok (save (withStore s a)).

(** [(s) => [item, ...s]] *)
Definition prepend (item : value) (s : value) : result value :=
  xs <- JS.spreadArray s ;; Ok (VArr (item :: xs)).

(** [(s) => s.filter((i) => i.id !== id)] *)
Definition without (id : jstring) (s : value) : result value :=
  JS.filter (fun i => x <- JS.getProp i (js "id") ;;
                      Ok (negb (JS.strictEqStr x id))) s.

(* ================================================================== *)
(** * Derived values                                                   *)
(* ================================================================== *)

(** [Number(e.value || 0)] *)
Definition reading (e : value) : result float :=
  v <- JS.getProp e (js "value") ;;
  JS.Number (JS.orElse v (VNum 0%float)).

(** [(s, e) => s + Number(e.value || 0)] *)
Definition addValue (s : float) (e : value) : result float :=
  n <- reading e ;; Ok (s + n)%float.

(** [xs.reduce((s, e) => s + Number(e.value || 0), 0)] *)
Definition sumValues (xs : value) : result float :=
  JS.reduce addValue xs 0%float.

Definition totalIncome (s : Store) : result float := sumValues (entries s).
Definition totalExpenses (s : Store) : result float := sumValues (expenses s).

Definition projectedBalance (s : Store) : result float :=
  i <- totalIncome s ;;
  e <- totalExpenses s ;;
  f <- sumValues (fixedCosts s) ;;
  Ok (i - e - f)%float.

Record Totals : Type := mkTotals
  { income : float; spent : float; balance : float }.

Definition computeTotals (s : Store) : result Totals :=
  i <- totalIncome s ;;
  e <- totalExpenses s ;;
  b <- projectedBalance s ;;
  Ok (mkTotals i e b).

(* ================================================================== *)
(** * Rendering                                                        *)
(* ================================================================== *)

(** Of a render, what decides whether it throws: the derived values
    above, the expressions the three components evaluate over the
    state, and the values they hand to React as children.  An error
    thrown while rendering is caught by nothing and unmounts the
    application. *)

(** [key={k}]: React turns a key into a string with ['' + k]. *)
Definition keyed (k : value) : result unit :=
  if JS.toPrimitiveThrows k then Throw TypeError else Ok tt.

(** Whether [v.toLocaleString(...)] throws on a value that is neither
    [null] nor [undefined].  Numbers have the method of their own;
    strings, booleans, objects and functions inherit the one of
    [Object.prototype], which calls [toString]; an array joins the
    [toLocaleString] of those of its elements that are not [null] or
    [undefined].  An own property of either name, which in data read
    from JSON is never a function, hides the inherited method. *)
Fixpoint localeThrows (v : value) : bool :=
  match v with
  | VObj props =>
      JS.hasKey (js "toLocaleString") props || JS.hasKey (js "toString") props
  | VArr xs => existsb localeThrows xs
  | _ => false
  end.

(** [currencyBR(value)], as far as returning goes: the text it gives
    depends on the locale data of the browser. *)
Definition currencyBR (value : value) : result unit :=
  match value with
  | VUndefined | VNull => Throw TypeError
  | _ => if localeThrows value then Throw TypeError else Ok tt
  end.

(** [v.slice(0, 1)]: strings and arrays have the method. *)
Definition sliceFirst (v : value) : result value :=
  match v with
  | VStr s => Ok (VStr (Str.slice 0 1 s))
  | VArr xs => Ok (VArr (firstn 1 xs))
  | _ => Throw TypeError
  end.

(** What React accepts as a child: text, numbers, the values it shows
    as nothing, and arrays of children; not an object. *)
Fixpoint invalidChild (v : value) : bool :=
  match v with
  | VObj _ => true
  | VArr xs => existsb invalidChild xs
  | _ => false
  end.

Fixpoint reconcile (children : list value) : result unit :=
  match children with
  | [] => Ok tt
  | c :: rest =>
      if invalidChild c then Throw InvalidChild else reconcile rest
  end.

(** The rows a list is mapped to: the children of all of them. *)
Fixpoint rowsM (row : value -> result (list value)) (xs : list value)
  : result (list value) :=
  match xs with
  | [] => Ok []
  | x :: rest =>
      r <- row x ;;
      rs <- rowsM row rest ;;
      Ok (r ++ rs)
  end.

(** [xs.map(row)] *)
Definition rows (row : value -> result (list value)) (xs : value)
  : result (list value) :=
  ys <- JS.asArray xs ;; rowsM row ys.

(** Each component is given by the values it evaluates, in the order of
    the source, and returns the values it places as children. *)

(** [Header]: the initial, the name and the e-mail address. *)
Definition Header (user : value) : result (list value) :=
  name <- JS.getProp user (js "name") ;;
  initial <- sliceFirst (JS.orElse name (VStr (js "?"))) ;;
  email <- JS.getProp user (js "email") ;;
  Ok [initial; name; email].

(** A fixed cost in the list of the dashboard. *)
Definition fixedCostRow (f : value) : result (list value) :=
  id <- JS.getProp f (js "id") ;;
  name <- JS.getProp f (js "name") ;;
  v <- JS.getProp f (js "value") ;;
  n <- JS.Number v ;;
  _ <- currencyBR (VNum n) ;;
  _ <- keyed id ;;
  Ok [name].

(** A goal in the wish list. *)
Definition goalRow (g : value) : result (list value) :=
  id <- JS.getProp g (js "id") ;;
  name <- JS.getProp g (js "name") ;;
  priority <- JS.getProp g (js "priority") ;;
  price <- JS.getProp g (js "price") ;;
  _ <- currencyBR price ;;
  _ <- JS.getProp g (js "bought") ;;
  _ <- keyed id ;;
  Ok [name; priority].

(** [<option key={c}>{c}</option>] *)
Definition categoryOption (c : value) : result (list value) :=
  _ <- keyed c ;; Ok [c].

(** An entry or an expense in its list. *)
Definition ledgerRow (i : value) : result (list value) :=
  id <- JS.getProp i (js "id") ;;
  desc <- JS.getProp i (js "desc") ;;
  cat <- JS.getProp i (js "cat") ;;
  date <- JS.getProp i (js "date") ;;
  v <- JS.getProp i (js "value") ;;
  n <- JS.Number v ;;
  _ <- currencyBR (VNum n) ;;
  _ <- keyed id ;;
  Ok [desc; cat; date].

(** The three totals at the top of the dashboard are numbers, which
    [currencyBR] formats without fail. *)
Definition Dashboard (s : Store) : result (list value) :=
  fs <- rows fixedCostRow (fixedCosts s) ;;
  gs <- rows goalRow (goals s) ;;
  Ok (fs ++ gs).

Definition Finance (s : Store) : result (list value) :=
  cs <- rows categoryOption (categories s) ;;
  es <- rows ledgerRow (entries s) ;;
  xs <- rows ledgerRow (expenses s) ;;
  Ok (cs ++ es ++ xs).

(** One render of [App] with the tab [t] open: the totals, then the
    header, then the component of the tab, each component's children
    being gone through by React before the next component is called. *)
Definition render (t : Tab) (s : Store) : result unit :=
  _ <- computeTotals s ;;
  hs <- Header (user s) ;;
  _ <- reconcile hs ;;
  cs <- match t with
        | dashboard => Dashboard s
        | finance => Finance s
        end ;;
  reconcile cs.

(* ================================================================== *)
(** * Handlers                                                         *)
(* ================================================================== *)

(** [addEntry], with the text [r] the random generator gives [uid] and
    the text [now] of [new Date().toISOString()]. *)
Definition addEntry (r now : jstring) (a : App) : result App :=
  let form := form a in
  v <- JS.Number (VStr (Form.value form)) ;;
  if Num.isFalsy v || Str.isEmpty (Form.desc form)
  then Ok (alert (js "Preencha descrição e valor") a)
  else
    let item :=
      VObj [ (js "id", VStr (uid r));
             (js "value", VNum v);
             (js "desc", VStr (Form.desc form));
             (js "cat", VStr (Form.cat form));
             (js "date", VStr (if Str.isEmpty (Form.date form)
                               then Str.slice 0 10 now
                               else Form.date form)) ] in
    a' <- (if Str.eqb (Form.type form) (js "income")
           then update (fun s => e <- prepend item (entries s) ;;
                                 Ok (setEntries e s)) a
           else update (fun s => e <- prepend item (expenses s) ;;
                                 Ok (setExpenses e s)) a) ;;
    Ok (setForm (Form.cleared form) a').

(** [removeItem], with the user's answer to [confirm]. *)
Definition removeItem (id kind : jstring) (confirmed : bool) (a : App)
  : result App :=
  if negb confirmed then Ok a
  else
    a1 <- (if Str.eqb kind (js "income")
           then update (fun s => e <- without id (entries s) ;;
                                 Ok (setEntries e s)) a
           else Ok a) ;;
    if Str.eqb kind (js "expense")
    then update (fun s => e <- without id (expenses s) ;;
                          Ok (setExpenses e s)) a1
    else Ok a1.

Definition addGoal (r : jstring) (a : App) : result App :=
  let goalForm := goalForm a in
  price <- JS.Number (VStr (GoalForm.price goalForm)) ;;
  if Str.isEmpty (GoalForm.name goalForm) || Num.isFalsy price
  then Ok (alert (js "Preencha nome e preço do desejo") a)
  else
    let goal :=
      VObj [ (js "id", VStr (uid r));
             (js "name", VStr (GoalForm.name goalForm));
             (js "price", VNum price);
             (js "priority", VStr (GoalForm.priority goalForm));
             (js "bought", VBool false) ] in
    a' <- update (fun s => g <- prepend goal (goals s) ;;
                           Ok (setGoals g s)) a ;;
    Ok (setGoalForm (GoalForm.make [] [] (js "Média")) a').

(** [(g) => (g.id === id ? { ...g, bought: !g.bought } : g)] *)
Definition toggled (id : jstring) (g : value) : result value :=
  x <- JS.getProp g (js "id") ;;
  if JS.strictEqStr x id
  then b <- JS.getProp g (js "bought") ;;
       Ok (VObj (JS.setProp (js "bought") (JS.not b) (JS.spreadObject g)))
  else Ok g.

Definition toggleGoal (id : jstring) (a : App) : result App :=
  update (fun s => g <- JS.map (toggled id) (goals s) ;; Ok (setGoals g s)) a.

(** The [remover] button of a goal. *)
Definition removeGoal (id : jstring) (a : App) : result App :=
  update (fun s => g <- without id (goals s) ;; Ok (setGoals g s)) a.

(** What [prompt] returns: the text typed, or [null] when the dialog is
    cancelled ([None]). *)
Definition prompted (answer : option jstring) : value :=
  match answer with
  | Some s => VStr s
  | None => VNull
  end.

(** [addFixedCost], with the user's answers to the two prompts. *)
Definition addFixedCost (answer1 answer2 : option jstring) (r : jstring)
                        (a : App) : result App :=
  let name := prompted answer1 in
  let value := prompted answer2 in
  if negb (JS.truthy name) || negb (JS.truthy value) then Ok a
  else
    update (fun s =>
              n <- JS.Number value ;;
              f <- prepend (VObj [ (js "id", VStr (uid r));
                                   (js "name", name);
                                   (js "value", VNum n) ])
                           (fixedCosts s) ;;
              Ok (setFixedCosts f s)) a.

(** The [remover] button of a fixed cost. *)
Definition removeFixedCost (id : jstring) (a : App) : result App :=
  update (fun s => f <- without id (fixedCosts s) ;; Ok (setFixedCosts f s)) a.

(** The [Nova categoria] button. *)
Definition addCategory (answer : option jstring) (a : App) : result App :=
  let cat := prompted answer in
  if JS.truthy cat
  then update (fun s => cs <- prepend cat (categories s) ;;
                        Ok (setCategories cs s)) a
  else Ok a.

(** The [Editar Perfil] button: [setUser({ ...user, name })]. *)
Definition editProfile (answer : option jstring) (a : App) : result App :=
  let name := prompted answer in
  if JS.truthy name
  then update (fun s =>
                 Ok (setUser (VObj (JS.setProp (js "name") name
                                      (JS.spreadObject (user s)))) s)) a
  else Ok a.

(* ================================================================== *)
(** * Loading, exporting and importing                                 *)
(* ================================================================== *)

(** The six values the load effect and [importData] hand to the setters:
    [data.user || DEFAULT_USER] and so on. *)
Definition readDocument (data : value) : result Store :=
  u <- JS.getProp data (js "user") ;;
  c <- JS.getProp data (js "categories") ;;
  e <- JS.getProp data (js "entries") ;;
  x <- JS.getProp data (js "expenses") ;;
  g <- JS.getProp data (js "goals") ;;
  f <- JS.getProp data (js "fixedCosts") ;;
  Ok {| user := JS.orElse u DEFAULT_USER;
        categories := JS.orElse c SAMPLE_CATEGORIES;
        entries := JS.orElse e (VArr []);
        expenses := JS.orElse x (VArr []);
        goals := JS.orElse g (VArr []);
        fixedCosts := JS.orElse f (VArr []) |}.

(** A setter called with a value: React takes a function for an updater
    and calls it on the current state when rendering.  The one function
    a document can bring in is [Array.prototype.entries], which throws
    when called without a receiver.  React (18, as the file asks for)
    batches the six calls: one render follows them, after the [try]
    block has been left. *)
Definition applied (next : value) : result value :=
  match next with
  | VBuiltin _ => Throw TypeError
  | _ => Ok next
  end.

(** The render that follows the six calls, with the tab that is open,
    and the save after it.  When the render throws there is no save. *)
Definition install (next : Store) (a : App) : result App :=
  u <- applied (user next) ;;
  c <- applied (categories next) ;;
  e <- applied (entries next) ;;
  x <- applied (expenses next) ;;
  g <- applied (goals next) ;;
  f <- applied (fixedCosts next) ;;
  _ <- render (tab a) (mkStore u c e x g f) ;;
  Ok (save (withStore (mkStore u c e x g f) a)).

Definition nonEmpty (t : text) : bool :=
  match t with
  | Blank => false
  | _ => true
  end.

(** Mounting the component over the stored text: the first render shows
    the defaults on the dashboard, the load effect reads and parses the
    text, the save effect then writes the state of the first render,
    and the render the setters asked for installs the document and
    saves again. *)
Definition load (stored : option text) : result App :=
  let a := initialApp stored in
  match stored with
  | Some raw =>
      if nonEmpty raw
      then
        match (data <- JSON.parse raw ;; readDocument data) with
        | Ok next => install next (save a)
        | Throw _ => Ok (save (consoleError (js "Erro ao carregar dados:") a))
        end
      else Ok (save a)
  | None => Ok (save a)
  end.

(** [exportData]: the name and the contents of the file offered for
    download. *)
Definition exportData (a : App) : jstring * text :=
  (js "meus_dados_financeiros.json", JSON.stringify (payload (store a))).

(** [importData], with the contents of the chosen file ([None] when no
    file was chosen). *)
Definition importData (file : option text) (a : App) : result App :=
  match file with
  | None => Ok a
  | Some contents =>
      match (data <- JSON.parse contents ;; readDocument data) with
      | Ok next => install next (alert (js "Dados importados com sucesso") a)
      | Throw _ => Ok (alert (js "Falha ao importar: arquivo inválido") a)
      end
  end.

(* ================================================================== *)
(** * Runs                                                             *)
(* ================================================================== *)

(** What the user can do to a mounted application.  The buttons that
    remove or toggle an item pass the item's id, taken here to be a
    string, as [uid] makes it.  A file chosen for import is read in the
    background: it is installed on the tab open when the reading is
    done. *)
Inductive event : Type :=
| EditForm (f : Form.t)
| EditGoalForm (g : GoalForm.t)
| AddEntry (r now : jstring)
| RemoveItem (id kind : jstring) (confirmed : bool)
| AddGoal (r : jstring)
| ToggleGoal (id : jstring)
| RemoveGoal (id : jstring)
| AddFixedCost (answer1 answer2 : option jstring) (r : jstring)
| RemoveFixedCost (id : jstring)
| AddCategory (answer : option jstring)
| EditProfile (answer : option jstring)
| ImportData (file : option text)
| SetTab (t : Tab).

(** The two tab buttons of the header: [setTab(t)], and the render of
    the other component.  Setting the tab that is open already changes
    no state, and React renders nothing. *)
Definition showTab (t : Tab) (a : App) : result App :=
  match t, tab a with
  | dashboard, dashboard | finance, finance => Ok a
  | _, _ => _ <- render t (store a) ;; Ok (setTab t a)
  end.

Definition handle (ev : event) (a : App) : result App :=
  match ev with
  | EditForm f => Ok (setForm f a)
  | EditGoalForm g => Ok (setGoalForm g a)
  | AddEntry r now => addEntry r now a
  | RemoveItem id kind confirmed => removeItem id kind confirmed a
  | AddGoal r => addGoal r a
  | ToggleGoal id => toggleGoal id a
  | RemoveGoal id => removeGoal id a
  | AddFixedCost n v r => addFixedCost n v r a
  | RemoveFixedCost id => removeFixedCost id a
  | AddCategory c => addCategory c a
  | EditProfile n => editProfile n a
  | ImportData file => importData file a
  | SetTab t => showTab t a
  end.

Fixpoint run (evs : list event) (a : App) : result App :=
  match evs with
  | [] => Ok a
  | ev :: rest => a' <- handle ev a ;; run rest a'
  end.

(** The states the application can be in: mounted over some stored
    text, then driven by events. *)
Definition reachable (a : App) : Prop :=
  exists stored evs, (a0 <- load stored ;; run evs a0) = Ok a.

(* ================================================================== *)
(** * Vocabulary of the specification                                  *)
(* ================================================================== *)

(** The six top-level fields of the persisted document. *)
Inductive field : Type :=
| User | Categories | Entries | Expenses | Goals | FixedCosts.

Definition key (fld : field) : jstring :=
  match fld with
  | User => js "user"
  | Categories => js "categories"
  | Entries => js "entries"
  | Expenses => js "expenses"
  | Goals => js "goals"
  | FixedCosts => js "fixedCosts"
  end.

Definition get (fld : field) (s : Store) : value :=
  match fld with
  | User => user s
  | Categories => categories s
  | Entries => entries s
  | Expenses => expenses s
  | Goals => goals s
  | FixedCosts => fixedCosts s
  end.

Definition set (fld : field) (v : value) (s : Store) : Store :=
  match fld with
  | User => setUser v s
  | Categories => setCategories v s
  | Entries => setEntries v s
  | Expenses => setExpenses v s
  | Goals => setGoals v s
  | FixedCosts => setFixedCosts v s
  end.

(** The documented defaults: the default profile, the default category
    set, and the empty collection. *)
Definition fallback (fld : field) : value :=
  match fld with
  | User => DEFAULT_USER
  | Categories => SAMPLE_CATEGORIES
  | _ => VArr []
  end.

(** The shape the data model gives a field: the profile is an object,
    the five collections are arrays. *)
Definition wellShaped (fld : field) (v : value) : bool :=
  match fld, v with
  | User, VObj _ => true
  | User, _ => false
  | _, VArr _ => true
  | _, _ => false
  end.

(** A member of a document, as the program reads it: [undefined] when
    the document has no such member. *)
Definition member (ms : list (jstring * json)) (fld : field) : value :=
  match JS.lookup (key fld) (List.map (fun m => (fst m, JSON.revive (snd m))) ms) with
  | Some v => v
  | None => VUndefined
  end.

Definition present (ms : list (jstring * json)) (fld : field) : bool :=
  JS.hasKey (key fld) (List.map (fun m => (fst m, JSON.revive (snd m))) ms).

(** The store a document [ms] is read as: each member if it is truthy,
    its default otherwise. *)
Definition loaded (ms : list (jstring * json)) : Store :=
  {| user := JS.orElse (member ms User) (fallback User);
     categories := JS.orElse (member ms Categories) (fallback Categories);
     entries := JS.orElse (member ms Entries) (fallback Entries);
     expenses := JS.orElse (member ms Expenses) (fallback Expenses);
     goals := JS.orElse (member ms Goals) (fallback Goals);
     fixedCosts := JS.orElse (member ms FixedCosts) (fallback FixedCosts) |}.

Definition isBuiltin (v : value) : bool :=
  match v with VBuiltin _ => true | _ => false end.

(** ** Rejections *)

(** A handler that rejects its input: nothing of the state or of the
    stored document changes, and the user sees [msg]. *)
Definition rejected (msg : jstring) (a a' : App) : Prop :=
  store a' = store a
  /\ form a' = form a
  /\ goalForm a' = goalForm a
  /\ localStorage a' = localStorage a
  /\ alerts a' = alerts a ++ [msg].

(** ** Goals *)

(** A goal of the data model: an object whose [bought] is a boolean. *)
Definition isGoal (g : value) : Prop :=
  exists props b, g = VObj props
                  /\ JS.lookup (js "bought") props = Some (VBool b).

(** [g.id === id] *)
Definition hasId (id : jstring) (g : value) : bool :=
  match JS.getProp g (js "id") with
  | Ok x => JS.strictEqStr x id
  | Throw _ => false
  end.

(** What [toggleGoal id] makes of the goal [g]: a goal with the same id
    and the opposite [bought] if [g] has the id, [g] itself otherwise. *)
Definition flipped (id : jstring) (g g1 : value) : Prop :=
  if hasId id g
  then JS.getProp g1 (js "id") = JS.getProp g (js "id")
       /\ exists b, JS.getProp g (js "bought") = Ok (VBool b)
                    /\ JS.getProp g1 (js "bought") = Ok (VBool (negb b))
  else g1 = g.

(** ** The ledger of the specification *)

(** The specification's own account of the ledger: typed records, the
    two operations on them, and the totals as sums over what is
    currently there.  Sums run in list order from 0, as a reduction of
    the list does. *)
Module Spec.

Inductive Kind : Type := Income | Expense.

Record LedgerItem : Type := mkItem
  { id : jstring; value : float; description : jstring;
    category : jstring; date : jstring }.

Record FixedCost : Type := mkCost
  { costId : jstring; costName : jstring; costValue : float }.

Record State : Type := mkState
  { incomes : list LedgerItem;
    outgoings : list LedgerItem;
    fixed : list FixedCost }.

(** The value of a ledger item is a number other than zero: that is
    what [addLedgerItem] lets in. *)
Definition isAmount (n : float) : bool :=
  match classify n with
  | NaN | PZero | NZero => false
  | _ => true
  end.

Definition wellFormed (st : State) : Prop :=
  Forall (fun i => isAmount (value i) = true) (incomes st)
  /\ Forall (fun i => isAmount (value i) = true) (outgoings st).

(** "[value] is treated as numeric; non-numeric input is coerced to 0":
    the value of a fixed cost counts as 0 when it is not a number. *)
Definition numeric (n : float) : float := if isAmount n then n else 0%float.

Definition sum (ns : list float) : float :=
  fold_left (fun s n => (s + n)%float) ns 0%float.

Definition totalIncome (st : State) : float :=
  sum (List.map value (incomes st)).
Definition totalExpenses (st : State) : float :=
  sum (List.map value (outgoings st)).
Definition totalFixed (st : State) : float :=
  sum (List.map (fun c => numeric (costValue c)) (fixed st)).
Definition projectedBalance (st : State) : float :=
  (totalIncome st - totalExpenses st - totalFixed st)%float.

Definition computeTotals (st : State) : Totals :=
  mkTotals (totalIncome st) (totalExpenses st) (projectedBalance st).

(** The two ledger operations, with what the environment supplies to
    the first: the text [r] the id is generated from and the time
    [now]. *)
Inductive op : Type :=
| addLedgerItem (kind : Kind) (value description category date : jstring)
                (r now : jstring)
| removeLedgerItem (kind : Kind) (id : jstring).

Definition ledger (kind : Kind) (st : State) : list LedgerItem :=
  match kind with Income => incomes st | Expense => outgoings st end.

Definition withLedger (kind : Kind) (l : list LedgerItem) (st : State) : State :=
  match kind with
  | Income => mkState l (outgoings st) (fixed st)
  | Expense => mkState (incomes st) l (fixed st)
  end.

(** "Fails (no-op) if [value] is zero/non-numeric or [description] is
    empty.  On success, prepends a new LedgerItem with a freshly
    generated id and [date] defaulted to the current date if
    omitted."  "Removes the matching item if present." *)
Definition apply (o : op) (st : State) : State :=
  match o with
  | addLedgerItem kind value description category date r now =>
      let v := Num.StringToNumber value in
      match classify v, description with
      | (NaN | PZero | NZero), _ => st
      | _, [] => st
      | _, _ =>
          let day := match date with [] => Str.slice 0 10 now | _ => date end in
          withLedger kind
            (mkItem (uid r) v description category day :: ledger kind st) st
      end
  | removeLedgerItem kind id0 =>
      withLedger kind
        (List.filter (fun i => negb (Str.eqb (id i) id0)) (ledger kind st)) st
  end.

Definition applyAll (ops : list op) (st : State) : State :=
  fold_left (fun s o => apply o s) ops st.

End Spec.

(** How the program holds the records of the specification. *)
Definition encodeItem (i : Spec.LedgerItem) : value :=
  VObj [ (js "id", VStr (Spec.id i)); (js "value", VNum (Spec.value i));
         (js "desc", VStr (Spec.description i));
         (js "cat", VStr (Spec.category i));
         (js "date", VStr (Spec.date i)) ].

Definition encodeCost (c : Spec.FixedCost) : value :=
  VObj [ (js "id", VStr (Spec.costId c)); (js "name", VStr (Spec.costName c));
         (js "value", VNum (Spec.costValue c)) ].

Definition represents (s : Store) (st : Spec.State) : Prop :=
  entries s = VArr (List.map encodeItem (Spec.incomes st))
  /\ expenses s = VArr (List.map encodeItem (Spec.outgoings st))
  /\ fixedCosts s = VArr (List.map encodeCost (Spec.fixed st)).

(** What the user does to perform an operation: fill in the form and
    submit it; press [rem] and confirm. *)
Definition kindName (k : Spec.Kind) : jstring :=
  match k with Spec.Income => js "income" | Spec.Expense => js "expense" end.

Definition events (o : Spec.op) : list event :=
  match o with
  | Spec.addLedgerItem kind value description category date r now =>
      [ EditForm (Form.make (kindName kind) value description category date);
        AddEntry r now ]
  | Spec.removeLedgerItem kind id => [ RemoveItem id (kindName kind) true ]
  end.

(** ** Values that survive a round trip through JSON *)

(** A value with neither [undefined] nor a function anywhere in it. *)
Fixpoint plain (v : value) : bool :=
  match v with
  | VUndefined | VBuiltin _ => false
  | VArr xs => forallb plain xs
  | VObj ps => forallb (fun p => plain (snd p)) ps
  | _ => true
  end.

(** A value all of whose numbers are finite and none of them [-0]:
    the numbers JSON writes as they are. *)
Fixpoint finiteNumbers (v : value) : bool :=
  match v with
  | VNum n => Num.isFinite n && negb (Num.isNegZero n)
  | VArr xs => forallb finiteNumbers xs
  | VObj ps => forallb (fun p => finiteNumbers (snd p)) ps
  | _ => true
  end.

Definition finiteStore (s : Store) : Prop :=
  forall fld, finiteNumbers (get fld s) = true.

(** What every field of a running application is: plain and truthy. *)
Definition sound (v : value) : Prop := plain v = true /\ JS.truthy v = true.

Definition soundStore (s : Store) : Prop := forall fld, sound (get fld s).

(** ** Identifiers *)

(** The four collections whose items carry an [id]. *)
Definition isCollection (fld : field) : bool :=
  match fld with
  | Entries | Expenses | Goals | FixedCosts => true
  | User | Categories => false
  end.

(** [x.id], [undefined] where [x] has none. *)
Definition idOf (x : value) : value :=
  match JS.getProp x (js "id") with
  | Ok v => v
  | Throw _ => VUndefined
  end.

Definition idsOf (coll : value) : list value :=
  match coll with
  | VArr xs => List.map idOf xs
  | _ => []
  end.

(** A collection is a list of items no two of which have the same id. *)
Definition uniqueIds (coll : value) : Prop :=
  exists xs, coll = VArr xs /\ NoDup (List.map idOf xs).

Definition uniqueStore (s : Store) : Prop :=
  forall fld, isCollection fld = true -> uniqueIds (get fld s).

(** The collection an event adds an item to, and the id [uid] gives it. *)
Definition generated (ev : event) (a : App) : option (field * jstring) :=
  match ev with
  | AddEntry r _ =>
      Some (if Str.eqb (Form.type (form a)) (js "income")
            then Entries else Expenses, uid r)
  | AddGoal r => Some (Goals, uid r)
  | AddFixedCost _ _ r => Some (FixedCosts, uid r)
  | _ => None
  end.

(** The generated id is not yet in the collection it goes to. *)
Definition fresh (ev : event) (a : App) : Prop :=
  match generated ev a with
  | Some (fld, id) => ~ In (VStr id) (idsOf (get fld (store a)))
  | None => True
  end.

Definition isImport (ev : event) : bool :=
  match ev with ImportData _ => true | _ => false end.

(** What an event may do to the ids of a collection: leave them, put a
    generated id in front, or take out the ids equal to a given one. *)
Definition idsStep (before after : list value) : Prop :=
  after = before
  \/ (exists r, after = VStr (uid r) :: before)
  \/ (exists id, after = List.filter (fun i => negb (JS.strictEqStr i id)) before).

(** ** Sample data *)

(** A document with [entries: 0] and [user: null]. *)
Definition docFalsy : list (jstring * json) :=
  [ (js "user", JNull); (js "entries", JNumber 0%float);
    (js "goals", JArray [JObject [ (js "id", JString (js "g1"));
                                   (js "name", JString (js "Bike"));
                                   (js "price", JNumber 1500%float) ]]) ].

(** A saved document without the [fixedCosts] member. *)
Definition docNoFixedCosts : list (jstring * json) :=
  [ (js "user", JObject [(js "name", JString (js "Ana"))]);
    (js "categories", JArray [JString (js "Casa")]);
    (js "entries", JArray []);
    (js "expenses", JArray []);
    (js "goals", JArray []) ].

(** The goal of the example run: "Bike", 1500, high priority. *)
Definition bikeGoal : value :=
  VObj [ (js "id", VStr (js "k3j5h2x")); (js "name", VStr (js "Bike"));
         (js "price", VNum 1500%float); (js "priority", VStr (js "Alta"));
         (js "bought", VBool false) ].

Definition bikeApp : App :=
  withStore (setGoals (VArr [bikeGoal]) initialStore) (initialApp None).

(** Two entries typed in, and the first of them removed again. *)
Definition sampleOps : list Spec.op :=
  [ Spec.addLedgerItem Spec.Income (js "2500") (js "salary") (js "Salário") []
      (js "0.k3j5h2x9q") (js "2024-05-18T12:00:00.000Z");
    Spec.addLedgerItem Spec.Expense (js "12.5") (js "coffee") (js "Food")
      (js "2024-05-17") (js "0.9zq1m4c7t") (js "2024-05-18T12:00:00.000Z");
    Spec.removeLedgerItem Spec.Income (js "k3j5h2x") ].

(** A run that reaches a state with finite numbers only. *)
Definition sampleEvents : list event :=
  [ SetTab finance;
    EditForm (Form.make (js "income") (js "2500") (js "salary")
                        (js "Salário") []);
    AddEntry (js "0.k3j5h2x9q") (js "2024-05-18T12:00:00.000Z");
    SetTab dashboard;
    EditGoalForm (GoalForm.make (js "Bike") (js "1500") (js "Alta"));
    AddGoal (js "0.9zq1m4c7t");
    AddFixedCost (Some (js "Luz")) (Some (js "300")) (js "0.b7w2n8d5s") ].

Definition sampleApp : App :=
  Eval vm_compute in
    match (a0 <- load None ;; run sampleEvents a0) with
    | Ok a => a
    | Throw _ => initialApp None
    end.

(** ** The stored document *)

(** The stored item is the document of the current state. *)
Definition mirrored (a : App) : Prop :=
  localStorage a = Some (JSON.stringify (payload (store a))).

(** Stored text the load effect gets no document out of: none, the
    empty text, text that is not JSON, and the JSON text [null]. *)
Definition unreadable (stored : option text) : bool :=
  match stored with
  | None | Some Blank | Some Malformed | Some (Encoded JNull) => true
  | Some (Encoded _) => false
  end.

(** The members a document gives the program: those of an object, none
    for any other document. *)
Definition membersOf (doc : json) : list (jstring * json) :=
  match doc with
  | JObject ms => ms
  | _ => []
  end.

(** The documents [importData] takes in: all but [null] and arrays. *)
Definition accepted (doc : json) : bool :=
  match doc with
  | JNull | JArray _ => false
  | _ => true
  end.

(** The store the saved document of [s] is read back as. *)
Definition reread (s : Store) : Store :=
  match JSON.stringify (payload s) with
  | Encoded doc => loaded (membersOf doc)
  | _ => initialStore
  end.

(** ** What an event works on *)

Definition field_eqb (f g : field) : bool :=
  match f, g with
  | User, User | Categories, Categories | Entries, Entries
  | Expenses, Expenses | Goals, Goals | FixedCosts, FixedCosts => true
  | _, _ => false
  end.

(** The one field an event other than an import may write to. *)
Definition target (ev : event) (a : App) : option field :=
  match ev with
  | EditForm _ | EditGoalForm _ | ImportData _ | SetTab _ => None
  | AddEntry _ _ =>
      Some (if Str.eqb (Form.type (form a)) (js "income")
            then Entries else Expenses)
  | RemoveItem _ kind _ =>
      if Str.eqb kind (js "income") then Some Entries
      else if Str.eqb kind (js "expense") then Some Expenses
      else None
  | AddGoal _ | ToggleGoal _ | RemoveGoal _ => Some Goals
  | AddFixedCost _ _ _ | RemoveFixedCost _ => Some FixedCosts
  | AddCategory _ => Some Categories
  | EditProfile _ => Some User
  end.

Definition writesTo (ev : event) (a : App) (fld : field) : bool :=
  match target ev a with
  | Some f => field_eqb f fld
  | None => false
  end.

(** The fields the totals are computed from. *)
Definition counted (fld : field) : bool :=
  match fld with
  | Entries | Expenses | FixedCosts => true
  | _ => false
  end.

Definition touchesTotals (ev : event) (a : App) : bool :=
  match target ev a with
  | Some fld => counted fld
  | None => false
  end.

(** ** Removals *)

(** [null] and [undefined]: the values a property cannot be read off. *)
Definition isNullish (x : value) : bool :=
  match x with
  | VUndefined | VNull => true
  | _ => false
  end.

(** The collection a removal works on and the id it is given. *)
Definition removal (ev : event) : option (field * jstring) :=
  match ev with
  | RemoveItem id kind true =>
      if Str.eqb kind (js "income") then Some (Entries, id)
      else if Str.eqb kind (js "expense") then Some (Expenses, id)
      else None
  | RemoveGoal id => Some (Goals, id)
  | RemoveFixedCost id => Some (FixedCosts, id)
  | _ => None
  end.

(** The items of [xs] other than those with the id. *)
Definition others (id : jstring) (xs : list value) : list value :=
  List.filter (fun x => negb (hasId id x)) xs.

(** ** Prompts *)

(** A prompt that was answered: not cancelled and not left empty. *)
Definition given (answer : option jstring) : bool :=
  match answer with
  | Some (_ :: _) => true
  | _ => false
  end.

(** ** What is on display *)

(** A computation that returns. *)
Definition fine (A : Type) (r : result A) : Prop := exists x, r = Ok x.

(** What a render with the tab [t] open asks of one field: of the
    profile that the header can show it; of a collection that it can be
    summed where it is summed, and listed where the tab lists it. *)
Definition displays (t : Tab) (fld : field) (v : value) : Prop :=
  match fld, t with
  | User, _ => fine (hs <- Header v ;; reconcile hs)
  | Categories, finance => fine (cs <- rows categoryOption v ;; reconcile cs)
  | Categories, dashboard => True
  | (Entries | Expenses), finance =>
      fine (sumValues v) /\ fine (cs <- rows ledgerRow v ;; reconcile cs)
  | (Entries | Expenses), dashboard => fine (sumValues v)
  | Goals, dashboard => fine (cs <- rows goalRow v ;; reconcile cs)
  | Goals, finance => True
  | FixedCosts, dashboard =>
      fine (sumValues v) /\ fine (cs <- rows fixedCostRow v ;; reconcile cs)
  | FixedCosts, finance => fine (sumValues v)
  end.

(** Whether the tab looks at the items of the field at all. *)
Definition listed (t : Tab) (fld : field) : bool :=
  match fld, t with
  | User, _ | Categories, dashboard | Goals, finance => false
  | _, _ => true
  end.

(** The same, of one item of a collection. *)
Definition itemFits (t : Tab) (fld : field) (x : value) : Prop :=
  match fld, t with
  | Categories, finance => fine (cs <- categoryOption x ;; reconcile cs)
  | (Entries | Expenses), finance =>
      fine (reading x) /\ fine (cs <- ledgerRow x ;; reconcile cs)
  | (Entries | Expenses), dashboard => fine (reading x)
  | Goals, dashboard => fine (cs <- goalRow x ;; reconcile cs)
  | FixedCosts, dashboard =>
      fine (reading x) /\ fine (cs <- fixedCostRow x ;; reconcile cs)
  | FixedCosts, finance => fine (reading x)
  | _, _ => True
  end.

(** The tab an event comes from: the forms and buttons of the wish list
    and of the fixed costs are on the dashboard, those of the ledger,
    the categories and the import on the other tab; the header is on
    both. *)
Definition offeredOn (ev : event) : option Tab :=
  match ev with
  | EditGoalForm _ | AddGoal _ | ToggleGoal _ | RemoveGoal _
  | AddFixedCost _ _ _ | RemoveFixedCost _ => Some dashboard
  | EditForm _ | AddEntry _ _ | RemoveItem _ _ _ | AddCategory _
  | ImportData _ => Some finance
  | EditProfile _ | SetTab _ => None
  end.

Definition switches (ev : event) : bool :=
  match ev with SetTab _ => true | _ => false end.

(** The sample state with both forms filled in. *)
Definition filledApp : App :=
  setGoalForm (GoalForm.make (js "Livro") (js "80") (js "Baixa"))
    (setForm (Form.make (js "income") (js "100") (js "bonus")
                        (js "Salário") [])
             sampleApp).

(* ================================================================== *)
(** * General lemmas                                                   *)
(* ================================================================== *)

Arguments js : simpl never.

Lemma Str_eqb_eq (a b : jstring) : Str.eqb a b = true <-> a = b.
Proof.
  unfold Str.eqb. destruct (list_eq_dec N.eq_dec a b); split; congruence.
Qed.

Lemma Str_eqb_refl (a : jstring) : Str.eqb a a = true.
Proof. now apply Str_eqb_eq. Qed.

Lemma lookup_setProp_same (k : jstring) (v : value) (ps : list (jstring * value)) :
  JS.lookup k (JS.setProp k v ps) = Some v.
Proof.
  induction ps as [|[k' v'] ps IH]; simpl.
  - now rewrite Str_eqb_refl.
  - destruct (Str.eqb k' k) eqn:E; simpl.
    + now rewrite Str_eqb_refl.
    + now rewrite E.
Qed.

Lemma lookup_setProp_other (k k0 : jstring) (v : value)
                           (ps : list (jstring * value)) :
  Str.eqb k k0 = false ->
  JS.lookup k0 (JS.setProp k v ps) = JS.lookup k0 ps.
Proof.
  intros Hne. induction ps as [|[k' v'] ps IH]; simpl.
  - now rewrite Hne.
  - destruct (Str.eqb k' k) eqn:E; simpl.
    + apply Str_eqb_eq in E. subst k'. now rewrite Hne.
    + now rewrite IH.
Qed.

Lemma setProp_setProp (k : jstring) (v w : value) (ps : list (jstring * value)) :
  JS.setProp k v (JS.setProp k w ps) = JS.setProp k v ps.
Proof.
  induction ps as [|[k' v'] ps IH]; simpl.
  - now rewrite Str_eqb_refl.
  - destruct (Str.eqb k' k) eqn:E; simpl.
    + now rewrite Str_eqb_refl.
    + now rewrite E, IH.
Qed.

Lemma setProp_lookup (k : jstring) (v : value) (ps : list (jstring * value)) :
  JS.lookup k ps = Some v -> JS.setProp k v ps = ps.
Proof.
  induction ps as [|[k' v'] ps IH]; simpl; [discriminate|].
  destruct (Str.eqb k' k) eqn:E.
  - intros [= ->]. apply Str_eqb_eq in E. now subst.
  - intros H. now rewrite IH.
Qed.

Lemma snoc_neq (A : Type) (l : list A) (x : A) : l ++ [x] = l -> False.
Proof.
  intros H. apply (f_equal (@List.length A)) in H.
  rewrite List.length_app in H. simpl in H. lia.
Qed.

Lemma number_of_text (s : jstring) :
  JS.Number (VStr s) = Ok (Num.StringToNumber s).
Proof. reflexivity. Qed.

Lemma reduceM_app (A : Type) (f : A -> value -> result A)
                  (xs ys : list value) (init : A) :
  JS.reduceM f (xs ++ ys) init = (s <- JS.reduceM f xs init ;; JS.reduceM f ys s).
Proof.
  revert init. induction xs as [|x xs IH]; intros init; simpl; [reflexivity|].
  destruct (f init x); simpl; auto.
Qed.

Lemma run_app (evs1 evs2 : list event) (a : App) :
  run (evs1 ++ evs2) a = (a' <- run evs1 a ;; run evs2 a').
Proof.
  revert a. induction evs1 as [|ev evs1 IH]; intros a; simpl; [reflexivity|].
  destruct (handle ev a); simpl; auto.
Qed.

Lemma alerts_update (f : Store -> result Store) (a a' : App) :
  update f a = Ok a' -> alerts a' = alerts a.
Proof.
  unfold update. destruct (f (store a)); simpl; [|discriminate].
  now intros [= <-].
Qed.

Lemma rejected_alert (msg : jstring) (a : App) : rejected msg a (alert msg a).
Proof. repeat split. Qed.

(** Induction on values, through the lists they nest. *)
Lemma showTab_ok (t : Tab) (a a' : App) :
  showTab t a = Ok a' -> a' = a \/ a' = setTab t a.
Proof.
  unfold showTab.
  destruct t, (tab a); try (intros [= <-]; now left);
    (destruct (render _ _); [|discriminate]); intros [= <-]; now right.
Qed.

Section ValueInduction.

Variable P : value -> Prop.
Hypothesis Hundefined : P VUndefined.
Hypothesis Hnull : P VNull.
Hypothesis Hbool : forall b, P (VBool b).
Hypothesis Hnum : forall n, P (VNum n).
Hypothesis Hstr : forall s, P (VStr s).
Hypothesis Harr : forall xs, Forall P xs -> P (VArr xs).
Hypothesis Hobj : forall ps, Forall (fun p => P (snd p)) ps -> P (VObj ps).
Hypothesis Hbuiltin : forall name, P (VBuiltin name).

Lemma value_induction : forall v : value, P v.
Proof.
  fix IH 1. intros [| |b|n|s|xs|ps|name].
  - exact Hundefined.
  - exact Hnull.
  - exact (Hbool b).
  - exact (Hnum n).
  - exact (Hstr s).
  - apply Harr. induction xs as [|x xs IHxs]; constructor;
      [apply IH | exact IHxs].
  - apply Hobj. induction ps as [|p ps IHps]; constructor;
      [apply IH | exact IHps].
  - exact (Hbuiltin name).
Qed.

End ValueInduction.

(* ================================================================== *)
(** * Reading a document                                               *)
(* ================================================================== *)

Lemma applied_ok (v : value) : isBuiltin v = false -> applied v = Ok v.
Proof. destruct v; simpl; congruence. Qed.

Lemma revive_not_builtin (j : json) : isBuiltin (JSON.revive j) = false.
Proof. destruct j; reflexivity. Qed.

Lemma lookup_revived (k : jstring) (ms : list (jstring * json)) (v : value) :
  JS.lookup k (List.map (fun m => (fst m, JSON.revive (snd m))) ms) = Some v ->
  exists j, In (k, j) ms /\ v = JSON.revive j.
Proof.
  induction ms as [|[k' j] ms IH]; simpl; [discriminate|].
  unfold Str.eqb. destruct (list_eq_dec N.eq_dec k' k) as [->|_].
  - intros [= <-]. exists j. auto.
  - intros H. destruct (IH H) as (j' & Hin & ->). exists j'. auto.
Qed.

Lemma member_not_builtin (ms : list (jstring * json)) (fld : field) :
  isBuiltin (member ms fld) = false.
Proof.
  unfold member.
  destruct (JS.lookup _ _) as [v|] eqn:E; [|reflexivity].
  apply lookup_revived in E. destruct E as (j & _ & ->).
  apply revive_not_builtin.
Qed.

Lemma fallback_not_builtin (fld : field) : isBuiltin (fallback fld) = false.
Proof. destruct fld; reflexivity. Qed.

Lemma orElse_not_builtin (a b : value) :
  isBuiltin a = false -> isBuiltin b = false -> isBuiltin (JS.orElse a b) = false.
Proof. unfold JS.orElse. destruct (JS.truthy a); auto. Qed.

Lemma getProp_document (ms : list (jstring * json)) (fld : field) :
  JS.getProp (JSON.revive (JObject ms)) (key fld) = Ok (member ms fld).
Proof.
  unfold member. simpl. destruct (JS.lookup _ _); reflexivity.
Qed.

Lemma readDocument_object (ms : list (jstring * json)) :
  readDocument (JSON.revive (JObject ms)) = Ok (loaded ms).
Proof.
  unfold readDocument.
  pose proof (getProp_document ms) as H.
  pose proof (H User) as HU. pose proof (H Categories) as HC.
  pose proof (H Entries) as HE. pose proof (H Expenses) as HX.
  pose proof (H Goals) as HG. pose proof (H FixedCosts) as HF.
  cbn [key] in HU, HC, HE, HX, HG, HF.
  rewrite HU, HC, HE, HX, HG, HF. reflexivity.
Qed.

Lemma loaded_field (ms : list (jstring * json)) (fld : field) :
  get fld (loaded ms) = JS.orElse (member ms fld) (fallback fld).
Proof. destruct fld; reflexivity. Qed.

Lemma install_loaded (ms : list (jstring * json)) (a : App) :
  install (loaded ms) a
  = (_ <- render (tab a) (loaded ms) ;; Ok (save (withStore (loaded ms) a))).
Proof.
  unfold install.
  assert (H : forall fld, applied (get fld (loaded ms)) = Ok (get fld (loaded ms))).
  { intros fld. apply applied_ok. rewrite loaded_field.
    apply orElse_not_builtin;
      [apply member_not_builtin | apply fallback_not_builtin]. }
  pose proof (H User) as HU. pose proof (H Categories) as HC.
  pose proof (H Entries) as HE. pose proof (H Expenses) as HX.
  pose proof (H Goals) as HG. pose proof (H FixedCosts) as HF.
  cbn [get] in HU, HC, HE, HX, HG, HF.
  rewrite HU, HC, HE, HX, HG, HF. cbn [bind].
  destruct (loaded ms); reflexivity.
Qed.

Lemma load_object (ms : list (jstring * json)) :
  load (Some (Encoded (JObject ms)))
  = (_ <- render dashboard (loaded ms) ;;
     Ok (save (withStore (loaded ms)
                (save (initialApp (Some (Encoded (JObject ms)))))))).
Proof.
  unfold load. cbn [nonEmpty JSON.parse bind].
  rewrite readDocument_object. apply install_loaded.
Qed.

Lemma import_object (ms : list (jstring * json)) (a : App) :
  importData (Some (Encoded (JObject ms))) a
  = (_ <- render (tab a) (loaded ms) ;;
     Ok (save (withStore (loaded ms)
                (alert (js "Dados importados com sucesso") a)))).
Proof.
  unfold importData. cbn [JSON.parse bind].
  rewrite readDocument_object, install_loaded. reflexivity.
Qed.

(** C10. On load and on import, a top-level field of the document whose
    value is falsy (absent, [null], [false], [0] or the empty string)
    is replaced by its default: the default profile, the default
    category set, or the empty list.  That is what the setter is given;
    it is what the state holds after the load, and after the import,
    whenever the open tab can display the document so read. *)
Theorem falsy_field_takes_default :
  forall (ms : list (jstring * json)) (fld : field) (a : App),
    JS.truthy (member ms fld) = false ->
    (exists next, readDocument (JSON.revive (JObject ms)) = Ok next
                  /\ get fld next = fallback fld)
    /\ (render dashboard (loaded ms) = Ok tt ->
        exists a', load (Some (Encoded (JObject ms))) = Ok a'
                   /\ get fld (store a') = fallback fld)
    /\ (render (tab a) (loaded ms) = Ok tt ->
        exists a', importData (Some (Encoded (JObject ms))) a = Ok a'
                   /\ get fld (store a') = fallback fld).
Proof.
  intros ms fld a Hfalsy.
  assert (E : get fld (loaded ms) = fallback fld).
  { rewrite loaded_field. unfold JS.orElse. now rewrite Hfalsy. }
  split; [|split].
  - exists (loaded ms). split; [apply readDocument_object | exact E].
  - intros Hshow. rewrite load_object, Hshow. cbn [bind].
    eexists. split; [reflexivity | exact E].
  - intros Hshow. rewrite import_object, Hshow. cbn [bind].
    eexists. split; [reflexivity | exact E].
Qed.

Lemma falsy_field_takes_default_witness :
  (exists next, readDocument (JSON.revive (JObject docFalsy)) = Ok next
                /\ get Entries next = fallback Entries)
  /\ (exists a', load (Some (Encoded (JObject docFalsy))) = Ok a'
                 /\ get Entries (store a') = fallback Entries)
  /\ (exists a', importData (Some (Encoded (JObject docFalsy)))
                   (setTab finance (initialApp None)) = Ok a'
                 /\ get Entries (store a') = fallback Entries).
Proof.
  destruct (falsy_field_takes_default docFalsy Entries
              (setTab finance (initialApp None)) eq_refl)
    as (Hread & Hload & Himport).
  split; [exact Hread|].
  split; [apply Hload | apply Himport]; vm_compute; reflexivity.
Defined.

(** C9. Loading applies the defaults field by field: for a stored
    document whose present fields have their documented shapes and
    which the dashboard can display, the load succeeds without an error
    being logged, every field the document has is taken from it and
    every field it lacks gets its default; without a [fixedCosts]
    member the fixed costs are empty. *)
Theorem load_defaults_field_by_field :
  forall ms : list (jstring * json),
    (forall fld, present ms fld = true ->
                 wellShaped fld (member ms fld) = true) ->
    render dashboard (loaded ms) = Ok tt ->
    exists a,
      load (Some (Encoded (JObject ms))) = Ok a
      /\ console a = []
      /\ (forall fld, get fld (store a)
                      = if present ms fld then member ms fld else fallback fld)
      /\ (present ms FixedCosts = false -> fixedCosts (store a) = VArr []).
Proof.
  intros ms Hshape Hshow.
  assert (E : forall fld, get fld (loaded ms)
                          = if present ms fld then member ms fld
                            else fallback fld).
  { intros fld. rewrite loaded_field.
    specialize (Hshape fld). unfold present, JS.hasKey, member in *.
    destruct (JS.lookup _ _) as [v|]; [|reflexivity].
    specialize (Hshape eq_refl). unfold JS.orElse.
    destruct fld, v; simpl in Hshape; try discriminate; reflexivity. }
  rewrite load_object, Hshow. cbn [bind].
  eexists. split; [reflexivity|].
  split; [reflexivity|]. split; [exact E|].
  intros Hmiss. specialize (E FixedCosts). rewrite Hmiss in E. exact E.
Qed.

Lemma load_defaults_field_by_field_witness :
  exists a,
    load (Some (Encoded (JObject docNoFixedCosts))) = Ok a
    /\ console a = []
    /\ (forall fld, get fld (store a)
                    = if present docNoFixedCosts fld
                      then member docNoFixedCosts fld else fallback fld)
    /\ (present docNoFixedCosts FixedCosts = false
        -> fixedCosts (store a) = VArr []).
Proof.
  apply (load_defaults_field_by_field docNoFixedCosts).
  - intros fld; destruct fld; vm_compute; congruence.
  - vm_compute. reflexivity.
Defined.

(* ================================================================== *)
(** * Importing a file that is not JSON                                *)
(* ================================================================== *)

(** C3. Importing a file whose contents are not parseable JSON is not
    fatal: the handler returns, the six collections, the forms and the
    stored document are what they were, and the user is told that the
    import failed. *)
Theorem import_invalid_json_keeps_state :
  forall (contents : text) (a : App),
    JSON.parse contents = Throw SyntaxError ->
    exists a',
      importData (Some contents) a = Ok a'
      /\ store a' = store a
      /\ localStorage a' = localStorage a
      /\ alerts a' = alerts a ++ [js "Falha ao importar: arquivo inválido"].
Proof.
  intros contents a Hparse. unfold importData. rewrite Hparse.
  cbn [bind]. eexists. split; [reflexivity|]. repeat split.
Qed.

Lemma import_invalid_json_keeps_state_witness :
  exists a',
    importData (Some Malformed) (initialApp None) = Ok a'
    /\ store a' = store (initialApp None)
    /\ localStorage a' = localStorage (initialApp None)
    /\ alerts a' = alerts (initialApp None)
                   ++ [js "Falha ao importar: arquivo inválido"].
Proof.
  apply (import_invalid_json_keeps_state Malformed (initialApp None)).
  reflexivity.
Defined.

(* ================================================================== *)
(** * Validation of the add handlers                                   *)
(* ================================================================== *)

(** C4. [addEntry] rejects the form exactly when the value typed reads
    as zero or as no number, or the description is empty; a rejection is
    an alert that leaves the state and the stored document as they
    were.  Otherwise the new item goes in front of the income or of the
    expense list, with the id [uid] generated and with today's date when
    the form has none, the state is saved and the form is cleared.  An
    expense of value 0, described "coffee", in category "Food", is
    rejected. *)
Theorem addEntry_validates_and_prepends :
  forall (r now : jstring) (a : App),
    let f := form a in
    let v := Num.StringToNumber (Form.value f) in
    let item :=
      VObj [ (js "id", VStr (uid r)); (js "value", VNum v);
             (js "desc", VStr (Form.desc f)); (js "cat", VStr (Form.cat f));
             (js "date", VStr (if Str.isEmpty (Form.date f)
                               then Str.slice 0 10 now else Form.date f)) ] in
    ((exists a', addEntry r now a = Ok a'
                 /\ rejected (js "Preencha descrição e valor") a a')
     <-> Num.isFalsy v || Str.isEmpty (Form.desc f) = true)
    /\ (Num.isFalsy v || Str.isEmpty (Form.desc f) = false ->
        (Str.eqb (Form.type f) (js "income") = true ->
         forall xs, entries (store a) = VArr xs ->
           addEntry r now a
           = Ok (setForm (Form.cleared f)
                   (save (withStore (setEntries (VArr (item :: xs)) (store a)) a))))
        /\ (Str.eqb (Form.type f) (js "income") = false ->
            forall xs, expenses (store a) = VArr xs ->
              addEntry r now a
              = Ok (setForm (Form.cleared f)
                      (save (withStore (setExpenses (VArr (item :: xs)) (store a)) a)))))
    /\ (exists a',
          addEntry r now
            (setForm (Form.make (js "expense") (js "0") (js "coffee")
                                (js "Food") []) a) = Ok a'
          /\ rejected (js "Preencha descrição e valor")
               (setForm (Form.make (js "expense") (js "0") (js "coffee")
                                   (js "Food") []) a) a').
Proof.
  intros r now a f v item. split; [|split].
  - unfold addEntry. rewrite number_of_text. cbn [bind]. fold f v.
    destruct (Num.isFalsy v || Str.isEmpty (Form.desc f)) eqn:Hc.
    + split; [reflexivity|]. intros _. eexists. split; [reflexivity|].
      apply rejected_alert.
    + split; [|discriminate]. intros (a' & Hrun & Hrej). exfalso.
      destruct Hrej as (_ & _ & _ & _ & Halerts).
      destruct (Str.eqb (Form.type f) (js "income"));
        match type of Hrun with
        | (x <- ?u ;; _) = _ => destruct u as [a1|] eqn:Hu; [|discriminate]
        end;
        cbn [bind] in Hrun; injection Hrun as <-;
        apply alerts_update in Hu; simpl in Halerts; rewrite Hu in Halerts;
        symmetry in Halerts; exact (@snoc_neq _ _ _ Halerts).
  - intros Hc. unfold addEntry. rewrite number_of_text. cbn [bind]. fold f v.
    rewrite Hc. split; intros Hty xs Hxs; rewrite Hty;
      unfold update, prepend; rewrite Hxs; reflexivity.
  - eexists. split; [reflexivity|]. apply rejected_alert.
Qed.

(** C6, as the code has it. [addGoal] rejects the form exactly when the
    name is empty or the price typed reads as zero or as no number; a
    rejection is an alert that leaves the state and the stored document
    as they were.  Otherwise a goal with the name, the priority and the
    numeric price of the form, not yet bought, goes in front of the
    list, the state is saved and the form is reset. *)
Theorem addGoal_validates_and_prepends :
  forall (r : jstring) (a : App),
    let f := goalForm a in
    let price := Num.StringToNumber (GoalForm.price f) in
    let goal :=
      VObj [ (js "id", VStr (uid r)); (js "name", VStr (GoalForm.name f));
             (js "price", VNum price);
             (js "priority", VStr (GoalForm.priority f));
             (js "bought", VBool false) ] in
    ((exists a', addGoal r a = Ok a'
                 /\ rejected (js "Preencha nome e preço do desejo") a a')
     <-> Str.isEmpty (GoalForm.name f) || Num.isFalsy price = true)
    /\ (Str.isEmpty (GoalForm.name f) || Num.isFalsy price = false ->
        forall gs, goals (store a) = VArr gs ->
          addGoal r a
          = Ok (setGoalForm (GoalForm.make [] [] (js "Média"))
                  (save (withStore (setGoals (VArr (goal :: gs)) (store a)) a)))).
Proof.
  intros r a f price goal. split.
  - unfold addGoal. rewrite number_of_text. cbn [bind]. fold f price.
    destruct (Str.isEmpty (GoalForm.name f) || Num.isFalsy price) eqn:Hc.
    + split; [reflexivity|]. intros _. eexists. split; [reflexivity|].
      apply rejected_alert.
    + split; [|discriminate]. intros (a' & Hrun & Hrej). exfalso.
      destruct Hrej as (_ & _ & _ & _ & Halerts).
      match type of Hrun with
      | (x <- ?u ;; _) = _ => destruct u as [a1|] eqn:Hu; [|discriminate]
      end.
      cbn [bind] in Hrun. injection Hrun as <-.
      apply alerts_update in Hu. simpl in Halerts. rewrite Hu in Halerts.
      symmetry in Halerts. exact (@snoc_neq _ _ _ Halerts).
  - intros Hc gs Hgs. unfold addGoal. rewrite number_of_text. cbn [bind].
    fold f price. rewrite Hc. unfold update, prepend. rewrite Hgs.
    reflexivity.
Qed.

(** C6, as the specification has it, fails: a price of [-5] is not
    positive, and the goal is added. *)
Lemma addGoal_accepts_negative_price :
  (Num.StringToNumber (js "-5") <=? 0)%float = true
  /\ (a <- addGoal (js "0.k3j5h2x9q")
            (setGoalForm (GoalForm.make (js "Bike") (js "-5") (js "Alta"))
               (initialApp None)) ;;
      Ok (goals (store a)))
     = Ok (VArr [ VObj [ (js "id", VStr (js "k3j5h2x"));
                         (js "name", VStr (js "Bike"));
                         (js "price", VNum (-5)%float);
                         (js "priority", VStr (js "Alta"));
                         (js "bought", VBool false) ] ]).
Proof. split; vm_compute; reflexivity. Qed.

(* ================================================================== *)
(** * Toggling a goal                                                  *)
(* ================================================================== *)

Lemma toggled_goal (id : jstring) (g : value) :
  isGoal g ->
  exists g1, toggled id g = Ok g1
             /\ isGoal g1
             /\ flipped id g g1
             /\ toggled id g1 = Ok g
             /\ (hasId id g = false -> g1 = g).
Proof.
  intros (props & b & -> & Hb).
  assert (Hkeys : Str.eqb (js "bought") (js "id") = false) by reflexivity.
  assert (Hgoal : isGoal (VObj props)) by (exists props, b; auto).
  destruct (hasId id (VObj props)) eqn:Hhas.
  - unfold hasId in Hhas. cbn [JS.getProp] in Hhas.
    exists (VObj (JS.setProp (js "bought") (VBool (negb b)) props)).
    assert (Hid1 : JS.getProp (VObj (JS.setProp (js "bought") (VBool (negb b)) props))
                     (js "id") = JS.getProp (VObj props) (js "id")).
    { cbn [JS.getProp]. now rewrite lookup_setProp_other by exact Hkeys. }
    assert (Hb1 : JS.getProp (VObj (JS.setProp (js "bought") (VBool (negb b)) props))
                    (js "bought") = Ok (VBool (negb b))).
    { cbn [JS.getProp]. now rewrite lookup_setProp_same. }
    assert (Hb0 : JS.getProp (VObj props) (js "bought") = Ok (VBool b)).
    { cbn [JS.getProp]. now rewrite Hb. }
    assert (Hx : exists x, JS.getProp (VObj props) (js "id") = Ok x
                           /\ JS.strictEqStr x id = true).
    { cbn [JS.getProp]. destruct (JS.lookup (js "id") props); eauto. }
    destruct Hx as (x & Hgx & Hx).
    split; [|split; [|split; [|split]]].
    + unfold toggled. rewrite Hgx. cbn [bind]. rewrite Hx, Hb0. reflexivity.
    + eexists _, (negb b). split; [reflexivity|]. apply lookup_setProp_same.
    + unfold flipped, hasId. rewrite Hgx, Hx. split; [now rewrite Hid1|].
      exists b. auto.
    + unfold toggled. rewrite Hid1, Hgx. cbn [bind]. rewrite Hx, Hb1.
      cbn [bind JS.not JS.truthy JS.spreadObject].
      unfold JS.not. cbn [JS.truthy]. rewrite setProp_setProp, negb_involutive.
      now rewrite setProp_lookup by exact Hb.
    + discriminate.
  - exists (VObj props).
    assert (Ht : toggled id (VObj props) = Ok (VObj props)).
    { unfold toggled. unfold hasId in Hhas.
      destruct (JS.getProp (VObj props) (js "id")) as [x|] eqn:E.
      - cbn [bind]. now rewrite Hhas.
      - cbn [JS.getProp] in E. destruct (JS.lookup (js "id") props); discriminate. }
    repeat split; auto. unfold flipped. now rewrite Hhas.
Qed.

Lemma toggled_goals (id : jstring) (gs : list value) :
  Forall isGoal gs ->
  exists gs1, JS.mapM (toggled id) gs = Ok gs1
              /\ Forall isGoal gs1
              /\ Forall2 (flipped id) gs gs1
              /\ JS.mapM (toggled id) gs1 = Ok gs
              /\ (forallb (fun g => negb (hasId id g)) gs = true -> gs1 = gs).
Proof.
  induction 1 as [|g gs Hg _ IH].
  - exists []. repeat split; constructor.
  - destruct IH as (gs1 & Hmap & Hgoals & Hflip & Hback & Hsame).
    destruct (toggled_goal id Hg) as (g1 & Hg1 & Hgoal1 & Hf & Hb & Hs).
    exists (g1 :: gs1). cbn [JS.mapM].
    rewrite Hg1, Hmap, Hb, Hback. cbn [bind].
    repeat split; try constructor; auto.
    cbn [forallb]. intros H. apply andb_prop in H. destruct H as [H1 H2].
    rewrite Hs, Hsame; auto.
    now destruct (hasId id g).
Qed.

(** C8. On a list of goals, [toggleGoal id] flips [bought] on every goal
    that has the id and leaves the other goals and the rest of the store
    alone; a second [toggleGoal id] gives back the store there was; and
    when no goal has the id the store does not change. *)
Theorem toggleGoal_flips_and_restores :
  forall (id : jstring) (a : App) (gs : list value),
    goals (store a) = VArr gs ->
    Forall isGoal gs ->
    exists a1 gs1,
      toggleGoal id a = Ok a1
      /\ store a1 = setGoals (VArr gs1) (store a)
      /\ Forall2 (flipped id) gs gs1
      /\ (exists a2, toggleGoal id a1 = Ok a2 /\ store a2 = store a)
      /\ (forallb (fun g => negb (hasId id g)) gs = true -> store a1 = store a).
Proof.
  intros id a gs Hgs Hgoals.
  destruct (toggled_goals id Hgoals) as (gs1 & Hmap & _ & Hflip & Hback & Hsame).
  unfold toggleGoal, update, JS.map. rewrite Hgs. cbn [JS.asArray bind].
  rewrite Hmap. cbn [bind].
  eexists _, gs1. split; [reflexivity|]. split; [reflexivity|].
  split; [exact Hflip|]. split.
  - cbn [store withStore save setItem goals setGoals JS.asArray bind].
    rewrite Hback. cbn [bind]. eexists. split; [reflexivity|].
    cbn. destruct (store a); simpl in *. now subst.
  - intros H. rewrite (Hsame H). cbn.
    destruct (store a); simpl in *. now subst.
Qed.

Lemma toggleGoal_flips_and_restores_witness :
  exists a1 gs1,
    toggleGoal (js "k3j5h2x") bikeApp = Ok a1
    /\ store a1 = setGoals (VArr gs1) (store bikeApp)
    /\ Forall2 (flipped (js "k3j5h2x")) [bikeGoal] gs1
    /\ (exists a2, toggleGoal (js "k3j5h2x") a1 = Ok a2
                   /\ store a2 = store bikeApp)
    /\ (forallb (fun g => negb (hasId (js "k3j5h2x") g)) [bikeGoal] = true
        -> store a1 = store bikeApp).
Proof.
  apply (@toggleGoal_flips_and_restores (js "k3j5h2x") bikeApp [bikeGoal]).
  - reflexivity.
  - constructor; [|constructor].
    eexists _, false. split; reflexivity.
Defined.

(* ================================================================== *)
(** * The derived totals                                               *)
(* ================================================================== *)

(** C5, as the code has it. A ledger item or fixed cost whose stored
    value is falsy (absent, [null], [false], [0], [NaN] or the empty
    string) is read as 0 by the totals: wherever it stands in its list,
    it adds 0 to the running sum. *)
Theorem falsy_value_reads_as_zero :
  forall (e v : value),
    JS.getProp e (js "value") = Ok v ->
    JS.truthy v = false ->
    reading e = Ok 0%float
    /\ (forall s, addValue s e = Ok (s + 0)%float)
    /\ (forall before after,
          sumValues (VArr (before ++ e :: after))
          = (s <- sumValues (VArr before) ;;
             JS.reduceM addValue after (s + 0)%float)).
Proof.
  intros e v Hv Hfalsy.
  assert (Hr : reading e = Ok 0%float).
  { unfold reading. rewrite Hv. cbn [bind]. unfold JS.orElse.
    rewrite Hfalsy. reflexivity. }
  assert (Ha : forall s, addValue s e = Ok (s + 0)%float).
  { intros s. unfold addValue. now rewrite Hr. }
  repeat split; auto.
  intros before after. unfold sumValues, JS.reduce. cbn [JS.asArray bind].
  rewrite reduceM_app.
  destruct (JS.reduceM addValue before 0%float) as [s|]; cbn [bind JS.reduceM];
    [|reflexivity].
  now rewrite Ha.
Qed.

Lemma falsy_value_reads_as_zero_witness :
  reading (VObj [(js "id", VStr (js "e1")); (js "value", VNull)]) = Ok 0%float
  /\ (forall s, addValue s (VObj [(js "id", VStr (js "e1")); (js "value", VNull)])
                = Ok (s + 0)%float)
  /\ (forall before after,
        sumValues (VArr (before ++ VObj [(js "id", VStr (js "e1"));
                                         (js "value", VNull)] :: after))
        = (s <- sumValues (VArr before) ;;
           JS.reduceM addValue after (s + 0)%float)).
Proof.
  apply (@falsy_value_reads_as_zero
           (VObj [(js "id", VStr (js "e1")); (js "value", VNull)]) VNull);
    reflexivity.
Defined.

(** C5, as the specification has it, fails. A stored [true] is not a
    number and counts as 1; a stored ["abc"] makes the income and the
    balance [NaN]; and a value typed as [1e999] is stored as [Infinity],
    so the totals are not finite either. *)
Lemma totals_read_non_numeric_values :
  (a <- load (Some (Encoded (JObject
         [ (js "entries",
            JArray [ JObject [ (js "id", JString (js "e1"));
                               (js "value", JBool true) ] ]) ]))) ;;
   totalIncome (store a)) = Ok 1%float
  /\ (a <- load (Some (Encoded (JObject
            [ (js "entries",
               JArray [ JObject [ (js "id", JString (js "e1"));
                                  (js "value", JString (js "abc")) ] ]) ]))) ;;
      t <- computeTotals (store a) ;;
      Ok (Num.isNaN (income t), Num.isFinite (balance t))) = Ok (true, false)
  /\ (a <- load None ;;
      a <- run [ EditForm (Form.make (js "income") (js "1e999") (js "bonus")
                                     (js "Outros") []);
                 AddEntry (js "0.4fzyo82mvyr") (js "2024-05-18T12:00:00.000Z") ] a ;;
      t <- computeTotals (store a) ;;
      Ok (Num.isFinite (income t), Num.isFinite (balance t))) = Ok (false, false).
Proof. repeat split; vm_compute; reflexivity. Qed.

(** ** The program's totals are the specification's *)

Lemma reading_encodeItem (i : Spec.LedgerItem) :
  reading (encodeItem i) = Ok (Spec.numeric (Spec.value i)).
Proof.
  unfold reading.
  assert (H : JS.getProp (encodeItem i) (js "value") = Ok (VNum (Spec.value i)))
    by reflexivity.
  rewrite H. cbn [bind].
  unfold JS.orElse, JS.truthy, Num.isFalsy, Spec.numeric, Spec.isAmount.
  destruct (classify (Spec.value i)); reflexivity.
Qed.

Lemma reading_encodeCost (c : Spec.FixedCost) :
  reading (encodeCost c) = Ok (Spec.numeric (Spec.costValue c)).
Proof.
  unfold reading.
  assert (H : JS.getProp (encodeCost c) (js "value") = Ok (VNum (Spec.costValue c)))
    by reflexivity.
  rewrite H. cbn [bind].
  unfold JS.orElse, JS.truthy, Num.isFalsy, Spec.numeric, Spec.isAmount.
  destruct (classify (Spec.costValue c)); reflexivity.
Qed.

Lemma sumValues_encoded (A : Type) (enc : A -> value) (val : A -> float) :
  (forall x, reading (enc x) = Ok (Spec.numeric (val x))) ->
  forall l, sumValues (VArr (List.map enc l))
            = Ok (Spec.sum (List.map (fun x => Spec.numeric (val x)) l)).
Proof.
  intros Hread l. unfold sumValues, JS.reduce, Spec.sum.
  cbn [JS.asArray bind]. generalize 0%float.
  induction l as [|x l IH]; intros s; simpl; [reflexivity|].
  unfold addValue at 1. rewrite Hread. cbn [bind]. apply IH.
Qed.

Lemma numeric_amounts (l : list Spec.LedgerItem) :
  Forall (fun i => Spec.isAmount (Spec.value i) = true) l ->
  List.map (fun i => Spec.numeric (Spec.value i)) l = List.map Spec.value l.
Proof.
  induction 1 as [|i l Hi _ IH]; [reflexivity|].
  cbn [List.map]. unfold Spec.numeric at 1. now rewrite Hi, IH.
Qed.

Lemma without_encoded (id0 : jstring) (l : list Spec.LedgerItem) :
  without id0 (VArr (List.map encodeItem l))
  = Ok (VArr (List.map encodeItem
                (List.filter (fun i => negb (Str.eqb (Spec.id i) id0)) l))).
Proof.
  unfold without, JS.filter. cbn [JS.asArray bind].
  induction l as [|i l IH]; [reflexivity|].
  cbn [List.map JS.filterM List.filter].
  assert (H : JS.getProp (encodeItem i) (js "id") = Ok (VStr (Spec.id i)))
    by reflexivity.
  rewrite H. cbn [bind JS.strictEqStr].
  destruct (JS.filterM _ (List.map encodeItem l)) as [ys|]; [|discriminate].
  injection IH as IH. cbn [bind]. rewrite IH.
  now destruct (negb (Str.eqb (Spec.id i) id0)).
Qed.

Lemma represents_totals (s : Store) (st : Spec.State) :
  represents s st -> Spec.wellFormed st ->
  totalIncome s = Ok (Spec.totalIncome st)
  /\ totalExpenses s = Ok (Spec.totalExpenses st)
  /\ projectedBalance s = Ok (Spec.projectedBalance st)
  /\ computeTotals s = Ok (Spec.computeTotals st).
Proof.
  intros (Hin & Hout & Hfix) (Hwi & Hwo).
  assert (Hi : totalIncome s = Ok (Spec.totalIncome st)).
  { unfold totalIncome, Spec.totalIncome. rewrite Hin.
    rewrite (sumValues_encoded encodeItem Spec.value reading_encodeItem).
    now rewrite numeric_amounts. }
  assert (He : totalExpenses s = Ok (Spec.totalExpenses st)).
  { unfold totalExpenses, Spec.totalExpenses. rewrite Hout.
    rewrite (sumValues_encoded encodeItem Spec.value reading_encodeItem).
    now rewrite numeric_amounts. }
  assert (Hb : projectedBalance s = Ok (Spec.projectedBalance st)).
  { unfold projectedBalance. rewrite Hi, He, Hfix.
    rewrite (sumValues_encoded encodeCost Spec.costValue reading_encodeCost).
    reflexivity. }
  repeat split; auto.
  unfold computeTotals. now rewrite Hi, He, Hb.
Qed.

Lemma apply_wellFormed (o : Spec.op) (st : Spec.State) :
  Spec.wellFormed st -> Spec.wellFormed (Spec.apply o st).
Proof.
  intros Hw. pose proof Hw as (Hwi & Hwo).
  destruct o as [k v d c dt r now | k id0]; cbn [Spec.apply].
  - assert (Hadd : forall i,
               Spec.isAmount (Spec.value i) = true ->
               Spec.wellFormed (Spec.withLedger k (i :: Spec.ledger k st) st)).
    { intros i Hi. destruct k; split; cbn; auto. }
    destruct (classify (Num.StringToNumber v)) eqn:Hc; try exact Hw;
      (destruct d; [exact Hw|]); apply Hadd; cbn [Spec.value];
      unfold Spec.isAmount; now rewrite Hc.
  - assert (Hf : forall l : list Spec.LedgerItem,
               Forall (fun i => Spec.isAmount (Spec.value i) = true) l ->
               Forall (fun i => Spec.isAmount (Spec.value i) = true)
                 (List.filter (fun i => negb (Str.eqb (Spec.id i) id0)) l)).
    { intros l Hl. apply Forall_forall. intros i Hin.
      apply filter_In in Hin. destruct Hin as [Hin _].
      revert i Hin. now apply Forall_forall. }
    destruct k; split; cbn; auto.
Qed.

Lemma represents_withLedger (k : Spec.Kind) (s : Store) (st : Spec.State)
                            (l : list Spec.LedgerItem) :
  represents s st ->
  represents (match k with
              | Spec.Income => setEntries (VArr (List.map encodeItem l)) s
              | Spec.Expense => setExpenses (VArr (List.map encodeItem l)) s
              end)
             (Spec.withLedger k l st).
Proof. intros (Hin & Hout & Hfix). destruct k; repeat split; assumption. Qed.

Lemma ledger_represented (k : Spec.Kind) (s : Store) (st : Spec.State) :
  represents s st ->
  (match k with Spec.Income => entries s | Spec.Expense => expenses s end)
  = VArr (List.map encodeItem (Spec.ledger k st)).
Proof. intros (Hin & Hout & Hfix). destruct k; assumption. Qed.

Lemma prepend_represented (k : Spec.Kind) (a : App) (st : Spec.State)
                          (i : Spec.LedgerItem) :
  represents (store a) st ->
  exists a',
    (if Str.eqb (kindName k) (js "income")
     then update (fun s => e <- prepend (encodeItem i) (entries s) ;;
                           Ok (setEntries e s)) a
     else update (fun s => e <- prepend (encodeItem i) (expenses s) ;;
                           Ok (setExpenses e s)) a) = Ok a'
    /\ represents (store a') (Spec.withLedger k (i :: Spec.ledger k st) st).
Proof.
  intros Hrep.
  pose proof (ledger_represented k Hrep) as Hl.
  pose proof (@represents_withLedger k (store a) st (i :: Spec.ledger k st) Hrep)
    as Hw.
  destruct k; cbn [kindName].
  - replace (Str.eqb (js "income") (js "income")) with true by reflexivity.
    unfold update, prepend. rewrite Hl. cbn [JS.spreadArray bind].
    eexists. split; [reflexivity|]. exact Hw.
  - replace (Str.eqb (js "expense") (js "income")) with false by reflexivity.
    unfold update, prepend. rewrite Hl. cbn [JS.spreadArray bind].
    eexists. split; [reflexivity|]. exact Hw.
Qed.

Lemma addEntry_refines (k : Spec.Kind) (v d c dt r now : jstring)
                       (a : App) (st : Spec.State) :
  represents (store a) st ->
  exists a',
    addEntry r now (setForm (Form.make (kindName k) v d c dt) a) = Ok a'
    /\ represents (store a')
         (Spec.apply (Spec.addLedgerItem k v d c dt r now) st).
Proof.
  intros Hrep. unfold addEntry.
  cbn [form setForm Form.value Form.desc Form.date Form.cat Form.type].
  rewrite number_of_text. cbn [bind Spec.apply].
  set (n := Num.StringToNumber v).
  set (f := Form.make (kindName k) v d c dt).
  assert (Hrej : exists a',
             Ok (alert (js "Preencha descrição e valor") (setForm f a)) = Ok a'
             /\ represents (store a') st) by (eexists; split; eauto).
  assert (Hacc : forall d0 d',
             d = d0 :: d' ->
             exists a',
               (a1 <- (if Str.eqb (kindName k) (js "income")
                       then update (fun s =>
                              e <- prepend
                                (VObj [ (js "id", VStr (uid r)); (js "value", VNum n);
                                        (js "desc", VStr d); (js "cat", VStr c);
                                        (js "date",
                                         VStr (if Str.isEmpty dt
                                               then Str.slice 0 10 now else dt)) ])
                                (entries s) ;;
                              Ok (setEntries e s)) (setForm f a)
                       else update (fun s =>
                              e <- prepend
                                (VObj [ (js "id", VStr (uid r)); (js "value", VNum n);
                                        (js "desc", VStr d); (js "cat", VStr c);
                                        (js "date",
                                         VStr (if Str.isEmpty dt
                                               then Str.slice 0 10 now else dt)) ])
                                (expenses s) ;;
                              Ok (setExpenses e s)) (setForm f a)) ;;
                Ok (setForm (Form.cleared f) a1)) = Ok a'
               /\ represents (store a')
                    (Spec.withLedger k
                       (Spec.mkItem (uid r) n d c
                          match dt with [] => Str.slice 0 10 now | _ :: _ => dt end
                        :: Spec.ledger k st) st)).
  { intros d0 d' Hd.
    destruct (@prepend_represented k (setForm f a) st
                (Spec.mkItem (uid r) n d c
                   match dt with [] => Str.slice 0 10 now | _ :: _ => dt end) Hrep)
      as (a1 & Hrun & Hrep1).
    assert (Henc : encodeItem
                     (Spec.mkItem (uid r) n d c
                        match dt with [] => Str.slice 0 10 now | _ :: _ => dt end)
                   = VObj [ (js "id", VStr (uid r)); (js "value", VNum n);
                            (js "desc", VStr d); (js "cat", VStr c);
                            (js "date",
                             VStr (if Str.isEmpty dt
                                   then Str.slice 0 10 now else dt)) ])
      by (destruct dt; reflexivity).
    rewrite Henc in Hrun. rewrite Hrun. cbn [bind].
    eexists. split; [reflexivity|]. exact Hrep1. }
  unfold Num.isFalsy.
  destruct (classify n); cbn [orb]; try exact Hrej;
    (destruct d as [|d0 d']; [exact Hrej|]);
    cbn [Str.isEmpty]; exact (Hacc d0 d' eq_refl).
Qed.

Lemma removeItem_refines (k : Spec.Kind) (id0 : jstring)
                         (a : App) (st : Spec.State) :
  represents (store a) st ->
  exists a',
    removeItem id0 (kindName k) true a = Ok a'
    /\ represents (store a') (Spec.apply (Spec.removeLedgerItem k id0) st).
Proof.
  intros Hrep. unfold removeItem. cbn [negb Spec.apply].
  pose proof (ledger_represented k Hrep) as Hl.
  pose proof (@represents_withLedger k (store a) st
                (List.filter (fun i => negb (Str.eqb (Spec.id i) id0))
                   (Spec.ledger k st)) Hrep) as Hw.
  destruct k; cbn [kindName].
  - replace (Str.eqb (js "income") (js "income")) with true by reflexivity.
    replace (Str.eqb (js "income") (js "expense")) with false by reflexivity.
    unfold update. rewrite Hl, without_encoded. cbn [bind].
    eexists. split; [reflexivity|]. exact Hw.
  - replace (Str.eqb (js "expense") (js "income")) with false by reflexivity.
    replace (Str.eqb (js "expense") (js "expense")) with true by reflexivity.
    cbn [bind]. unfold update. rewrite Hl, without_encoded. cbn [bind].
    eexists. split; [reflexivity|]. exact Hw.
Qed.

Lemma events_refine (o : Spec.op) (a : App) (st : Spec.State) :
  represents (store a) st ->
  exists a', run (events o) a = Ok a'
             /\ represents (store a') (Spec.apply o st).
Proof.
  intros Hrep. destruct o as [k v d c dt r now | k id0].
  - destruct (addEntry_refines k v d c dt r now a Hrep) as (a' & Hrun & Hrep').
    exists a'. cbn [events run handle bind]. rewrite Hrun. auto.
  - destruct (removeItem_refines k id0 a Hrep) as (a' & Hrun & Hrep').
    exists a'. cbn [events run handle bind]. rewrite Hrun. auto.
Qed.

(** C1. Whatever sequence of [addLedgerItem] and [removeLedgerItem]
    operations is performed on a store that holds a ledger, the run
    succeeds, the store holds the ledger the specification arrives at,
    and the computed totals are the specification's: the income is the
    sum of the values of the income items now present, the expenses
    likewise, and the balance is the income minus the expenses minus
    the sum of the values of the fixed costs. *)
Theorem totals_follow_the_ledger :
  forall (ops : list Spec.op) (a : App) (st : Spec.State),
    represents (store a) st ->
    Spec.wellFormed st ->
    exists a',
      run (flat_map events ops) a = Ok a'
      /\ represents (store a') (Spec.applyAll ops st)
      /\ Spec.wellFormed (Spec.applyAll ops st)
      /\ totalIncome (store a')
         = Ok (Spec.sum (List.map Spec.value (Spec.incomes (Spec.applyAll ops st))))
      /\ totalExpenses (store a')
         = Ok (Spec.sum (List.map Spec.value (Spec.outgoings (Spec.applyAll ops st))))
      /\ projectedBalance (store a')
         = Ok (Spec.totalIncome (Spec.applyAll ops st)
               - Spec.totalExpenses (Spec.applyAll ops st)
               - Spec.sum (List.map (fun c => Spec.numeric (Spec.costValue c))
                             (Spec.fixed (Spec.applyAll ops st))))%float
      /\ computeTotals (store a') = Ok (Spec.computeTotals (Spec.applyAll ops st)).
Proof.
  induction ops as [|o ops IH]; intros a st Hrep Hwf.
  - exists a. cbn [flat_map run Spec.applyAll fold_left].
    destruct (represents_totals Hrep Hwf) as (Hi & He & Hb & Ht).
    split; [reflexivity|]. split; [exact Hrep|]. split; [exact Hwf|].
    split; [exact Hi|]. split; [exact He|]. split; [exact Hb | exact Ht].
  - destruct (events_refine o a Hrep) as (a1 & Hrun1 & Hrep1).
    destruct (IH a1 _ Hrep1 (apply_wellFormed o Hwf)) as (a' & Hrun & Hrest).
    exists a'. cbn [flat_map]. rewrite run_app, Hrun1. cbn [bind].
    split; [exact Hrun|]. exact Hrest.
Qed.

Lemma totals_follow_the_ledger_witness :
  exists a',
    run (flat_map events sampleOps) (initialApp None) = Ok a'
    /\ represents (store a')
         (Spec.applyAll sampleOps (Spec.mkState [] [] []))
    /\ Spec.wellFormed (Spec.applyAll sampleOps (Spec.mkState [] [] []))
    /\ totalIncome (store a')
       = Ok (Spec.sum (List.map Spec.value
               (Spec.incomes (Spec.applyAll sampleOps (Spec.mkState [] [] [])))))
    /\ totalExpenses (store a')
       = Ok (Spec.sum (List.map Spec.value
               (Spec.outgoings (Spec.applyAll sampleOps (Spec.mkState [] [] [])))))
    /\ projectedBalance (store a')
       = Ok (Spec.totalIncome (Spec.applyAll sampleOps (Spec.mkState [] [] []))
             - Spec.totalExpenses (Spec.applyAll sampleOps (Spec.mkState [] [] []))
             - Spec.sum (List.map (fun c => Spec.numeric (Spec.costValue c))
                           (Spec.fixed (Spec.applyAll sampleOps
                                          (Spec.mkState [] [] [])))))%float
    /\ computeTotals (store a')
       = Ok (Spec.computeTotals (Spec.applyAll sampleOps (Spec.mkState [] [] []))).
Proof.
  apply (@totals_follow_the_ledger sampleOps (initialApp None)
           (Spec.mkState [] [] [])).
  - repeat split.
  - split; constructor.
Defined.

(* ================================================================== *)
(** * Export and import                                                *)
(* ================================================================== *)


(** ** Writing a value and reading it back *)

Lemma serialize_revive (v : value) :
  plain v = true -> finiteNumbers v = true ->
  exists j, JSON.serialize v = Some j /\ JSON.revive j = v.
Proof.
  induction v as [| |b|n|s|xs IH|ps IH|name] using value_induction;
    intros Hplain Hfin; try discriminate; try (eexists; split; reflexivity).
  - cbn [finiteNumbers] in Hfin. apply andb_prop in Hfin.
    destruct Hfin as [Hf Hz]. cbn [JSON.serialize]. rewrite Hf.
    destruct (Num.isNegZero n); [discriminate|]. eexists. split; reflexivity.
  - cbn [JSON.serialize]. eexists. split; [reflexivity|].
    cbn [JSON.revive]. f_equal. cbn [plain finiteNumbers] in Hplain, Hfin.
    induction IH as [|x xs Hx _ IHxs]; [reflexivity|].
    cbn [forallb] in Hplain, Hfin.
    apply andb_prop in Hplain. apply andb_prop in Hfin.
    destruct Hplain as [Hp1 Hp2], Hfin as [Hf1 Hf2].
    destruct (Hx Hp1 Hf1) as (j & Hj & Hr).
    cbn [List.map]. rewrite Hj, Hr. f_equal. auto.
  - cbn [JSON.serialize]. eexists. split; [reflexivity|].
    cbn [JSON.revive]. f_equal. cbn [plain finiteNumbers] in Hplain, Hfin.
    induction IH as [|[k x] ps Hx _ IHps]; [reflexivity|].
    cbn [forallb snd] in Hplain, Hfin.
    apply andb_prop in Hplain. apply andb_prop in Hfin.
    destruct Hplain as [Hp1 Hp2], Hfin as [Hf1 Hf2].
    destruct (Hx Hp1 Hf1) as (j & Hj & Hr).
    cbn [flat_map snd fst]. cbn [snd] in Hj. rewrite Hj.
    cbn [app List.map fst snd]. rewrite Hr. f_equal. auto.
Qed.

Lemma import_of_export (a b : App) :
  soundStore (store a) -> finiteStore (store a) ->
  render (tab b) (store a) = Ok tt ->
  exists b', importData (Some (snd (exportData a))) b = Ok b'
             /\ store b' = store a.
Proof.
  intros Hsound Hfin Hshow.
  assert (H : forall fld, exists j,
               JSON.serialize (get fld (store a)) = Some j
               /\ JSON.revive j = get fld (store a)).
  { intros fld. apply serialize_revive; [apply Hsound | apply Hfin]. }
  destruct (H User) as (ju & Hu & Ru). destruct (H Categories) as (jc & Hc & Rc).
  destruct (H Entries) as (je & He & Re). destruct (H Expenses) as (jx & Hx & Rx).
  destruct (H Goals) as (jg & Hg & Rg). destruct (H FixedCosts) as (jf & Hf & Rf).
  cbn [get] in *.
  set (ms := [ (js "user", ju); (js "categories", jc); (js "entries", je);
               (js "expenses", jx); (js "goals", jg); (js "fixedCosts", jf) ]).
  assert (Hexp : snd (exportData a) = Encoded (JObject ms)).
  { unfold exportData, JSON.stringify, payload. cbn [snd JSON.serialize flat_map snd fst].
    rewrite Hu, Hc, He, Hx, Hg, Hf. reflexivity. }
  assert (Hm : forall fld, member ms fld = get fld (store a)).
  { intros fld. destruct fld; cbn [get];
      [rewrite <- Ru | rewrite <- Rc | rewrite <- Re | rewrite <- Rx
       | rewrite <- Rg | rewrite <- Rf]; reflexivity. }
  assert (Hl : forall fld, get fld (loaded ms) = get fld (store a)).
  { intros fld. rewrite loaded_field, Hm. unfold JS.orElse.
    destruct (Hsound fld) as [_ Ht]. now rewrite Ht. }
  pose proof (Hl User) as H1. pose proof (Hl Categories) as H2.
  pose proof (Hl Entries) as H3. pose proof (Hl Expenses) as H4.
  pose proof (Hl Goals) as H5. pose proof (Hl FixedCosts) as H6.
  cbn [get] in H1, H2, H3, H4, H5, H6.
  assert (Hstore : loaded ms = store a).
  { destruct (loaded ms), (store a). cbn in *. congruence. }
  rewrite Hexp, import_object, Hstore, Hshow. cbn [bind].
  eexists. split; reflexivity.
Qed.

(** ** Every field of a running application is plain and truthy *)

Lemma plain_revive (j : json) : plain (JSON.revive j) = true.
Proof.
  revert j.
  fix IH 1. intros [| | | |xs|ms]; try reflexivity.
  - cbn [JSON.revive plain].
    induction xs as [|x xs IHxs]; [reflexivity|].
    cbn [List.map forallb]. now rewrite IH, IHxs.
  - cbn [JSON.revive plain].
    induction ms as [|[k x] ms IHms]; [reflexivity|].
    cbn [List.map forallb snd fst]. now rewrite IH, IHms.
Qed.

Lemma sound_fallback (fld : field) : sound (fallback fld).
Proof. destruct fld; split; reflexivity. Qed.

Lemma getProp_revive (j : json) (k : jstring) (v : value) :
  JS.getProp (JSON.revive j) k = Ok v ->
  plain v = true \/ v = VUndefined \/ isBuiltin v = true.
Proof.
  destruct j as [| | | |xs|ms]; cbn [JSON.revive JS.getProp];
    try discriminate; try (intros [= <-]; auto).
  - destruct (Str.eqb k (js "entries")); intros [= <-]; auto.
  - destruct (JS.lookup _ _) as [x|] eqn:E; intros [= <-]; auto.
    apply lookup_revived in E. destruct E as (j & _ & ->).
    left. apply plain_revive.
Qed.

Lemma applied_orElse (v d x : value) :
  plain v = true \/ v = VUndefined \/ isBuiltin v = true ->
  sound d ->
  applied (JS.orElse v d) = Ok x ->
  x = JS.orElse v d /\ sound x.
Proof.
  intros Hv [Hd1 Hd2]. unfold JS.orElse.
  destruct (JS.truthy v) eqn:Ht.
  - destruct Hv as [Hp | [-> | Hb]]; [| discriminate |].
    + destruct v; try discriminate; cbn [applied]; intros [= <-];
        repeat split; auto.
    + destruct v; try discriminate.
  - intros Ha. assert (Hx : x = d).
    { destruct d; try discriminate; cbn [applied] in Ha; congruence. }
    subst x. repeat split; auto.
Qed.

Lemma install_sound (j : json) (next : Store) (a a' : App) :
  readDocument (JSON.revive j) = Ok next ->
  install next a = Ok a' ->
  soundStore (store a').
Proof.
  unfold readDocument, install. intros Hread Hinst.
  destruct (JS.getProp _ (js "user")) as [u|] eqn:Hu; [|discriminate].
  destruct (JS.getProp _ (js "categories")) as [c|] eqn:Hc; [|discriminate].
  destruct (JS.getProp _ (js "entries")) as [e|] eqn:He; [|discriminate].
  destruct (JS.getProp _ (js "expenses")) as [x|] eqn:Hx; [|discriminate].
  destruct (JS.getProp _ (js "goals")) as [g|] eqn:Hg; [|discriminate].
  destruct (JS.getProp _ (js "fixedCosts")) as [f|] eqn:Hf; [|discriminate].
  cbn [bind] in Hread. injection Hread as <-.
  cbn [user categories entries expenses goals fixedCosts] in Hinst.
  apply getProp_revive in Hu, Hc, He, Hx, Hg, Hf.
  destruct (applied (JS.orElse u _)) as [u'|] eqn:Au; [|discriminate].
  destruct (applied (JS.orElse c _)) as [c'|] eqn:Ac; [|discriminate].
  destruct (applied (JS.orElse e _)) as [e'|] eqn:Ae; [|discriminate].
  destruct (applied (JS.orElse x _)) as [x'|] eqn:Ax; [|discriminate].
  destruct (applied (JS.orElse g _)) as [g'|] eqn:Ag; [|discriminate].
  destruct (applied (JS.orElse f _)) as [f'|] eqn:Af; [|discriminate].
  cbn [bind] in Hinst.
  destruct (render _ _); [|discriminate].
  cbn [bind] in Hinst. injection Hinst as <-.
  apply (applied_orElse Hu (sound_fallback User)) in Au.
  apply (applied_orElse Hc (sound_fallback Categories)) in Ac.
  apply (applied_orElse He (sound_fallback Entries)) in Ae.
  apply (applied_orElse Hx (sound_fallback Expenses)) in Ax.
  apply (applied_orElse Hg (sound_fallback Goals)) in Ag.
  apply (applied_orElse Hf (sound_fallback FixedCosts)) in Af.
  intros fld; destruct fld; cbn; tauto.
Qed.

Lemma sound_initialStore : soundStore initialStore.
Proof. intros fld; destruct fld; split; reflexivity. Qed.

Lemma load_sound (stored : option text) (a : App) :
  load stored = Ok a -> soundStore (store a).
Proof.
  unfold load. destruct stored as [raw|].
  2:{ intros [= <-]. apply sound_initialStore. }
  destruct (nonEmpty raw).
  2:{ intros [= <-]. apply sound_initialStore. }
  destruct raw as [| |j]; cbn [JSON.parse bind].
  1,2: intros [= <-]; apply sound_initialStore.
  destruct (readDocument (JSON.revive j)) as [next|] eqn:Hread.
  - intros Hinst. eapply install_sound; eassumption.
  - intros [= <-]. apply sound_initialStore.
Qed.

Lemma importData_sound (file : option text) (a a' : App) :
  importData file a = Ok a' -> soundStore (store a) -> soundStore (store a').
Proof.
  unfold importData. destruct file as [raw|].
  2:{ now intros [= <-]. }
  destruct raw as [| |j]; cbn [JSON.parse bind].
  1,2: now intros [= <-].
  destruct (readDocument (JSON.revive j)) as [next|] eqn:Hread.
  - intros Hinst _. eapply install_sound; eassumption.
  - now intros [= <-].
Qed.

Lemma forallb_map_VStr (l : list jstring) : forallb plain (List.map VStr l) = true.
Proof. induction l; simpl; auto. Qed.

Lemma prepend_sound (item s s' : value) :
  plain item = true -> plain s = true -> prepend item s = Ok s' -> sound s'.
Proof.
  intros Hi Hs. unfold prepend.
  destruct s; cbn [JS.spreadArray bind]; try discriminate; intros [= <-];
    split; try reflexivity; cbn [plain forallb]; rewrite Hi; cbn [andb].
  - apply forallb_map_VStr.
  - exact Hs.
Qed.

Lemma filterM_forallb (q : value -> bool) (p : value -> result bool)
                      (xs ys : list value) :
  JS.filterM p xs = Ok ys -> forallb q xs = true -> forallb q ys = true.
Proof.
  revert ys. induction xs as [|x xs IH]; intros ys; cbn [JS.filterM].
  - now intros [= <-].
  - destruct (p x) as [keep|]; [|discriminate]. cbn [bind].
    destruct (JS.filterM p xs) as [zs|]; [|discriminate]. cbn [bind].
    intros [= <-] H. cbn [forallb] in H. apply andb_prop in H.
    destruct H as [H1 H2]. specialize (IH zs eq_refl H2).
    destruct keep; cbn [forallb]; [rewrite H1|]; auto.
Qed.

Lemma without_plain (id : jstring) (s s' : value) :
  plain s = true -> without id s = Ok s' -> sound s'.
Proof.
  intros Hs. unfold without, JS.filter.
  destruct s; cbn [JS.asArray bind]; try discriminate.
  destruct (JS.filterM _ elems) as [ys|] eqn:E; [|discriminate].
  cbn [bind]. intros [= <-]. split; [|reflexivity].
  cbn [plain] in *. eapply filterM_forallb; eassumption.
Qed.

Lemma mapM_forallb (q : value -> bool) (f : value -> result value)
                   (xs ys : list value) :
  (forall x y, q x = true -> f x = Ok y -> q y = true) ->
  JS.mapM f xs = Ok ys -> forallb q xs = true -> forallb q ys = true.
Proof.
  intros Hf. revert ys. induction xs as [|x xs IH]; intros ys; cbn [JS.mapM].
  - now intros [= <-].
  - destruct (f x) as [y|] eqn:E; [|discriminate]. cbn [bind].
    destruct (JS.mapM f xs) as [zs|]; [|discriminate]. cbn [bind].
    intros [= <-] H. cbn [forallb] in H. apply andb_prop in H.
    destruct H as [H1 H2]. cbn [forallb].
    now rewrite (Hf x y H1 E), (IH zs eq_refl H2).
Qed.

Lemma plain_combine (ks : list jstring) (xs : list value) :
  forallb plain xs = true ->
  forallb (fun p => plain (snd p)) (combine ks xs) = true.
Proof.
  revert ks. induction xs as [|x xs IH]; intros [|k ks] H; try reflexivity.
  cbn [forallb] in H. apply andb_prop in H. destruct H as [H1 H2].
  cbn [combine forallb snd]. now rewrite H1, IH.
Qed.

Lemma plain_spreadObject (o : value) :
  plain o = true ->
  forallb (fun p => plain (snd p)) (JS.spreadObject o) = true.
Proof.
  destruct o; cbn [JS.spreadObject plain]; try reflexivity; intros H.
  - unfold JS.indexed. apply plain_combine.
    induction s; simpl; auto.
  - unfold JS.indexed. now apply plain_combine.
  - exact H.
Qed.

Lemma plain_setProp (k : jstring) (v : value) (ps : list (jstring * value)) :
  plain v = true ->
  forallb (fun p => plain (snd p)) ps = true ->
  forallb (fun p => plain (snd p)) (JS.setProp k v ps) = true.
Proof.
  intros Hv. induction ps as [|[k' v'] ps IH]; cbn [JS.setProp forallb snd].
  - now rewrite Hv.
  - intros H. apply andb_prop in H. destruct H as [H1 H2].
    destruct (Str.eqb k' k); cbn [forallb snd].
    + now rewrite Hv, H2.
    + now rewrite H1, IH.
Qed.

Lemma toggled_plain (id : jstring) (g g' : value) :
  plain g = true -> toggled id g = Ok g' -> plain g' = true.
Proof.
  intros Hg. unfold toggled.
  destruct (JS.getProp g (js "id")) as [x|]; [|discriminate]. cbn [bind].
  destruct (JS.strictEqStr x id).
  - destruct (JS.getProp g (js "bought")) as [b|]; [|discriminate]. cbn [bind].
    intros [= <-]. cbn [plain].
    apply plain_setProp; [reflexivity | now apply plain_spreadObject].
  - now intros [= <-].
Qed.

Lemma toggle_sound (id : jstring) (s s' : value) :
  plain s = true -> JS.map (toggled id) s = Ok s' -> sound s'.
Proof.
  intros Hs. unfold JS.map.
  destruct s; cbn [JS.asArray bind]; try discriminate.
  destruct (JS.mapM _ elems) as [ys|] eqn:E; [|discriminate].
  cbn [bind]. intros [= <-]. split; [|reflexivity].
  cbn [plain] in *.
  eapply mapM_forallb; [apply (@toggled_plain id) | eassumption | assumption].
Qed.

Lemma sound_set (fld : field) (v : value) (s : Store) :
  soundStore s -> sound v -> soundStore (set fld v s).
Proof.
  intros Hs Hv fld'.
  destruct fld, fld'; cbn; try exact Hv;
    first [ exact (Hs User) | exact (Hs Categories) | exact (Hs Entries)
          | exact (Hs Expenses) | exact (Hs Goals) | exact (Hs FixedCosts) ].
Qed.

Lemma update_sound (fld : field) (g : value -> result value) (a a' : App) :
  update (fun s => v <- g (get fld s) ;; Ok (set fld v s)) a = Ok a' ->
  soundStore (store a) ->
  (forall v, g (get fld (store a)) = Ok v -> sound v) ->
  soundStore (store a').
Proof.
  unfold update. intros Hrun Hs Hg.
  destruct (g (get fld (store a))) as [v|] eqn:E; [|discriminate].
  cbn [bind] in Hrun. injection Hrun as <-.
  cbn [store save setItem withStore]. apply sound_set; auto.
Qed.

Lemma plain_prompted (answer : option jstring) :
  JS.truthy (prompted answer) = true -> plain (prompted answer) = true.
Proof. destruct answer; [reflexivity | discriminate]. Qed.

Lemma handle_sound (ev : event) (a a' : App) :
  handle ev a = Ok a' -> soundStore (store a) -> soundStore (store a').
Proof.
  intros Hrun Hs. destruct ev; cbn [handle] in Hrun.
  - now injection Hrun as <-.
  - now injection Hrun as <-.
  - (* addEntry *)
    unfold addEntry in Hrun. rewrite number_of_text in Hrun. cbn [bind] in Hrun.
    destruct (_ || _); [now injection Hrun as <-|].
    destruct (Str.eqb _ _);
      match type of Hrun with
      | (x <- ?u ;; _) = _ => destruct u as [a1|] eqn:Hu; [|discriminate]
      end; cbn [bind] in Hrun; injection Hrun as <-; cbn [store setForm].
    + apply (@update_sound Entries (prepend _) a a1 Hu Hs).
      intros v. apply prepend_sound; [reflexivity | apply Hs].
    + apply (@update_sound Expenses (prepend _) a a1 Hu Hs).
      intros v. apply prepend_sound; [reflexivity | apply Hs].
  - (* removeItem *)
    unfold removeItem in Hrun. destruct (negb confirmed); [now injection Hrun as <-|].
    assert (H1 : forall a1,
               (if Str.eqb kind (js "income")
                then update (fun s => e <- without id (entries s) ;;
                                      Ok (setEntries e s)) a
                else Ok a) = Ok a1 -> soundStore (store a1)).
    { intros a1. destruct (Str.eqb kind (js "income")).
      - intros Hu. apply (@update_sound Entries (without id) a a1 Hu Hs).
        intros v. apply without_plain. apply Hs.
      - now intros [= <-]. }
    match type of Hrun with
    | (x <- ?u ;; _) = _ => destruct u as [a1|] eqn:Hu; [|discriminate]
    end. cbn [bind] in Hrun. specialize (H1 a1 eq_refl).
    destruct (Str.eqb kind (js "expense")).
    + apply (@update_sound Expenses (without id) a1 a' Hrun H1).
      intros v. apply without_plain. apply H1.
    + now injection Hrun as <-.
  - (* addGoal *)
    unfold addGoal in Hrun. rewrite number_of_text in Hrun. cbn [bind] in Hrun.
    destruct (_ || _); [now injection Hrun as <-|].
    match type of Hrun with
    | (x <- ?u ;; _) = _ => destruct u as [a1|] eqn:Hu; [|discriminate]
    end. cbn [bind] in Hrun. injection Hrun as <-. cbn [store setGoalForm].
    apply (@update_sound Goals (prepend _) a a1 Hu Hs).
    intros v. apply prepend_sound; [reflexivity | apply Hs].
  - (* toggleGoal *)
    apply (@update_sound Goals (JS.map (toggled id)) a a' Hrun Hs).
    intros v. apply toggle_sound. apply Hs.
  - (* removeGoal *)
    apply (@update_sound Goals (without id) a a' Hrun Hs).
    intros v. apply without_plain. apply Hs.
  - (* addFixedCost *)
    unfold addFixedCost in Hrun.
    destruct (JS.truthy (prompted answer1)) eqn:H1;
      [|now injection Hrun as <-].
    destruct (JS.truthy (prompted answer2)) eqn:H2;
      [|now injection Hrun as <-].
    cbn [negb orb] in Hrun.
    destruct answer2 as [t|]; [|discriminate]. cbn [prompted] in Hrun.
    unfold update in Hrun. rewrite number_of_text in Hrun. cbn [bind] in Hrun.
    match type of Hrun with
    | (x <- (y <- ?u ;; _) ;; _) = _ => destruct u as [f|] eqn:Hu; [|discriminate]
    end. cbn [bind] in Hrun. injection Hrun as <-.
    cbn [store save setItem withStore].
    apply (sound_set FixedCosts Hs).
    eapply prepend_sound; [ | apply (Hs FixedCosts) | exact Hu].
    cbn [plain forallb snd]. now rewrite (plain_prompted _ H1).
  - (* removeFixedCost *)
    apply (@update_sound FixedCosts (without id) a a' Hrun Hs).
    intros v. apply without_plain. apply Hs.
  - (* addCategory *)
    unfold addCategory in Hrun.
    destruct (JS.truthy (prompted answer)) eqn:H1; [|now injection Hrun as <-].
    apply (@update_sound Categories (prepend _) a a' Hrun Hs).
    intros v. apply prepend_sound; [now apply plain_prompted | apply Hs].
  - (* editProfile *)
    unfold editProfile in Hrun.
    destruct (JS.truthy (prompted answer)) eqn:H1; [|now injection Hrun as <-].
    unfold update in Hrun. cbn [bind] in Hrun. injection Hrun as <-.
    cbn [store save setItem withStore].
    apply (sound_set User Hs). split; [|reflexivity].
    cbn [plain]. apply plain_setProp; [now apply plain_prompted|].
    apply plain_spreadObject. apply (Hs User).
  - (* importData *)
    eapply importData_sound; eassumption.
  - (* setTab *)
    now destruct (showTab_ok _ _ Hrun) as [-> | ->].
Qed.

Lemma run_sound (evs : list event) (a a' : App) :
  run evs a = Ok a' -> soundStore (store a) -> soundStore (store a').
Proof.
  revert a. induction evs as [|ev evs IH]; intros a; cbn [run].
  - now intros [= <-].
  - destruct (handle ev a) as [a1|] eqn:E; [|discriminate]. cbn [bind].
    intros Hrun Hs. apply (IH a1 Hrun). eapply handle_sound; eassumption.
Qed.

Lemma reachable_sound (a : App) : reachable a -> soundStore (store a).
Proof.
  intros (stored & evs & Hrun).
  destruct (load stored) as [a0|] eqn:E; [|discriminate]. cbn [bind] in Hrun.
  eapply run_sound; [eassumption|]. eapply load_sound; eassumption.
Qed.

(** C2, as the code has it. For a reachable state in which every stored
    number is finite and none is [-0], exporting the state and importing
    the exported file, into whatever state the application is in by
    then, succeeds and gives back the six collections that were
    exported, provided the tab open at the import can display them (as
    the tab with the export button could). *)
Theorem export_import_roundtrip :
  forall a b : App,
    reachable a ->
    finiteStore (store a) ->
    render (tab b) (store a) = Ok tt ->
    exists b',
      importData (Some (snd (exportData a))) b = Ok b'
      /\ store b' = store a.
Proof.
  intros a b Hreach Hfin Hshow.
  apply import_of_export; [now apply reachable_sound | exact Hfin | exact Hshow].
Qed.

Lemma export_import_roundtrip_witness :
  exists b',
    importData (Some (snd (exportData sampleApp)))
               (setTab finance bikeApp) = Ok b'
    /\ store b' = store sampleApp.
Proof.
  apply (@export_import_roundtrip sampleApp (setTab finance bikeApp)).
  - exists None, sampleEvents. vm_compute. reflexivity.
  - intros fld; destruct fld; vm_compute; reflexivity.
  - vm_compute. reflexivity.
Defined.

(** C2, as the specification has it, fails. An income typed as [1e999]
    is stored as [Infinity]; the exported file has [null] in its place,
    and that is what the import brings back. *)
Lemma export_import_loses_infinity :
  (a <- load None ;;
   a <- run [ SetTab finance;
              EditForm (Form.make (js "income") (js "1e999") (js "bonus")
                                  (js "Outros") (js "2024-05-18"));
              AddEntry (js "0.4fzyo82mvyr") (js "2024-05-18T12:00:00.000Z") ] a ;;
   a' <- importData (Some (snd (exportData a))) a ;;
   Ok (entries (store a), entries (store a')))
  = Ok (VArr [ VObj [ (js "id", VStr (js "4fzyo82"));
                      (js "value", VNum infinity);
                      (js "desc", VStr (js "bonus"));
                      (js "cat", VStr (js "Outros"));
                      (js "date", VStr (js "2024-05-18")) ] ],
        VArr [ VObj [ (js "id", VStr (js "4fzyo82"));
                      (js "value", VNull);
                      (js "desc", VStr (js "bonus"));
                      (js "cat", VStr (js "Outros"));
                      (js "date", VStr (js "2024-05-18")) ] ]).
Proof. vm_compute. reflexivity. Qed.

(* ================================================================== *)
(** * Identifiers                                                      *)
(* ================================================================== *)

Lemma get_set (fld fld' : field) (v : value) (s : Store) :
  get fld' (set fld v s)
  = match fld, fld' with
    | User, User | Categories, Categories | Entries, Entries
    | Expenses, Expenses | Goals, Goals | FixedCosts, FixedCosts => v
    | _, _ => get fld' s
    end.
Proof. destruct fld, fld'; reflexivity. Qed.

Lemma update_ids (fld : field) (g : value -> result value) (a a' : App) :
  update (fun s => v <- g (get fld s) ;; Ok (set fld v s)) a = Ok a' ->
  uniqueStore (store a) ->
  isCollection fld = true ->
  (forall xs v,
      get fld (store a) = VArr xs -> NoDup (List.map idOf xs) ->
      g (VArr xs) = Ok v ->
      exists ys, v = VArr ys /\ NoDup (List.map idOf ys)
                 /\ idsStep (List.map idOf xs) (List.map idOf ys)) ->
  uniqueStore (store a')
  /\ (forall fld', isCollection fld' = true ->
                   idsStep (idsOf (get fld' (store a)))
                           (idsOf (get fld' (store a')))).
Proof.
  unfold update. intros Hrun Hu Hc Hg.
  destruct (Hu fld Hc) as (xs & Hxs & Hnd).
  rewrite Hxs in Hrun.
  destruct (g (VArr xs)) as [v|] eqn:E; [|discriminate].
  cbn [bind] in Hrun. injection Hrun as <-.
  cbn [store save setItem withStore].
  destruct (Hg xs v Hxs Hnd E) as (ys & -> & Hnd' & Hstep).
  split.
  - intros fld' Hc'. rewrite get_set.
    destruct fld, fld'; try discriminate; try solve [exists ys; auto];
      apply Hu; reflexivity.
  - intros fld' Hc'. rewrite get_set.
    destruct fld, fld'; try discriminate; cbn [get] in *;
      try solve [left; reflexivity]; rewrite Hxs; exact Hstep.
Qed.

Lemma unchanged_ids (a a' : App) :
  (forall fld, isCollection fld = true ->
               get fld (store a') = get fld (store a)) ->
  uniqueStore (store a) ->
  uniqueStore (store a')
  /\ (forall fld', isCollection fld' = true ->
                   idsStep (idsOf (get fld' (store a)))
                           (idsOf (get fld' (store a')))).
Proof.
  intros Hsame Hu. split; intros fld Hc; rewrite (Hsame fld Hc).
  - now apply Hu.
  - now left.
Qed.

Lemma prepend_ids (item : value) (r : jstring) (xs : list value) (v : value) :
  idOf item = VStr (uid r) ->
  ~ In (VStr (uid r)) (List.map idOf xs) ->
  NoDup (List.map idOf xs) ->
  prepend item (VArr xs) = Ok v ->
  exists ys, v = VArr ys /\ NoDup (List.map idOf ys)
             /\ idsStep (List.map idOf xs) (List.map idOf ys).
Proof.
  intros Hid Hfresh Hnd [= <-]. exists (item :: xs).
  cbn [List.map]. rewrite Hid. split; [reflexivity|]. split.
  - now constructor.
  - right. left. now exists r.
Qed.

Lemma filterM_filter (id : jstring) (xs ys : list value) :
  JS.filterM (fun i => x <- JS.getProp i (js "id") ;;
                       Ok (negb (JS.strictEqStr x id))) xs = Ok ys ->
  ys = List.filter (fun x => negb (JS.strictEqStr (idOf x) id)) xs.
Proof.
  revert ys. induction xs as [|x xs IH]; intros ys; cbn [JS.filterM].
  - now intros [= <-].
  - cbn [List.filter]. unfold idOf at 1.
    destruct (JS.getProp x (js "id")) as [v|]; [|discriminate]. cbn [bind].
    destruct (JS.filterM _ xs) as [zs|]; [|discriminate]. cbn [bind].
    intros [= <-]. rewrite (IH zs eq_refl).
    now destruct (negb (JS.strictEqStr v id)).
Qed.

Lemma map_filter (A B : Type) (f : A -> B) (p : B -> bool) (l : list A) :
  List.map f (List.filter (fun x => p (f x)) l) = List.filter p (List.map f l).
Proof.
  induction l as [|x l IH]; [reflexivity|]. cbn [List.filter List.map].
  destruct (p (f x)); cbn [List.map]; now rewrite IH.
Qed.

Lemma NoDup_filter (A : Type) (p : A -> bool) (l : list A) :
  NoDup l -> NoDup (List.filter p l).
Proof.
  induction 1 as [|x l Hx Hnd IH]; cbn [List.filter]; [constructor|].
  destruct (p x); [|exact IH]. constructor; [|exact IH].
  intros Hin. apply filter_In in Hin. tauto.
Qed.

Lemma without_ids (id : jstring) (xs : list value) (v : value) :
  NoDup (List.map idOf xs) ->
  without id (VArr xs) = Ok v ->
  exists ys, v = VArr ys /\ NoDup (List.map idOf ys)
             /\ idsStep (List.map idOf xs) (List.map idOf ys).
Proof.
  intros Hnd. unfold without, JS.filter. cbn [JS.asArray bind].
  destruct (JS.filterM _ xs) as [ys|] eqn:E; [|discriminate].
  cbn [bind]. intros [= <-]. exists ys. split; [reflexivity|].
  apply filterM_filter in E. subst ys.
  rewrite (map_filter idOf (fun i => negb (JS.strictEqStr i id))).
  split; [now apply NoDup_filter|]. right. right. now exists id.
Qed.

Lemma toggled_id (id : jstring) (g g' : value) :
  toggled id g = Ok g' -> idOf g' = idOf g.
Proof.
  unfold toggled.
  destruct (JS.getProp g (js "id")) as [x|] eqn:Hx; [|discriminate]. cbn [bind].
  destruct (JS.strictEqStr x id) eqn:Heq; [|now intros [= <-]].
  destruct (JS.getProp g (js "bought")) as [b|]; [|discriminate]. cbn [bind].
  intros [= <-]. unfold idOf. rewrite Hx.
  destruct g; cbn [JS.getProp] in Hx; try discriminate;
    try (injection Hx as <-; discriminate).
  cbn [JS.getProp JS.spreadObject].
  rewrite lookup_setProp_other by reflexivity. now rewrite Hx.
Qed.

Lemma toggle_ids (id : jstring) (xs : list value) (v : value) :
  NoDup (List.map idOf xs) ->
  JS.map (toggled id) (VArr xs) = Ok v ->
  exists ys, v = VArr ys /\ NoDup (List.map idOf ys)
             /\ idsStep (List.map idOf xs) (List.map idOf ys).
Proof.
  intros Hnd. unfold JS.map. cbn [JS.asArray bind].
  destruct (JS.mapM _ xs) as [ys|] eqn:E; [|discriminate].
  cbn [bind]. intros [= <-]. exists ys. split; [reflexivity|].
  assert (Hids : List.map idOf ys = List.map idOf xs).
  { revert ys E. clear Hnd. induction xs as [|x xs IH]; intros ys; cbn [JS.mapM].
    - now intros [= <-].
    - destruct (toggled id x) as [y|] eqn:Hy; [|discriminate]. cbn [bind].
      destruct (JS.mapM _ xs) as [zs|]; [|discriminate]. cbn [bind].
      intros [= <-]. cbn [List.map].
      now rewrite (toggled_id _ _ Hy), (IH zs eq_refl). }
  rewrite Hids. split; [exact Hnd | now left].
Qed.

Lemma kind_income_not_expense (kind : jstring) :
  Str.eqb kind (js "income") = true -> Str.eqb kind (js "expense") = false.
Proof. intros H. apply Str_eqb_eq in H. subst kind. reflexivity. Qed.

Lemma idsOf_array (coll : value) (xs : list value) :
  coll = VArr xs -> idsOf coll = List.map idOf xs.
Proof. now intros ->. Qed.

(** C7, as the code has it. An event other than an import keeps the ids
    of [entries], [expenses], [goals] and [fixedCosts] unique, provided
    the id that [uid] generates for a new item is not already in the
    collection the item goes to; and it never changes the id of an item:
    the ids of a collection stay as they are, or get the generated id in
    front, or lose the ids equal to the one removed. *)
Theorem ids_stay_unique :
  forall (ev : event) (a a' : App),
    isImport ev = false ->
    handle ev a = Ok a' ->
    uniqueStore (store a) ->
    fresh ev a ->
    uniqueStore (store a')
    /\ (forall fld, isCollection fld = true ->
                    idsStep (idsOf (get fld (store a)))
                            (idsOf (get fld (store a')))).
Proof.
  intros ev a a' Hev Hrun Hu Hfresh.
  destruct ev; cbn [handle] in Hrun; try discriminate Hev; clear Hev.
  - injection Hrun as <-. now apply unchanged_ids.
  - injection Hrun as <-. now apply unchanged_ids.
  - (* addEntry *)
    unfold addEntry in Hrun. rewrite number_of_text in Hrun. cbn [bind] in Hrun.
    destruct (_ || _); [injection Hrun as <-; now apply unchanged_ids|].
    unfold fresh, generated in Hfresh.
    destruct (Str.eqb (Form.type (form a)) (js "income"));
      match type of Hrun with
      | (x <- ?u ;; _) = _ => destruct u as [a1|] eqn:Hupd; [|discriminate]
      end; cbn [bind] in Hrun; injection Hrun as <-; cbn [store setForm].
    + apply (@update_ids Entries (prepend _) a a1 Hupd Hu eq_refl).
      intros xs v Hxs Hnd. rewrite (idsOf_array Hxs) in Hfresh.
      intros Hp. refine (prepend_ids r _ Hfresh Hnd Hp). reflexivity.
    + apply (@update_ids Expenses (prepend _) a a1 Hupd Hu eq_refl).
      intros xs v Hxs Hnd. rewrite (idsOf_array Hxs) in Hfresh.
      intros Hp. refine (prepend_ids r _ Hfresh Hnd Hp). reflexivity.
  - (* removeItem *)
    unfold removeItem in Hrun.
    destruct (negb confirmed); [injection Hrun as <-; now apply unchanged_ids|].
    destruct (Str.eqb kind (js "income")) eqn:Hk.
    + rewrite (kind_income_not_expense _ Hk) in Hrun.
      match type of Hrun with
      | (x <- ?u ;; _) = _ => destruct u as [a1|] eqn:Hupd; [|discriminate]
      end. cbn [bind] in Hrun. injection Hrun as <-.
      apply (@update_ids Entries (without id) a a1 Hupd Hu eq_refl).
      intros xs v _ Hnd. now apply without_ids.
    + cbn [bind] in Hrun. destruct (Str.eqb kind (js "expense")).
      * apply (@update_ids Expenses (without id) a a' Hrun Hu eq_refl).
        intros xs v _ Hnd. now apply without_ids.
      * injection Hrun as <-. now apply unchanged_ids.
  - (* addGoal *)
    unfold addGoal in Hrun. rewrite number_of_text in Hrun. cbn [bind] in Hrun.
    destruct (_ || _); [injection Hrun as <-; now apply unchanged_ids|].
    match type of Hrun with
    | (x <- ?u ;; _) = _ => destruct u as [a1|] eqn:Hupd; [|discriminate]
    end. cbn [bind] in Hrun. injection Hrun as <-. cbn [store setGoalForm].
    unfold fresh, generated in Hfresh.
    apply (@update_ids Goals (prepend _) a a1 Hupd Hu eq_refl).
    intros xs v Hxs Hnd. rewrite (idsOf_array Hxs) in Hfresh.
    intros Hp. refine (prepend_ids r _ Hfresh Hnd Hp). reflexivity.
  - (* toggleGoal *)
    apply (@update_ids Goals (JS.map (toggled id)) a a' Hrun Hu eq_refl).
    intros xs v _ Hnd. now apply toggle_ids.
  - (* removeGoal *)
    apply (@update_ids Goals (without id) a a' Hrun Hu eq_refl).
    intros xs v _ Hnd. now apply without_ids.
  - (* addFixedCost *)
    unfold addFixedCost in Hrun.
    destruct (negb (JS.truthy (prompted answer1))
              || negb (JS.truthy (prompted answer2))) eqn:Hans;
      [injection Hrun as <-; now apply unchanged_ids|].
    destruct answer2 as [t|]; [|now destruct (JS.truthy (prompted answer1))].
    unfold fresh, generated in Hfresh.
    apply (@update_ids FixedCosts
             (prepend (VObj [ (js "id", VStr (uid r));
                              (js "name", prompted answer1);
                              (js "value", VNum (Num.StringToNumber t)) ]))
             a a' Hrun Hu eq_refl).
    intros xs v Hxs Hnd. rewrite (idsOf_array Hxs) in Hfresh.
    intros Hp. refine (prepend_ids r _ Hfresh Hnd Hp). reflexivity.
  - (* removeFixedCost *)
    apply (@update_ids FixedCosts (without id) a a' Hrun Hu eq_refl).
    intros xs v _ Hnd. now apply without_ids.
  - (* addCategory *)
    unfold addCategory in Hrun.
    destruct (JS.truthy (prompted answer)); [|injection Hrun as <-; now apply unchanged_ids].
    unfold update in Hrun.
    destruct (prepend _ _) as [cs|]; [|discriminate].
    cbn [bind] in Hrun. injection Hrun as <-. apply unchanged_ids; [|exact Hu].
    intros fld Hc. destruct fld; try discriminate; reflexivity.
  - (* editProfile *)
    unfold editProfile in Hrun.
    destruct (JS.truthy (prompted answer)); [|injection Hrun as <-; now apply unchanged_ids].
    unfold update in Hrun. cbn [bind] in Hrun. injection Hrun as <-.
    apply unchanged_ids; [|exact Hu].
    intros fld Hc. destruct fld; try discriminate; reflexivity.
  - (* setTab *)
    destruct (showTab_ok _ _ Hrun) as [-> | ->]; now apply unchanged_ids.
Qed.

Lemma ids_stay_unique_witness :
  uniqueStore (store (setGoalForm (GoalForm.make (js "Bike") (js "1500") (js "Alta"))
                        sampleApp))
  /\ exists a',
       handle (AddGoal (js "0.5tq8w1e6r"))
         (setGoalForm (GoalForm.make (js "Bike") (js "1500") (js "Alta")) sampleApp)
       = Ok a'
       /\ uniqueStore (store a')
       /\ (forall fld, isCollection fld = true ->
                       idsStep (idsOf (get fld (store sampleApp)))
                               (idsOf (get fld (store a')))).
Proof.
  assert (Hu : uniqueStore (store sampleApp)).
  { intros fld Hc; destruct fld; try discriminate Hc; eexists;
      (split; [reflexivity|]); repeat constructor; simpl; tauto. }
  split; [exact Hu|].
  eexists. split; [vm_compute; reflexivity|].
  apply (@ids_stay_unique (AddGoal (js "0.5tq8w1e6r"))
           (setGoalForm (GoalForm.make (js "Bike") (js "1500") (js "Alta"))
              sampleApp)).
  - reflexivity.
  - vm_compute. reflexivity.
  - exact Hu.
  - vm_compute. intros [H|[]]. discriminate H.
Defined.

(** C7, as the specification has it, fails. Two random draws that agree
    in their first seven digits give two entries the same id; and an
    imported document brings in whatever ids it has. *)
Lemma uid_collides :
  (a <- load None ;;
   a <- run [ SetTab finance;
              EditForm (Form.make (js "income") (js "2500") (js "salary")
                                  (js "Salário") []);
              AddEntry (js "0.4fzyo82mvyr") (js "2024-05-18T12:00:00.000Z");
              EditForm (Form.make (js "income") (js "120") (js "refund")
                                  (js "Outros") []);
              AddEntry (js "0.4fzyo82a1b2") (js "2024-05-19T09:30:00.000Z") ] a ;;
   Ok (idsOf (entries (store a))))
  = Ok [ VStr (js "4fzyo82"); VStr (js "4fzyo82") ]
  /\ (a <- load None ;;
      a <- showTab finance a ;;
      a <- importData (Some (Encoded (JObject
             [ (js "goals",
                JArray [ JObject [ (js "id", JString (js "g1"));
                                   (js "name", JString (js "Bike")) ];
                         JObject [ (js "id", JString (js "g1"));
                                   (js "name", JString (js "Boat")) ] ]) ]))) a ;;
      Ok (idsOf (goals (store a))))
     = Ok [ VStr (js "g1"); VStr (js "g1") ].
Proof. split; vm_compute; reflexivity. Qed.

(* ================================================================== *)
(** * The stored document                                              *)
(* ================================================================== *)

Lemma update_mirrored (f : Store -> result Store) (a a' : App) :
  update f a = Ok a' -> mirrored a'.
Proof.
  unfold update. destruct (f (store a)); [|discriminate].
  cbn [bind]. intros [= <-]. reflexivity.
Qed.

Lemma install_mirrored (next : Store) (a a' : App) :
  install next a = Ok a' -> mirrored a'.
Proof.
  unfold install.
  destruct (applied (user next)); [|discriminate].
  destruct (applied (categories next)); [|discriminate].
  destruct (applied (entries next)); [|discriminate].
  destruct (applied (expenses next)); [|discriminate].
  destruct (applied (goals next)); [|discriminate].
  destruct (applied (fixedCosts next)); [|discriminate].
  cbn [bind]. destruct (render _ _); [|discriminate].
  cbn [bind]. intros [= <-]. reflexivity.
Qed.

Lemma load_mirrored (stored : option text) (a : App) :
  load stored = Ok a -> mirrored a.
Proof.
  unfold load. destruct stored as [raw|]; [|now intros [= <-]].
  destruct (nonEmpty raw); [|now intros [= <-]].
  destruct (data <- JSON.parse raw ;; readDocument data).
  - apply install_mirrored.
  - now intros [= <-].
Qed.

Lemma handle_mirrored (ev : event) (a a' : App) :
  handle ev a = Ok a' -> mirrored a -> mirrored a'.
Proof.
  intros Hrun Hm. destruct ev; cbn [handle] in Hrun.
  - now injection Hrun as <-.
  - now injection Hrun as <-.
  - unfold addEntry in Hrun. rewrite number_of_text in Hrun. cbn [bind] in Hrun.
    destruct (_ || _); [now injection Hrun as <-|].
    destruct (Str.eqb _ _);
      match type of Hrun with
      | (x <- ?u ;; _) = _ => destruct u as [a1|] eqn:Hu; [|discriminate]
      end; cbn [bind] in Hrun; injection Hrun as <-;
      exact (update_mirrored _ _ Hu).
  - unfold removeItem in Hrun. destruct (negb confirmed); [now injection Hrun as <-|].
    match type of Hrun with
    | (x <- ?u ;; _) = _ => destruct u as [a1|] eqn:Hu; [|discriminate]
    end. cbn [bind] in Hrun.
    assert (H1 : mirrored a1).
    { destruct (Str.eqb kind (js "income")).
      - exact (update_mirrored _ _ Hu).
      - now injection Hu as <-. }
    destruct (Str.eqb kind (js "expense")).
    + exact (update_mirrored _ _ Hrun).
    + now injection Hrun as <-.
  - unfold addGoal in Hrun. rewrite number_of_text in Hrun. cbn [bind] in Hrun.
    destruct (_ || _); [now injection Hrun as <-|].
    match type of Hrun with
    | (x <- ?u ;; _) = _ => destruct u as [a1|] eqn:Hu; [|discriminate]
    end. cbn [bind] in Hrun. injection Hrun as <-.
    exact (update_mirrored _ _ Hu).
  - exact (update_mirrored _ _ Hrun).
  - exact (update_mirrored _ _ Hrun).
  - unfold addFixedCost in Hrun.
    destruct (_ || _); [now injection Hrun as <-|].
    exact (update_mirrored _ _ Hrun).
  - exact (update_mirrored _ _ Hrun).
  - unfold addCategory in Hrun.
    destruct (JS.truthy _); [|now injection Hrun as <-].
    exact (update_mirrored _ _ Hrun).
  - unfold editProfile in Hrun.
    destruct (JS.truthy _); [|now injection Hrun as <-].
    exact (update_mirrored _ _ Hrun).
  - unfold importData in Hrun. destruct file as [t|]; [|now injection Hrun as <-].
    destruct (data <- JSON.parse t ;; readDocument data).
    + exact (install_mirrored _ _ Hrun).
    + now injection Hrun as <-.
  - now destruct (showTab_ok _ _ Hrun) as [-> | ->].
Qed.

Lemma run_mirrored (evs : list event) (a a' : App) :
  run evs a = Ok a' -> mirrored a -> mirrored a'.
Proof.
  revert a. induction evs as [|ev evs IH]; intros a; cbn [run].
  - now intros [= <-].
  - destruct (handle ev a) as [a1|] eqn:E; [|discriminate]. cbn [bind].
    intros Hrun Hm. apply (IH a1 Hrun). eapply handle_mirrored; eassumption.
Qed.

(** X1. In every state the application reaches, the item kept in local
    storage is the document of the current state, the same text that
    [exportData] offers for download: no event leaves the stored
    document behind the state. *)
Theorem stored_document_mirrors_state :
  forall a : App,
    reachable a ->
    localStorage a = Some (JSON.stringify (payload (store a)))
    /\ localStorage a = Some (snd (exportData a)).
Proof.
  intros a (stored & evs & Hrun).
  destruct (load stored) as [a0|] eqn:E; [|discriminate]. cbn [bind] in Hrun.
  assert (H : mirrored a).
  { eapply run_mirrored; [eassumption|]. eapply load_mirrored; eassumption. }
  split; exact H.
Qed.

Lemma stored_document_mirrors_state_witness :
  localStorage sampleApp = Some (JSON.stringify (payload (store sampleApp)))
  /\ localStorage sampleApp = Some (snd (exportData sampleApp)).
Proof.
  apply (@stored_document_mirrors_state sampleApp).
  exists None, sampleEvents. vm_compute. reflexivity.
Defined.

(** Writing a document that was written once changes nothing. *)
Lemma serialize_stable (v : value) :
  forall j, JSON.serialize v = Some j ->
            JSON.serialize (JSON.revive j) = Some j.
Proof.
  induction v as [| |b|n|s|xs IH|ps IH|name] using value_induction;
    intros j Hj; cbn [JSON.serialize] in Hj; try discriminate;
    injection Hj as <-; try reflexivity.
  - destruct (Num.isFinite n) eqn:Hf; [|reflexivity].
    destruct (Num.isNegZero n) eqn:Hz; cbn [JSON.revive JSON.serialize].
    + reflexivity.
    + now rewrite Hf, Hz.
  - cbn [JSON.revive JSON.serialize]. do 2 f_equal.
    induction IH as [|x xs Hx _ IHxs]; [reflexivity|].
    cbn [List.map]. rewrite IHxs. f_equal.
    destruct (JSON.serialize x) as [jx|]; [|reflexivity].
    now rewrite (Hx jx eq_refl).
  - cbn [JSON.revive JSON.serialize]. do 2 f_equal.
    induction IH as [|[k x] ps Hx _ IHps]; [reflexivity|].
    cbn [flat_map snd fst]. cbn [snd] in Hx.
    destruct (JSON.serialize x) as [jx|].
    + cbn [app List.map flat_map fst snd]. rewrite (Hx jx eq_refl).
      cbn [app]. now rewrite IHps.
    + cbn [app]. exact IHps.
Qed.

Lemma serialize_shaped (fld : field) (v : value) :
  wellShaped fld v = true ->
  exists j, JSON.serialize v = Some j
            /\ JS.truthy (JSON.revive j) = true
            /\ wellShaped fld (JSON.revive j) = true.
Proof.
  destruct fld, v; try discriminate; intros _;
    (eexists; split; [reflexivity|]; split; reflexivity).
Qed.

(** X2. Saving and loading are idempotent on documents.  When the
    profile is an object and the five collections are arrays, loading
    the document that [save] wrote comes to rendering, on the
    dashboard, the store the document is read back as.  If that render
    succeeds, the load succeeds without an error being logged and
    leaves exactly that document in local storage again; if it throws,
    the application is gone at its start. *)
Theorem saved_document_reloads_to_itself :
  forall s : Store,
    (forall fld, wellShaped fld (get fld s) = true) ->
    (render dashboard (reread s) = Ok tt ->
     exists a,
       load (Some (JSON.stringify (payload s))) = Ok a
       /\ store a = reread s
       /\ localStorage a = Some (JSON.stringify (payload s))
       /\ console a = []
       /\ (forall fld, wellShaped fld (get fld (store a)) = true))
    /\ (forall e, render dashboard (reread s) = Throw e ->
                  load (Some (JSON.stringify (payload s))) = Throw e).
Proof.
  intros s Hshape.
  destruct (serialize_shaped _ _ (Hshape User)) as (ju & Hu & Tu & Su).
  destruct (serialize_shaped _ _ (Hshape Categories)) as (jc & Hc & Tc & Sc).
  destruct (serialize_shaped _ _ (Hshape Entries)) as (je & He & Te & Se).
  destruct (serialize_shaped _ _ (Hshape Expenses)) as (jx & Hx & Tx & Sx).
  destruct (serialize_shaped _ _ (Hshape Goals)) as (jg & Hg & Tg & Sg).
  destruct (serialize_shaped _ _ (Hshape FixedCosts)) as (jf & Hf & Tf & Sf).
  cbn [get] in *.
  set (ms := [ (js "user", ju); (js "categories", jc); (js "entries", je);
               (js "expenses", jx); (js "goals", jg); (js "fixedCosts", jf) ]).
  assert (Hdoc : JSON.stringify (payload s) = Encoded (JObject ms)).
  { unfold JSON.stringify, payload. cbn [JSON.serialize flat_map snd fst].
    rewrite Hu, Hc, He, Hx, Hg, Hf. reflexivity. }
  assert (Hr : reread s = loaded ms).
  { unfold reread. now rewrite Hdoc. }
  rewrite Hr, Hdoc, load_object.
  split; [|intros e He'; now rewrite He'].
  intros Hshow. rewrite Hshow. cbn [bind].
  eexists. split; [reflexivity|].
  assert (Hl : loaded ms
               = mkStore (JSON.revive ju) (JSON.revive jc) (JSON.revive je)
                         (JSON.revive jx) (JSON.revive jg) (JSON.revive jf)).
  { unfold loaded, JS.orElse.
    change (member ms User) with (JSON.revive ju).
    change (member ms Categories) with (JSON.revive jc).
    change (member ms Entries) with (JSON.revive je).
    change (member ms Expenses) with (JSON.revive jx).
    change (member ms Goals) with (JSON.revive jg).
    change (member ms FixedCosts) with (JSON.revive jf).
    now rewrite Tu, Tc, Te, Tx, Tg, Tf. }
  cbn [localStorage store save setItem withStore console initialApp].
  split; [reflexivity|].
  rewrite Hl. split; [|split; [reflexivity|]].
  - f_equal. unfold JSON.stringify, payload.
    cbn [JSON.serialize flat_map snd fst user categories entries expenses
         goals fixedCosts].
    rewrite (serialize_stable _ Hu), (serialize_stable _ Hc),
      (serialize_stable _ He), (serialize_stable _ Hx),
      (serialize_stable _ Hg), (serialize_stable _ Hf).
    reflexivity.
  - intros fld; destruct fld; cbn [get]; assumption.
Qed.

Lemma saved_document_reloads_to_itself_witness :
  exists a,
    load (Some (JSON.stringify (payload (store sampleApp)))) = Ok a
    /\ store a = reread (store sampleApp)
    /\ localStorage a = Some (JSON.stringify (payload (store sampleApp)))
    /\ console a = []
    /\ (forall fld, wellShaped fld (get fld (store a)) = true).
Proof.
  apply (@saved_document_reloads_to_itself (store sampleApp)).
  - intros fld; destruct fld; reflexivity.
  - vm_compute. reflexivity.
Defined.

(** X3. When nothing is stored, or the stored text is empty, is not
    JSON, or is the JSON text [null], the application starts from the
    defaults and the save effect overwrites whatever was stored with the
    document of the defaults; an error is logged exactly when there was
    a non-empty text. *)
Theorem load_unreadable_starts_from_defaults :
  forall stored : option text,
    unreadable stored = true ->
    exists a,
      load stored = Ok a
      /\ store a = initialStore
      /\ localStorage a = Some (JSON.stringify (payload initialStore))
      /\ alerts a = []
      /\ console a = match stored with
                     | None | Some Blank => []
                     | Some _ => [js "Erro ao carregar dados:"]
                     end.
Proof.
  intros [[| |[| | | | |]]|] H; try discriminate H;
    (eexists; split; [reflexivity|]; repeat split).
Qed.

Lemma load_unreadable_starts_from_defaults_witness :
  exists a,
    load (Some Malformed) = Ok a
    /\ store a = initialStore
    /\ localStorage a = Some (JSON.stringify (payload initialStore))
    /\ alerts a = []
    /\ console a = [js "Erro ao carregar dados:"].
Proof.
  apply (load_unreadable_starts_from_defaults (Some Malformed)).
  reflexivity.
Defined.

(* ================================================================== *)
(** * What an import accepts                                           *)
(* ================================================================== *)

Lemma import_scalar (doc : json) (a : App) :
  accepted doc = true ->
  importData (Some (Encoded doc)) a
  = (_ <- render (tab a) (loaded (membersOf doc)) ;;
     Ok (save (withStore (loaded (membersOf doc))
                (alert (js "Dados importados com sucesso") a)))).
Proof.
  destruct doc; try discriminate; intros _; try reflexivity.
  apply import_object.
Qed.



Lemma snoc_inj (A : Type) (l : list A) (x y : A) : l ++ [x] = l ++ [y] -> x = y.
Proof. intros H. apply app_inv_head in H. now injection H. Qed.

Lemma import_messages_differ :
  js "Dados importados com sucesso" = js "Falha ao importar: arquivo inválido"
  -> False.
Proof. vm_compute. discriminate. Qed.

(** X5. [importData] reports a failure, leaving the state and the stored
    document as they were, exactly when the file's text is empty, is not
    JSON, or is the JSON text [null]: reading a field of [null] throws
    inside the [try] block as a parse error does. *)
Theorem import_fails_exactly_on_unreadable_text :
  forall (contents : text) (a : App),
    (exists a', importData (Some contents) a = Ok a'
                /\ rejected (js "Falha ao importar: arquivo inválido") a a')
    <-> unreadable (Some contents) = true.
Proof.
  intros contents a. split.
  - intros (a' & Hrun & Hrej). destruct Hrej as (_ & _ & _ & _ & Halerts).
    destruct contents as [| |doc]; try reflexivity.
    destruct (accepted doc) eqn:Hacc.
    + rewrite (import_scalar doc a Hacc) in Hrun.
      destruct (render _ _); [|discriminate].
      cbn [bind] in Hrun. injection Hrun as <-.
      cbn [alerts save setItem withStore alert] in Halerts.
      apply snoc_inj in Halerts. destruct (import_messages_differ Halerts).
    + destruct doc; try discriminate Hacc; [reflexivity|].
      discriminate Hrun.
  - intros H. destruct contents as [| |[| | | | |]]; try discriminate H;
      (eexists; split; [reflexivity | apply rejected_alert]).
Qed.

(** X6. A document that is a JSON array takes the application down, on
    load and on import alike: read off an array, [entries] is the
    array method of that name, a setter given a function takes it for
    an updater, and the method throws when React calls it. *)
Theorem array_document_throws :
  forall (xs : list json) (a : App),
    load (Some (Encoded (JArray xs))) = Throw TypeError
    /\ importData (Some (Encoded (JArray xs))) a = Throw TypeError.
Proof. intros xs a. split; reflexivity. Qed.

(* ================================================================== *)
(** * Each handler keeps to its own field                              *)
(* ================================================================== *)

Lemma get_set_frame (fld fld' : field) (v : value) (s : Store) :
  field_eqb fld fld' = false -> get fld' (set fld v s) = get fld' s.
Proof. destruct fld, fld'; try discriminate; reflexivity. Qed.

Lemma update_frame (fld : field) (g : value -> result value) (a a' : App) :
  update (fun s => v <- g (get fld s) ;; Ok (set fld v s)) a = Ok a' ->
  forall fld', field_eqb fld fld' = false ->
               get fld' (store a') = get fld' (store a).
Proof.
  unfold update. intros Hrun fld' Hne.
  destruct (g (get fld (store a))) as [v|]; [|discriminate].
  cbn [bind] in Hrun. injection Hrun as <-.
  cbn [store save setItem withStore]. now apply get_set_frame.
Qed.

Lemma handle_frame (ev : event) (a a' : App) (fld : field) :
  isImport ev = false ->
  writesTo ev a fld = false ->
  handle ev a = Ok a' ->
  get fld (store a') = get fld (store a).
Proof.
  intros Hev Hw Hrun. unfold writesTo, target in Hw.
  destruct ev; cbn [handle] in Hrun; try discriminate Hev; clear Hev.
  - now injection Hrun as <-.
  - now injection Hrun as <-.
  - unfold addEntry in Hrun. rewrite number_of_text in Hrun. cbn [bind] in Hrun.
    destruct (_ || _); [now injection Hrun as <-|].
    destruct (Str.eqb (Form.type (form a)) (js "income"));
      match type of Hrun with
      | (x <- ?u ;; _) = _ => destruct u as [a1|] eqn:Hu; [|discriminate]
      end; cbn [bind] in Hrun; injection Hrun as <-; cbn [store setForm].
    + exact (@update_frame Entries (prepend _) a a1 Hu fld Hw).
    + exact (@update_frame Expenses (prepend _) a a1 Hu fld Hw).
  - unfold removeItem in Hrun.
    destruct (negb confirmed); [now injection Hrun as <-|].
    destruct (Str.eqb kind (js "income")) eqn:Hk.
    + rewrite (kind_income_not_expense _ Hk) in Hrun.
      match type of Hrun with
      | (x <- ?u ;; _) = _ => destruct u as [a1|] eqn:Hu; [|discriminate]
      end. cbn [bind] in Hrun. injection Hrun as <-.
      exact (@update_frame Entries (without id) a a1 Hu fld Hw).
    + cbn [bind] in Hrun. destruct (Str.eqb kind (js "expense")).
      * exact (@update_frame Expenses (without id) a a' Hrun fld Hw).
      * now injection Hrun as <-.
  - unfold addGoal in Hrun. rewrite number_of_text in Hrun. cbn [bind] in Hrun.
    destruct (_ || _); [now injection Hrun as <-|].
    match type of Hrun with
    | (x <- ?u ;; _) = _ => destruct u as [a1|] eqn:Hu; [|discriminate]
    end. cbn [bind] in Hrun. injection Hrun as <-. cbn [store setGoalForm].
    exact (@update_frame Goals (prepend _) a a1 Hu fld Hw).
  - exact (@update_frame Goals (JS.map (toggled id)) a a' Hrun fld Hw).
  - exact (@update_frame Goals (without id) a a' Hrun fld Hw).
  - unfold addFixedCost in Hrun.
    destruct (negb (JS.truthy (prompted answer1))
              || negb (JS.truthy (prompted answer2))) eqn:Hans;
      [now injection Hrun as <-|].
    destruct answer2 as [t|]; [|now destruct (JS.truthy (prompted answer1))].
    exact (@update_frame FixedCosts
             (prepend (VObj [ (js "id", VStr (uid r));
                              (js "name", prompted answer1);
                              (js "value", VNum (Num.StringToNumber t)) ]))
             a a' Hrun fld Hw).
  - exact (@update_frame FixedCosts (without id) a a' Hrun fld Hw).
  - unfold addCategory in Hrun.
    destruct (JS.truthy (prompted answer)); [|now injection Hrun as <-].
    exact (@update_frame Categories (prepend _) a a' Hrun fld Hw).
  - unfold editProfile in Hrun.
    destruct (JS.truthy (prompted answer)); [|now injection Hrun as <-].
    exact (@update_frame User
             (fun u => Ok (VObj (JS.setProp (js "name") (prompted answer)
                                   (JS.spreadObject u))))
             a a' Hrun fld Hw).
  - now destruct (showTab_ok _ _ Hrun) as [-> | ->].
Qed.

(** X7. An event other than an import writes to one field at most: the
    ledger the form or the button names, the goals, the fixed costs,
    the categories or the profile.  The other five fields come out of
    the handler as they went in. *)
Theorem handlers_keep_to_their_field :
  forall (ev : event) (a a' : App) (fld : field),
    isImport ev = false ->
    writesTo ev a fld = false ->
    handle ev a = Ok a' ->
    get fld (store a') = get fld (store a).
Proof. intros ev a a' fld. apply handle_frame. Qed.

Lemma handlers_keep_to_their_field_witness :
  exists a',
    handle (ToggleGoal (js "9zq1m4c")) sampleApp = Ok a'
    /\ get Entries (store a') = get Entries (store sampleApp).
Proof.
  eexists. split; [vm_compute; reflexivity|].
  apply (@handlers_keep_to_their_field (ToggleGoal (js "9zq1m4c")) sampleApp);
    [reflexivity | reflexivity | vm_compute; reflexivity].
Defined.

(* ================================================================== *)
(** * Removing items                                                   *)
(* ================================================================== *)

Lemma keeps_other_ids (id : jstring) (x : value) :
  (v <- JS.getProp x (js "id") ;; Ok (negb (JS.strictEqStr v id)))
  = if isNullish x then Throw TypeError else Ok (negb (hasId id x)).
Proof.
  unfold hasId.
  destruct x; cbn [JS.getProp isNullish bind]; try reflexivity.
  destruct (JS.lookup (js "id") props); reflexivity.
Qed.

Lemma without_array (id : jstring) (xs : list value) :
  without id (VArr xs)
  = if existsb isNullish xs then Throw TypeError else Ok (VArr (others id xs)).
Proof.
  unfold without, JS.filter, others. cbn [JS.asArray bind].
  induction xs as [|x xs IH]; [reflexivity|].
  cbn [JS.filterM existsb List.filter]. rewrite keeps_other_ids.
  destruct (isNullish x); cbn [bind orb]; [reflexivity|].
  destruct (JS.filterM _ xs) as [ys|e]; destruct (existsb isNullish xs);
    cbn [bind] in *; try discriminate IH.
  - injection IH as ->. now destruct (negb (hasId id x)).
  - exact IH.
Qed.

Lemma handle_removal (ev : event) (a : App) (fld : field) (id : jstring) :
  removal ev = Some (fld, id) ->
  handle ev a
  = (v <- without id (get fld (store a)) ;;
     Ok (save (withStore (set fld v (store a)) a))).
Proof.
  destruct ev; try discriminate; cbn [removal handle].
  - destruct confirmed; [|discriminate]. unfold removeItem. cbn [negb].
    destruct (Str.eqb kind (js "income")) eqn:Hk.
    + intros [= <- <-]. rewrite (kind_income_not_expense _ Hk).
      unfold update. cbn [get set].
      destruct (without id0 (entries (store a))); reflexivity.
    + cbn [bind]. destruct (Str.eqb kind (js "expense")); [|discriminate].
      intros [= <- <-]. unfold update. cbn [get set].
      destruct (without id0 (expenses (store a))); reflexivity.
  - intros [= <- <-]. unfold removeGoal, update. cbn [get set].
    destruct (without id0 (goals (store a))); reflexivity.
  - intros [= <- <-]. unfold removeFixedCost, update. cbn [get set].
    destruct (without id0 (fixedCosts (store a))); reflexivity.
Qed.

Lemma nullish_others (id : jstring) (xs : list value) :
  existsb isNullish xs = false -> existsb isNullish (others id xs) = false.
Proof.
  unfold others. induction xs as [|x xs IH]; [reflexivity|].
  cbn [existsb List.filter]. intros H. apply orb_false_elim in H.
  destruct H as [H1 H2]. destruct (negb (hasId id x)); cbn [existsb];
    [rewrite H1|]; auto.
Qed.

Lemma others_others (id : jstring) (xs : list value) :
  others id (others id xs) = others id xs.
Proof.
  unfold others. induction xs as [|x xs IH]; [reflexivity|].
  cbn [List.filter]. destruct (negb (hasId id x)) eqn:E; [|exact IH].
  cbn [List.filter]. now rewrite E, IH.
Qed.

Lemma others_absent (id : jstring) (xs : list value) :
  forallb (fun x => negb (hasId id x)) xs = true -> others id xs = xs.
Proof.
  unfold others. induction xs as [|x xs IH]; [reflexivity|].
  cbn [forallb List.filter]. intros H. apply andb_prop in H.
  destruct H as [H1 H2]. now rewrite H1, IH.
Qed.

Lemma set_set (fld : field) (v w : value) (s : Store) :
  set fld v (set fld w s) = set fld v s.
Proof. destruct fld; reflexivity. Qed.

Lemma set_get (fld : field) (s : Store) : set fld (get fld s) s = s.
Proof. destruct fld, s; reflexivity. Qed.

Lemma get_set_same (fld : field) (v : value) (s : Store) :
  get fld (set fld v s) = v.
Proof. destruct fld; reflexivity. Qed.

(** X8. A removal ([rem] on an entry or an expense once confirmed,
    [remover] on a goal or a fixed cost) takes out of its collection
    every item whose id is the one given, all of them when several
    share it, and keeps the rest in their order.  It throws when the
    collection holds a [null]; when no item has the id the store comes
    out as it was; and removing the same id again changes nothing. *)
Theorem removal_filters_by_id :
  forall (ev : event) (a : App) (fld : field) (id : jstring) (xs : list value),
    removal ev = Some (fld, id) ->
    get fld (store a) = VArr xs ->
    (existsb isNullish xs = true -> handle ev a = Throw TypeError)
    /\ (existsb isNullish xs = false ->
        exists a',
          handle ev a = Ok a'
          /\ store a' = set fld (VArr (others id xs)) (store a)
          /\ (forallb (fun x => negb (hasId id x)) xs = true ->
              store a' = store a)
          /\ (exists a'', handle ev a' = Ok a'' /\ store a'' = store a')).
Proof.
  intros ev a fld id xs Hev Hxs. split; intros Hn.
  - rewrite (handle_removal ev a Hev), Hxs, without_array, Hn. reflexivity.
  - rewrite (handle_removal ev a Hev), Hxs, without_array, Hn. cbn [bind].
    eexists. split; [reflexivity|]. cbn [store save setItem withStore].
    split; [reflexivity|]. split.
    + intros Habs. rewrite (others_absent _ _ Habs), <- Hxs. apply set_get.
    + rewrite (handle_removal ev _ Hev). cbn [store save setItem withStore].
      rewrite get_set_same, without_array, (nullish_others id xs Hn).
      cbn [bind]. eexists. split; [reflexivity|].
      cbn [store save setItem withStore].
      now rewrite set_set, others_others.
Qed.

Lemma removal_filters_by_id_witness :
  (existsb isNullish [bikeGoal] = true ->
   handle (RemoveGoal (js "k3j5h2x")) bikeApp = Throw TypeError)
  /\ (existsb isNullish [bikeGoal] = false ->
      exists a',
        handle (RemoveGoal (js "k3j5h2x")) bikeApp = Ok a'
        /\ store a' = set Goals (VArr (others (js "k3j5h2x") [bikeGoal]))
                        (store bikeApp)
        /\ (forallb (fun x => negb (hasId (js "k3j5h2x") x)) [bikeGoal] = true ->
            store a' = store bikeApp)
        /\ (exists a'', handle (RemoveGoal (js "k3j5h2x")) a' = Ok a''
                        /\ store a'' = store a')).
Proof.
  apply (@removal_filters_by_id (RemoveGoal (js "k3j5h2x")) bikeApp Goals
           (js "k3j5h2x") [bikeGoal]); reflexivity.
Defined.

Lemma without_prepended (id : jstring) (item : value) (xs : list value) :
  isNullish item = false ->
  hasId id item = true ->
  existsb isNullish xs = false ->
  forallb (fun x => negb (hasId id x)) xs = true ->
  without id (VArr (item :: xs)) = Ok (VArr xs).
Proof.
  intros Hitem Hid Hn Habs. rewrite without_array.
  cbn [existsb]. rewrite Hitem, Hn. cbn [orb].
  unfold others. cbn [List.filter]. rewrite Hid. cbn [negb].
  fold (others id xs). now rewrite (others_absent _ _ Habs).
Qed.

Lemma hasId_own (id : jstring) (rest : list (jstring * value)) :
  hasId id (VObj ((js "id", VStr id) :: rest)) = true.
Proof.
  unfold hasId. cbn [JS.getProp JS.lookup]. rewrite Str_eqb_refl.
  cbn [JS.strictEqStr]. apply Str_eqb_refl.
Qed.

(** X9. Removing undoes adding: when the id [uid] generates is carried
    by no item of the list, submitting an entry and then removing the
    item of that id gives back the store there was, and so does adding
    a goal and removing it.  (The lists must hold no [null].) *)
Theorem remove_undoes_add :
  forall (r now : jstring) (a : App) (xs : list value),
    existsb isNullish xs = false ->
    forallb (fun x => negb (hasId (uid r) x)) xs = true ->
    (Num.isFalsy (Num.StringToNumber (Form.value (form a)))
     || Str.isEmpty (Form.desc (form a)) = false ->
     get (if Str.eqb (Form.type (form a)) (js "income")
          then Entries else Expenses) (store a) = VArr xs ->
     exists a1 a2,
       addEntry r now a = Ok a1
       /\ removeItem (uid r)
            (if Str.eqb (Form.type (form a)) (js "income")
             then js "income" else js "expense") true a1 = Ok a2
       /\ store a2 = store a)
    /\ (Str.isEmpty (GoalForm.name (goalForm a))
        || Num.isFalsy (Num.StringToNumber (GoalForm.price (goalForm a))) = false ->
        goals (store a) = VArr xs ->
        exists a1 a2,
          addGoal r a = Ok a1
          /\ removeGoal (uid r) a1 = Ok a2
          /\ store a2 = store a).
Proof.
  intros r now a xs Hn Habs. split.
  - intros Hc Hxs. unfold addEntry. rewrite number_of_text. cbn [bind].
    rewrite Hc.
    destruct (Str.eqb (Form.type (form a)) (js "income")); cbn [get] in Hxs;
      unfold update at 1, prepend; rewrite Hxs; cbn [JS.spreadArray bind];
      eexists; eexists; (split; [reflexivity|]).
    + change (removeItem (uid r) (js "income") true ?x)
        with (handle (RemoveItem (uid r) (js "income") true) x).
      rewrite (@handle_removal (RemoveItem (uid r) (js "income") true) _ Entries (uid r) eq_refl).
      cbn [get store setForm save setItem withStore entries setEntries].
      rewrite without_prepended; auto using hasId_own.
      cbn [bind]. split; [reflexivity|].
      cbn [store save setItem withStore set setEntries user categories
           entries expenses goals fixedCosts].
      rewrite <- Hxs. now destruct (store a).
    + change (removeItem (uid r) (js "expense") true ?x)
        with (handle (RemoveItem (uid r) (js "expense") true) x).
      rewrite (@handle_removal (RemoveItem (uid r) (js "expense") true) _ Expenses (uid r) eq_refl).
      cbn [get store setForm save setItem withStore expenses setExpenses].
      rewrite without_prepended; auto using hasId_own.
      cbn [bind]. split; [reflexivity|].
      cbn [store save setItem withStore set setExpenses user categories
           entries expenses goals fixedCosts].
      rewrite <- Hxs. now destruct (store a).
  - intros Hc Hxs. unfold addGoal. rewrite number_of_text. cbn [bind].
    rewrite Hc. unfold update at 1, prepend. rewrite Hxs.
    cbn [JS.spreadArray bind]. eexists. eexists. split; [reflexivity|].
    unfold removeGoal, update.
    cbn [store setGoalForm save setItem withStore goals setGoals].
    rewrite without_prepended; auto using hasId_own.
    cbn [bind]. split; [reflexivity|].
    cbn [store save setItem withStore setGoals user categories
         entries expenses goals fixedCosts].
    rewrite <- Hxs. now destruct (store a).
Qed.

Lemma remove_undoes_add_witness :
  exists a1 a2,
    addEntry (js "0.4fg8s1p0a") (js "2024-05-19T08:00:00.000Z") filledApp = Ok a1
    /\ removeItem (js "4fg8s1p") (js "income") true a1 = Ok a2
    /\ store a2 = store filledApp.
Proof.
  apply (proj1 (@remove_undoes_add
                  (js "0.4fg8s1p0a") (js "2024-05-19T08:00:00.000Z") filledApp
                  (match entries (store filledApp) with
                   | VArr xs => xs
                   | _ => []
                   end)
                  eq_refl eq_refl)); reflexivity.
Defined.

Lemma others_comm (id1 id2 : jstring) (xs : list value) :
  others id1 (others id2 xs) = others id2 (others id1 xs).
Proof.
  unfold others. induction xs as [|x xs IH]; [reflexivity|].
  cbn [List.filter].
  destruct (negb (hasId id2 x)) eqn:E2, (negb (hasId id1 x)) eqn:E1;
    cbn [List.filter]; rewrite ?E1, ?E2, IH; reflexivity.
Qed.

Lemma without_not_array (id : jstring) (v : value) :
  (forall xs, v <> VArr xs) -> without id v = Throw TypeError.
Proof. intros H. destruct v; try reflexivity. now destruct (H elems). Qed.

(** X10. Removals from one collection commute: removing the items of one
    id and then those of another comes to the same as removing them in
    the other order, the same state or the same failure. *)
Theorem removals_commute :
  forall (ev1 ev2 : event) (a : App) (fld : field) (id1 id2 : jstring),
    removal ev1 = Some (fld, id1) ->
    removal ev2 = Some (fld, id2) ->
    run [ev1; ev2] a = run [ev2; ev1] a.
Proof.
  intros ev1 ev2 a fld id1 id2 H1 H2. cbn [run].
  rewrite (handle_removal ev1 a H1), (handle_removal ev2 a H2).
  destruct (get fld (store a)) as [| | | | |xs| |] eqn:Hxs;
    try reflexivity.
  rewrite !without_array.
  destruct (existsb isNullish xs) eqn:Hn; [reflexivity|]. cbn [bind].
  rewrite (handle_removal ev2 _ H2), (handle_removal ev1 _ H1).
  cbn [store save setItem withStore]. rewrite !get_set_same, !without_array.
  rewrite !(nullish_others _ xs Hn). cbn [bind].
  cbn [store save setItem withStore form goalForm alerts console].
  now rewrite !set_set, others_comm.
Qed.

Lemma removals_commute_witness :
  run [RemoveGoal (js "k3j5h2x"); RemoveGoal (js "zzzzzzz")] bikeApp
  = run [RemoveGoal (js "zzzzzzz"); RemoveGoal (js "k3j5h2x")] bikeApp.
Proof.
  apply (@removals_commute (RemoveGoal (js "k3j5h2x")) (RemoveGoal (js "zzzzzzz"))
           bikeApp Goals (js "k3j5h2x") (js "zzzzzzz")); reflexivity.
Defined.

(* ================================================================== *)
(** * Fixed costs, categories and the profile                          *)
(* ================================================================== *)

Lemma truthy_prompted (answer : option jstring) :
  JS.truthy (prompted answer) = given answer.
Proof. destruct answer as [[|c s]|]; reflexivity. Qed.

(** X11. [addFixedCost] does nothing at all, and says nothing, when
    either prompt is cancelled or left empty.  Otherwise it always adds
    the cost in front, with [Number] of the text typed as its value:
    the text is not checked, so a text that is not a number is stored
    as [NaN]. *)
Theorem addFixedCost_takes_any_text :
  forall (answer1 answer2 : option jstring) (r : jstring) (a : App),
    (given answer1 && given answer2 = false ->
     addFixedCost answer1 answer2 r a = Ok a)
    /\ (forall name typed xs,
          answer1 = Some name -> answer2 = Some typed ->
          given answer1 && given answer2 = true ->
          fixedCosts (store a) = VArr xs ->
          addFixedCost answer1 answer2 r a
          = Ok (save (withStore
                  (setFixedCosts
                     (VArr (VObj [ (js "id", VStr (uid r));
                                   (js "name", VStr name);
                                   (js "value", VNum (Num.StringToNumber typed)) ]
                            :: xs))
                     (store a)) a))).
Proof.
  intros answer1 answer2 r a. unfold addFixedCost.
  rewrite !truthy_prompted. split.
  - intros H. destruct (given answer1), (given answer2); try discriminate H;
      reflexivity.
  - intros name typed xs -> -> H Hxs. apply andb_prop in H.
    destruct H as [H1 H2]. rewrite H1, H2. cbn [negb orb prompted].
    unfold update. rewrite number_of_text. cbn [bind].
    unfold prepend. rewrite Hxs. reflexivity.
Qed.

Lemma addFixedCost_takes_any_text_witness :
  addFixedCost (Some (js "Luz")) None (js "0.c4v8u2e6y") sampleApp = Ok sampleApp
  /\ exists xs,
       fixedCosts (store sampleApp) = VArr xs
       /\ addFixedCost (Some (js "Luz")) (Some (js "abc")) (js "0.c4v8u2e6y")
            sampleApp
          = Ok (save (withStore
                  (setFixedCosts
                     (VArr (VObj [ (js "id", VStr (js "c4v8u2e"));
                                   (js "name", VStr (js "Luz"));
                                   (js "value", VNum nan) ]
                            :: xs))
                     (store sampleApp)) sampleApp)).
Proof.
  split.
  - apply (proj1 (@addFixedCost_takes_any_text
                    (Some (js "Luz")) None (js "0.c4v8u2e6y") sampleApp)).
    reflexivity.
  - exists (match fixedCosts (store sampleApp) with
            | VArr xs => xs
            | _ => []
            end).
    split; [reflexivity|].
    exact (proj2 (@addFixedCost_takes_any_text
                    (Some (js "Luz")) (Some (js "abc")) (js "0.c4v8u2e6y")
                    sampleApp)
                 (js "Luz") (js "abc") _ eq_refl eq_refl eq_refl eq_refl).
Defined.

Lemma sumValues_falsy_head (e : value) (n : float) (xs : list value) :
  JS.getProp e (js "value") = Ok (VNum n) ->
  Num.isFalsy n = true ->
  sumValues (VArr (e :: xs)) = sumValues (VArr xs).
Proof.
  intros Hv Hn. unfold sumValues, JS.reduce. cbn [JS.asArray bind JS.reduceM].
  unfold addValue at 1, reading. rewrite Hv. cbn [bind].
  unfold JS.orElse. cbn [JS.truthy]. rewrite Hn. reflexivity.
Qed.

(** X12. A fixed cost entered with a value that reads as no number (or
    as zero) is stored all the same, and leaves the projected balance
    where it was. *)
Theorem fixed_cost_without_number_keeps_balance :
  forall (name typed r : jstring) (a : App) (xs : list value),
    given (Some name) && given (Some typed) = true ->
    Num.isFalsy (Num.StringToNumber typed) = true ->
    fixedCosts (store a) = VArr xs ->
    exists a',
      addFixedCost (Some name) (Some typed) r a = Ok a'
      /\ fixedCosts (store a')
         = VArr (VObj [ (js "id", VStr (uid r)); (js "name", VStr name);
                        (js "value", VNum (Num.StringToNumber typed)) ] :: xs)
      /\ projectedBalance (store a') = projectedBalance (store a).
Proof.
  intros name typed r a xs Hgiven Hfalsy Hxs. unfold addFixedCost.
  rewrite !truthy_prompted. apply andb_prop in Hgiven.
  destruct Hgiven as [H1 H2]. rewrite H1, H2. cbn [negb orb prompted].
  unfold update. rewrite number_of_text. cbn [bind].
  unfold prepend. rewrite Hxs. cbn [JS.spreadArray bind].
  eexists. split; [reflexivity|].
  cbn [store save setItem withStore fixedCosts setFixedCosts].
  split; [reflexivity|].
  assert (Hsum : sumValues
                   (VArr (VObj [ (js "id", VStr (uid r)); (js "name", VStr name);
                                 (js "value", VNum (Num.StringToNumber typed)) ]
                          :: xs))
                 = sumValues (VArr xs)).
  { refine (sumValues_falsy_head _ _ _ Hfalsy). reflexivity. }
  unfold projectedBalance, totalIncome, totalExpenses.
  cbn [entries expenses fixedCosts setFixedCosts].
  now rewrite Hsum, Hxs.
Qed.

Lemma fixed_cost_without_number_keeps_balance_witness :
  exists a',
    addFixedCost (Some (js "Luz")) (Some (js "abc")) (js "0.7ab3c9d1e") sampleApp
    = Ok a'
    /\ fixedCosts (store a')
       = VArr (VObj [ (js "id", VStr (uid (js "0.7ab3c9d1e")));
                      (js "name", VStr (js "Luz"));
                      (js "value", VNum (Num.StringToNumber (js "abc"))) ]
               :: match fixedCosts (store sampleApp) with
                  | VArr xs => xs
                  | _ => []
                  end)
    /\ projectedBalance (store a') = projectedBalance (store sampleApp).
Proof.
  apply (@fixed_cost_without_number_keeps_balance
           (js "Luz") (js "abc") (js "0.7ab3c9d1e") sampleApp);
    vm_compute; reflexivity.
Defined.

(** X13. [addCategory] does nothing when the prompt is cancelled or left
    empty; any other answer goes in front of the categories without a
    look at what is there, so a category entered twice is listed
    twice. *)
Theorem addCategory_keeps_duplicates :
  forall (answer : option jstring) (a : App),
    (given answer = false -> addCategory answer a = Ok a)
    /\ (forall c cs,
          answer = Some c -> given answer = true ->
          categories (store a) = VArr cs ->
          addCategory answer a
          = Ok (save (withStore (setCategories (VArr (VStr c :: cs)) (store a)) a))
          /\ exists a2,
               run [AddCategory answer; AddCategory answer] a = Ok a2
               /\ categories (store a2) = VArr (VStr c :: VStr c :: cs)).
Proof.
  intros answer a. unfold addCategory. rewrite truthy_prompted. split.
  - now intros ->.
  - intros c cs -> Hg Hcs. rewrite Hg.
    assert (H1 : update (fun s => cs0 <- prepend (prompted (Some c)) (categories s) ;;
                                  Ok (setCategories cs0 s)) a
                 = Ok (save (withStore (setCategories (VArr (VStr c :: cs))
                                          (store a)) a))).
    { unfold update, prepend. rewrite Hcs. reflexivity. }
    split; [exact H1|].
    cbn [run handle]. unfold addCategory. rewrite truthy_prompted, Hg, H1.
    cbn [bind]. eexists. split; [reflexivity|]. reflexivity.
Qed.

Lemma addCategory_keeps_duplicates_witness :
  addCategory None sampleApp = Ok sampleApp
  /\ exists a2,
       run [AddCategory (Some (js "Lazer")); AddCategory (Some (js "Lazer"))]
           sampleApp = Ok a2
       /\ JS.spreadArray (categories (store a2))
          = (cs <- JS.spreadArray SAMPLE_CATEGORIES ;;
             Ok (VStr (js "Lazer") :: VStr (js "Lazer") :: cs)).
Proof.
  split.
  - apply (proj1 (@addCategory_keeps_duplicates None sampleApp)). reflexivity.
  - destruct (proj2 (@addCategory_keeps_duplicates (Some (js "Lazer")) sampleApp)
                    (js "Lazer")
                    (match SAMPLE_CATEGORIES with
                     | VArr cs => cs
                     | _ => []
                     end)
                    eq_refl eq_refl eq_refl)
      as (_ & a2 & Hrun & Hcs).
    exists a2. split; [exact Hrun|]. now rewrite Hcs.
Defined.

(** X14. [Editar Perfil] does nothing when the prompt is cancelled or
    left empty.  Otherwise the profile gets the name typed and keeps
    every other property it had, and of two edits in a row only the
    second shows: the result is that of the second edit alone. *)
Theorem editProfile_sets_name_only :
  forall (answer : option jstring) (a : App),
    (given answer = false -> editProfile answer a = Ok a)
    /\ (forall n props,
          answer = Some n -> given answer = true ->
          user (store a) = VObj props ->
          exists a',
            editProfile answer a = Ok a'
            /\ JS.getProp (user (store a')) (js "name") = Ok (VStr n)
            /\ (forall k, Str.eqb (js "name") k = false ->
                          JS.getProp (user (store a')) k
                          = JS.getProp (user (store a)) k)
            /\ (forall before,
                  given before = true ->
                  (a1 <- editProfile before a ;; editProfile answer a1)
                  = Ok a')).
Proof.
  intros answer a. unfold editProfile. rewrite truthy_prompted. split.
  - now intros ->.
  - intros n props -> Hg Hu. rewrite Hg. unfold update. cbn [bind prompted].
    rewrite Hu. cbn [JS.spreadObject]. eexists. split; [reflexivity|].
    cbn [store save setItem withStore user setUser].
    split; [|split].
    + cbn [JS.getProp]. now rewrite lookup_setProp_same.
    + intros k Hk. cbn [JS.getProp].
      now rewrite lookup_setProp_other.
    + intros before Hb. rewrite ?truthy_prompted, Hb.
      unfold update. cbn [bind].
      cbn [bind store save setItem withStore user setUser].
      rewrite ?Hu. cbn [JS.spreadObject]. rewrite setProp_setProp.
      reflexivity.
Qed.

Lemma editProfile_sets_name_only_witness :
  editProfile (Some []) sampleApp = Ok sampleApp
  /\ exists a',
       editProfile (Some (js "Ana")) sampleApp = Ok a'
       /\ JS.getProp (user (store a')) (js "name") = Ok (VStr (js "Ana")).
Proof.
  split.
  - apply (proj1 (@editProfile_sets_name_only (Some []) sampleApp)).
    reflexivity.
  - destruct (proj2 (@editProfile_sets_name_only (Some (js "Ana")) sampleApp)
                    (js "Ana")
                    (match user (store sampleApp) with
                     | VObj props => props
                     | _ => []
                     end)
                    eq_refl eq_refl eq_refl)
      as (a' & Hrun & Hname & _).
    exists a'. split; assumption.
Defined.

(* ================================================================== *)
(** * Submitting twice                                                 *)
(* ================================================================== *)

(** X15. A form cannot be submitted twice in a row: whatever the first
    [addEntry] did, a second one straight after it is rejected, since a
    form that was accepted has been cleared and a form that was
    rejected is still as it was; and likewise for [addGoal]. *)
Theorem second_submit_is_rejected :
  forall (r now r' now' : jstring) (a : App),
    (forall a1, addEntry r now a = Ok a1 ->
                exists a2, addEntry r' now' a1 = Ok a2
                           /\ rejected (js "Preencha descrição e valor") a1 a2)
    /\ (forall a1, addGoal r a = Ok a1 ->
                   exists a2, addGoal r' a1 = Ok a2
                              /\ rejected (js "Preencha nome e preço do desejo") a1 a2).
Proof.
  intros r now r' now' a. split; intros a1 Hrun.
  - unfold addEntry in Hrun. rewrite number_of_text in Hrun. cbn [bind] in Hrun.
    destruct (Num.isFalsy (Num.StringToNumber (Form.value (form a)))
              || Str.isEmpty (Form.desc (form a))) eqn:Hc.
    + injection Hrun as <-. unfold addEntry. rewrite number_of_text.
      cbn [bind form alert]. rewrite Hc. eexists. split; [reflexivity|].
      apply rejected_alert.
    + match type of Hrun with
      | (x <- ?u ;; _) = _ => destruct u as [a0|]; [|discriminate]
      end. cbn [bind] in Hrun. injection Hrun as <-.
      eexists. split; [reflexivity|]. apply rejected_alert.
  - unfold addGoal in Hrun. rewrite number_of_text in Hrun. cbn [bind] in Hrun.
    destruct (Str.isEmpty (GoalForm.name (goalForm a))
              || Num.isFalsy (Num.StringToNumber (GoalForm.price (goalForm a))))
      eqn:Hc.
    + injection Hrun as <-. unfold addGoal. rewrite number_of_text.
      cbn [bind goalForm alert]. rewrite Hc. eexists. split; [reflexivity|].
      apply rejected_alert.
    + match type of Hrun with
      | (x <- ?u ;; _) = _ => destruct u as [a0|]; [|discriminate]
      end. cbn [bind] in Hrun. injection Hrun as <-.
      eexists. split; [reflexivity|]. apply rejected_alert.
Qed.

Lemma second_submit_is_rejected_witness :
  exists a1 a2,
    addEntry (js "0.4fg8s1p0a") (js "2024-05-19T08:00:00.000Z") filledApp = Ok a1
    /\ addEntry (js "0.r6t3y9u1i") (js "2024-05-19T08:00:01.000Z") a1 = Ok a2
    /\ rejected (js "Preencha descrição e valor") a1 a2.
Proof.
  eexists.
  destruct (proj1 (@second_submit_is_rejected
                     (js "0.4fg8s1p0a") (js "2024-05-19T08:00:00.000Z")
                     (js "0.r6t3y9u1i") (js "2024-05-19T08:00:01.000Z")
                     filledApp) _ eq_refl)
    as (a2 & Hrun & Hrej).
  exists a2. split; [reflexivity|]. split; assumption.
Defined.

(* ================================================================== *)
(** * The identifiers [uid] makes                                      *)
(* ================================================================== *)

(** X16. The id [uid] makes is the part of the random text from its
    third to its ninth character: seven characters at most, fewer when
    the text is shorter than nine, and none at all when the text has no
    more than two, as the text ["0"] of the draw 0. *)
Theorem uid_is_a_short_segment :
  forall r : jstring,
    firstn 2 r ++ uid r ++ skipn 9 r = r
    /\ List.length (uid r) = Nat.min 9 (List.length r) - 2
    /\ List.length (uid r) <= 7
    /\ (List.length r <= 2 -> uid r = []).
Proof.
  intros r. unfold uid, Str.slice.
  assert (Hlen : List.length (skipn 2 (firstn 9 r))
                 = Nat.min 9 (List.length r) - 2).
  { now rewrite List.length_skipn, List.length_firstn. }
  split; [|split; [exact Hlen | split]].
  - rewrite app_assoc.
    replace (firstn 2 r) with (firstn 2 (firstn 9 r))
      by (rewrite List.firstn_firstn; reflexivity).
    now rewrite !List.firstn_skipn.
  - rewrite Hlen. lia.
  - intros Hshort. apply List.length_zero_iff_nil. rewrite Hlen. lia.
Qed.

(* ================================================================== *)
(** * What a render asks of the state                                  *)
(* ================================================================== *)

Lemma fine_ok (A : Type) (x : A) : fine (Ok x).
Proof. now exists x. Qed.

Lemma fine_throw (A : Type) (e : error) : fine (@Throw A e) -> False.
Proof. intros [x H]. discriminate. Qed.

Lemma fine_unit (r : result unit) : fine r <-> r = Ok tt.
Proof. split; [intros [[] H]; exact H | intros ->; apply fine_ok]. Qed.

Lemma reconcile_app (xs ys : list value) :
  reconcile (xs ++ ys) = Ok tt <-> reconcile xs = Ok tt /\ reconcile ys = Ok tt.
Proof.
  induction xs as [|x xs IH]; cbn [app reconcile].
  - tauto.
  - destruct (invalidChild x); [|exact IH].
    split; [discriminate | intros [H _]; discriminate].
Qed.

Lemma rowsM_fine (row : value -> result (list value)) (xs : list value) :
  fine (cs <- rowsM row xs ;; reconcile cs)
  <-> Forall (fun x => fine (cs <- row x ;; reconcile cs)) xs.
Proof.
  induction xs as [|x xs IH]; cbn [rowsM bind].
  - split; [constructor | intros _; apply fine_ok].
  - rewrite Forall_cons_iff, <- IH.
    destruct (row x) as [r|e]; cbn [bind].
    + destruct (rowsM row xs) as [rs|e']; cbn [bind].
      * rewrite !fine_unit. apply reconcile_app.
      * split; [intros H; destruct (fine_throw H)
               | intros [_ H]; destruct (fine_throw H)].
    + split; [intros H; destruct (fine_throw H)
             | intros [H _]; destruct (fine_throw H)].
Qed.

Lemma rows_fine (row : value -> result (list value)) (v : value) :
  fine (cs <- rows row v ;; reconcile cs)
  <-> exists xs, v = VArr xs
                 /\ Forall (fun x => fine (cs <- row x ;; reconcile cs)) xs.
Proof.
  unfold rows.
  destruct v; cbn [JS.asArray bind];
    try (split; [intros H; destruct (fine_throw H)
                | intros (xs & H & _); discriminate H]).
  rewrite rowsM_fine. split.
  - intros H. eauto.
  - intros (xs & [= <-] & H). exact H.
Qed.

Lemma reduceM_fine (xs : list value) (s : float) :
  fine (JS.reduceM addValue xs s) <-> Forall (fun x => fine (reading x)) xs.
Proof.
  revert s. induction xs as [|x xs IH]; intros s; cbn [JS.reduceM].
  - split; [constructor | intros _; apply fine_ok].
  - rewrite Forall_cons_iff. unfold addValue at 1.
    destruct (reading x) as [n|e]; cbn [bind].
    + rewrite IH. split; [intros H; split; [apply fine_ok | exact H] | tauto].
    + split; [intros H; destruct (fine_throw H)
             | intros [H _]; destruct (fine_throw H)].
Qed.

Lemma sum_fine (v : value) :
  fine (sumValues v)
  <-> exists xs, v = VArr xs /\ Forall (fun x => fine (reading x)) xs.
Proof.
  unfold sumValues, JS.reduce.
  destruct v; cbn [JS.asArray bind];
    try (split; [intros H; destruct (fine_throw H)
                | intros (xs & H & _); discriminate H]).
  rewrite reduceM_fine. split.
  - intros H. eauto.
  - intros (xs & [= <-] & H). exact H.
Qed.

Lemma both_listed (P Q : value -> Prop) (v : value) :
  (exists xs, v = VArr xs /\ Forall P xs)
  /\ (exists xs, v = VArr xs /\ Forall Q xs)
  <-> exists xs, v = VArr xs /\ Forall (fun x => P x /\ Q x) xs.
Proof.
  split.
  - intros [(xs & -> & HP) (ys & [= <-] & HQ)]. exists xs. split; [reflexivity|].
    now apply Forall_and.
  - intros (xs & -> & H). apply Forall_and_inv in H. destruct H as [HP HQ].
    split; exists xs; auto.
Qed.

(** A field is displayed when each of its items is. *)
Lemma displays_items (t : Tab) (fld : field) (v : value) :
  listed t fld = true ->
  (displays t fld v
   <-> exists xs, v = VArr xs /\ Forall (itemFits t fld) xs).
Proof.
  destruct fld, t; cbn [listed displays itemFits]; try discriminate; intros _;
    rewrite ?sum_fine, ?rows_fine, ?both_listed; reflexivity.
Qed.

Lemma displays_unlisted (t : Tab) (fld : field) (v : value) :
  listed t fld = false -> field_eqb fld User = false -> displays t fld v.
Proof.
  destruct fld, t; cbn [listed displays]; try discriminate; intros _ _; exact I.
Qed.

(** A render succeeds when each of the six fields is displayed. *)
Lemma render_displays (t : Tab) (s : Store) :
  render t s = Ok tt <-> forall fld, displays t fld (get fld s).
Proof.
  unfold render, computeTotals, projectedBalance, totalIncome, totalExpenses.
  split.
  - intros H.
    destruct (sumValues (entries s)) as [i|] eqn:Hi; [|discriminate].
    destruct (sumValues (expenses s)) as [e|] eqn:He; [|discriminate].
    destruct (sumValues (fixedCosts s)) as [f|] eqn:Hf; [|discriminate].
    cbn [bind] in H.
    destruct (Header (user s)) as [hs|] eqn:Hh; [|discriminate].
    cbn [bind] in H.
    destruct (reconcile hs) as [[]|] eqn:Hr; [|discriminate]. cbn [bind] in H.
    assert (Hu : displays t User (user s)).
    { destruct t; cbn [displays]; rewrite Hh; cbn [bind]; now rewrite fine_unit. }
    destruct t.
    + unfold Dashboard in H.
      destruct (rows fixedCostRow (fixedCosts s)) as [fs|] eqn:Hfs; [|discriminate].
      destruct (rows goalRow (goals s)) as [gs|] eqn:Hgs; [|discriminate].
      cbn [bind] in H. apply reconcile_app in H. destruct H as [H1 H2].
      intros fld; destruct fld; [exact Hu|..]; cbn [get displays];
        rewrite ?Hi, ?He, ?Hf, ?Hfs, ?Hgs; cbn [bind];
        rewrite ?fine_unit; repeat split; auto using fine_ok.
    + unfold Finance in H.
      destruct (rows categoryOption (categories s)) as [cs|] eqn:Hcs; [|discriminate].
      destruct (rows ledgerRow (entries s)) as [es|] eqn:Hes; [|discriminate].
      destruct (rows ledgerRow (expenses s)) as [xs|] eqn:Hxs; [|discriminate].
      cbn [bind] in H. apply reconcile_app in H. destruct H as [H1 H].
      apply reconcile_app in H. destruct H as [H2 H3].
      intros fld; destruct fld; [exact Hu|..]; cbn [get displays];
        rewrite ?Hi, ?He, ?Hf, ?Hcs, ?Hes, ?Hxs; cbn [bind];
        rewrite ?fine_unit; repeat split; auto using fine_ok.
  - intros H.
    pose proof (H User) as Hu. pose proof (H Categories) as Hc.
    pose proof (H Entries) as He. pose proof (H Expenses) as Hx.
    pose proof (H Goals) as Hg. pose proof (H FixedCosts) as Hf.
    clear H. cbn [get] in *.
    assert (Hi : fine (sumValues (entries s))) by (destruct t; cbn in He; tauto).
    assert (Hj : fine (sumValues (expenses s))) by (destruct t; cbn in Hx; tauto).
    assert (Hk : fine (sumValues (fixedCosts s))) by (destruct t; cbn in Hf; tauto).
    destruct Hi as [i ->], Hj as [j ->], Hk as [k ->]. cbn [bind].
    assert (Hh : fine (hs <- Header (user s) ;; reconcile hs))
      by (destruct t; exact Hu).
    destruct (Header (user s)) as [hs|]; cbn [bind] in *;
      [|destruct (fine_throw Hh)].
    apply fine_unit in Hh. rewrite Hh. cbn [bind].
    destruct t; cbn [displays] in *.
    + unfold Dashboard. destruct Hf as [_ Hf].
      destruct (rows fixedCostRow (fixedCosts s)) as [fs|]; cbn [bind] in *;
        [|destruct (fine_throw Hf)].
      destruct (rows goalRow (goals s)) as [gs|]; cbn [bind] in *;
        [|destruct (fine_throw Hg)].
      apply reconcile_app. rewrite <- !fine_unit. tauto.
    + unfold Finance. destruct He as [_ He], Hx as [_ Hx].
      destruct (rows categoryOption (categories s)) as [cs|]; cbn [bind] in *;
        [|destruct (fine_throw Hc)].
      destruct (rows ledgerRow (entries s)) as [es|]; cbn [bind] in *;
        [|destruct (fine_throw He)].
      destruct (rows ledgerRow (expenses s)) as [xs|]; cbn [bind] in *;
        [|destruct (fine_throw Hx)].
      rewrite !reconcile_app, <- !fine_unit. tauto.
Qed.

(* ================================================================== *)
(** * What the handlers write can be displayed                         *)
(* ================================================================== *)

Lemma displays_set (t : Tab) (fld : field) (v : value) (s : Store) :
  render t s = Ok tt -> displays t fld v -> render t (set fld v s) = Ok tt.
Proof.
  rewrite !render_displays. intros Hs Hv fld'. rewrite get_set.
  destruct fld, fld'; try exact Hv; apply Hs.
Qed.

Lemma update_shown (t : Tab) (fld : field) (g : value -> result value)
                   (a a' : App) :
  update (fun s => v <- g (get fld s) ;; Ok (set fld v s)) a = Ok a' ->
  (forall v', g (get fld (store a)) = Ok v' ->
              displays t fld (get fld (store a)) -> displays t fld v') ->
  render t (store a) = Ok tt ->
  render t (store a') = Ok tt.
Proof.
  unfold update. intros Hrun Hg Hs.
  destruct (g (get fld (store a))) as [v|] eqn:E; [|discriminate].
  cbn [bind] in Hrun. injection Hrun as <-.
  cbn [store save setItem withStore]. apply displays_set; [exact Hs|].
  apply Hg; [reflexivity|]. now apply render_displays.
Qed.

Lemma prepend_displays (t : Tab) (fld : field) (item v v' : value) :
  field_eqb fld User = false ->
  itemFits t fld item ->
  prepend item v = Ok v' ->
  displays t fld v -> displays t fld v'.
Proof.
  intros Hfld Hitem Hp Hv. destruct (listed t fld) eqn:Hl.
  - apply (@displays_items t fld v Hl) in Hv.
    apply (@displays_items t fld v' Hl). destruct Hv as (xs & -> & Hxs).
    injection Hp as <-. exists (item :: xs). split; [reflexivity|].
    now constructor.
  - now apply displays_unlisted.
Qed.

Lemma Forall_others (P : value -> Prop) (id : jstring) (xs : list value) :
  Forall P xs -> Forall P (others id xs).
Proof.
  unfold others. induction 1 as [|x xs Hx _ IH]; cbn [List.filter].
  - constructor.
  - destruct (negb (hasId id x)); [constructor|]; assumption.
Qed.

Lemma without_displays (t : Tab) (fld : field) (id : jstring) (v v' : value) :
  field_eqb fld User = false ->
  without id v = Ok v' ->
  displays t fld v -> displays t fld v'.
Proof.
  intros Hfld Hw Hv. destruct (listed t fld) eqn:Hl.
  - apply (@displays_items t fld v Hl) in Hv.
    apply (@displays_items t fld v' Hl). destruct Hv as (xs & -> & Hxs).
    rewrite without_array in Hw.
    destruct (existsb isNullish xs); [discriminate|]. injection Hw as <-.
    exists (others id xs). split; [reflexivity|]. now apply Forall_others.
  - now apply displays_unlisted.
Qed.

Lemma mapM_Forall (P : value -> Prop) (f : value -> result value)
                  (xs ys : list value) :
  (forall x y, P x -> f x = Ok y -> P y) ->
  JS.mapM f xs = Ok ys -> Forall P xs -> Forall P ys.
Proof.
  intros Hf. revert ys. induction xs as [|x xs IH]; intros ys; cbn [JS.mapM].
  - now intros [= <-].
  - destruct (f x) as [y|] eqn:E; [|discriminate]. cbn [bind].
    destruct (JS.mapM f xs) as [zs|]; [|discriminate]. cbn [bind].
    intros [= <-] H. apply Forall_cons_iff in H. destruct H as [H1 H2].
    constructor; [now apply (Hf x y) | now apply IH].
Qed.

(** A goal ticked off is listed as it was: only [bought] has changed. *)
Lemma toggled_goalRow (id : jstring) (g g' : value) :
  toggled id g = Ok g' -> goalRow g' = goalRow g.
Proof.
  unfold toggled.
  destruct (JS.getProp g (js "id")) as [x|] eqn:Hid; [|discriminate].
  cbn [bind]. destruct (JS.strictEqStr x id) eqn:Heq; [|now intros [= <-]].
  destruct (JS.getProp g (js "bought")) as [b|] eqn:Hb; [|discriminate].
  cbn [bind]. intros [= <-].
  destruct g as [| | | | | |props|]; try discriminate Hid;
    try (cbn in Hid; injection Hid as <-; discriminate Heq).
  cbn [JS.spreadObject]. unfold goalRow. cbn [JS.getProp].
  rewrite !lookup_setProp_other by reflexivity.
  rewrite lookup_setProp_same.
  destruct (JS.lookup (js "bought") props); reflexivity.
Qed.

Lemma toggle_displays (t : Tab) (id : jstring) (v v' : value) :
  JS.map (toggled id) v = Ok v' ->
  displays t Goals v -> displays t Goals v'.
Proof.
  intros Hm Hv. destruct t; [|exact I].
  apply (@displays_items dashboard Goals v eq_refl) in Hv.
  apply (@displays_items dashboard Goals v' eq_refl).
  destruct Hv as (xs & -> & Hxs). unfold JS.map in Hm.
  cbn [JS.asArray bind] in Hm.
  destruct (JS.mapM (toggled id) xs) as [ys|] eqn:E; [|discriminate].
  cbn [bind] in Hm. injection Hm as <-.
  exists ys. split; [reflexivity|].
  refine (mapM_Forall _ _ E Hxs).
  intros x y Hx Hy. cbn [itemFits] in *. now rewrite (toggled_goalRow _ _ Hy).
Qed.

(** No index of an array or of a string is called [email]. *)
Lemma indexKey_not_email (i : nat) :
  Str.eqb (JS.indexKey i) (js "email") = false.
Proof.
  unfold Str.eqb. destruct (list_eq_dec _ _ _) as [E|]; [|reflexivity].
  exfalso. unfold JS.indexKey, js, Str.lit in E.
  destruct (Nat.to_uint i); cbn in E; discriminate E.
Qed.

Lemma lookup_combine_none (k : jstring) (ks : list jstring) (xs : list value) :
  Forall (fun k' => Str.eqb k' k = false) ks ->
  JS.lookup k (combine ks xs) = None.
Proof.
  intros H. revert xs. induction H as [|k' ks Hk _ IH]; intros xs.
  - reflexivity.
  - destruct xs as [|x xs]; [reflexivity|]. cbn [combine JS.lookup].
    rewrite Hk. apply IH.
Qed.

Lemma lookup_indexed_email (xs : list value) :
  JS.lookup (js "email") (JS.indexed xs) = None.
Proof.
  unfold JS.indexed. apply lookup_combine_none.
  apply Forall_forall. intros k Hk. apply in_map_iff in Hk.
  destruct Hk as (i & <- & _). apply indexKey_not_email.
Qed.

Lemma reconcile_third (a b c : value) :
  reconcile [a; b; c] = Ok tt -> invalidChild c = false.
Proof.
  cbn [reconcile]. destruct (invalidChild a); [discriminate|].
  destruct (invalidChild b); [discriminate|].
  now destruct (invalidChild c).
Qed.

Lemma header_email (u : value) :
  fine (hs <- Header u ;; reconcile hs) ->
  invalidChild (match JS.lookup (js "email") (JS.spreadObject u) with
                | Some v => v
                | None => VUndefined
                end) = false.
Proof.
  intros Hu. destruct u; cbn [JS.spreadObject JS.lookup];
    rewrite ?lookup_indexed_email; try reflexivity.
  unfold Header in Hu. cbn [JS.getProp] in Hu.
  destruct (JS.lookup (js "name") props) as [n|];
    destruct (JS.lookup (js "email") props) as [e|]; cbn [bind] in Hu;
    try reflexivity;
    (destruct (sliceFirst _) as [i|]; cbn [bind] in Hu;
     [|destruct (fine_throw Hu)]);
    apply fine_unit in Hu; exact (reconcile_third _ _ _ Hu).
Qed.

(** A profile renamed is shown: the name is text, the rest as before. *)
Lemma renamed_displays (t : Tab) (u : value) (c : N) (n : jstring) :
  displays t User u ->
  displays t User (VObj (JS.setProp (js "name") (VStr (c :: n))
                                     (JS.spreadObject u))).
Proof.
  intros Hu.
  assert (H : fine (hs <- Header u ;; reconcile hs)) by (destruct t; exact Hu).
  apply header_email in H.
  assert (G : fine (hs <- Header (VObj (JS.setProp (js "name") (VStr (c :: n))
                                          (JS.spreadObject u))) ;;
                    reconcile hs)).
  { unfold Header. cbn [JS.getProp].
    rewrite lookup_setProp_same, lookup_setProp_other by reflexivity.
    destruct (JS.lookup (js "email") (JS.spreadObject u)) as [e|];
      cbn [bind JS.orElse JS.truthy Str.isEmpty negb sliceFirst reconcile
           invalidChild];
      rewrite ?H; apply fine_ok. }
  destruct t; exact G.
Qed.

Lemma reading_number (props : list (jstring * value)) (n : float) :
  JS.lookup (js "value") props = Some (VNum n) ->
  fine (reading (VObj props)).
Proof.
  intros H. unfold reading. cbn [JS.getProp]. rewrite H. cbn [bind].
  unfold JS.orElse. destruct (JS.truthy (VNum n)); apply fine_ok.
Qed.

(** The item [addEntry] builds can be summed and listed. *)
Lemma entry_fits (t : Tab) (fld : field) (id desc cat date : jstring)
                 (v : float) :
  counted fld = true ->
  itemFits t fld (VObj [ (js "id", VStr id); (js "value", VNum v);
                         (js "desc", VStr desc); (js "cat", VStr cat);
                         (js "date", VStr date) ]).
Proof.
  intros Hfld.
  assert (R : fine (reading (VObj [ (js "id", VStr id); (js "value", VNum v);
                                    (js "desc", VStr desc); (js "cat", VStr cat);
                                    (js "date", VStr date) ])))
    by (apply (@reading_number _ v); reflexivity).
  destruct fld, t; try discriminate Hfld; cbn [itemFits];
    repeat split; try exact R; exists tt; reflexivity.
Qed.

(** So can the goal [addGoal] builds. *)
Lemma goal_fits (t : Tab) (id name priority : jstring) (price : float) :
  itemFits t Goals (VObj [ (js "id", VStr id); (js "name", VStr name);
                           (js "price", VNum price);
                           (js "priority", VStr priority);
                           (js "bought", VBool false) ]).
Proof. destruct t; cbn [itemFits]; [exists tt; reflexivity | exact I]. Qed.

(** And the fixed cost [addFixedCost] builds. *)
Lemma fixedCost_fits (t : Tab) (id name : jstring) (n : float) :
  itemFits t FixedCosts (VObj [ (js "id", VStr id); (js "name", VStr name);
                                (js "value", VNum n) ]).
Proof.
  assert (R : fine (reading (VObj [ (js "id", VStr id); (js "name", VStr name);
                                    (js "value", VNum n) ])))
    by (apply (@reading_number _ n); reflexivity).
  destruct t; cbn [itemFits]; repeat split; try exact R; exists tt; reflexivity.
Qed.

Lemma category_fits (t : Tab) (c : jstring) : itemFits t Categories (VStr c).
Proof. destruct t; cbn [itemFits]; [exact I | exists tt; reflexivity]. Qed.

Lemma given_some (answer : option jstring) :
  given answer = true -> exists c s, answer = Some (c :: s).
Proof. destruct answer as [[|c s]|]; try discriminate. eauto. Qed.

(** What a tab could display before a handler ran it can display after,
    whichever tab and whichever handler. *)
Lemma handle_shown (t : Tab) (ev : event) (a a' : App) :
  isImport ev = false ->
  handle ev a = Ok a' ->
  render t (store a) = Ok tt ->
  render t (store a') = Ok tt.
Proof.
  intros Hev Hrun Hs.
  destruct ev; cbn [handle] in Hrun; try discriminate Hev; clear Hev.
  - now injection Hrun as <-.
  - now injection Hrun as <-.
  - unfold addEntry in Hrun. rewrite number_of_text in Hrun. cbn [bind] in Hrun.
    destruct (_ || _); [now injection Hrun as <-|].
    destruct (Str.eqb (Form.type (form a)) (js "income"));
      match type of Hrun with
      | (x <- ?u ;; _) = _ => destruct u as [a1|] eqn:Hu; [|discriminate]
      end; cbn [bind] in Hrun; injection Hrun as <-; cbn [store setForm].
    + apply (@update_shown t Entries (prepend _) a a1 Hu); [|exact Hs].
      intros v'. apply prepend_displays; [reflexivity|].
      now apply entry_fits.
    + apply (@update_shown t Expenses (prepend _) a a1 Hu); [|exact Hs].
      intros v'. apply prepend_displays; [reflexivity|].
      now apply entry_fits.
  - unfold removeItem in Hrun.
    destruct (negb confirmed); [now injection Hrun as <-|].
    destruct (Str.eqb kind (js "income")) eqn:Hk.
    + rewrite (kind_income_not_expense _ Hk) in Hrun.
      match type of Hrun with
      | (x <- ?u ;; _) = _ => destruct u as [a1|] eqn:Hu; [|discriminate]
      end. cbn [bind] in Hrun. injection Hrun as <-.
      apply (@update_shown t Entries (without id) a a1 Hu); [|exact Hs].
      intros v'. now apply without_displays.
    + cbn [bind] in Hrun. destruct (Str.eqb kind (js "expense")).
      * apply (@update_shown t Expenses (without id) a a' Hrun); [|exact Hs].
        intros v'. now apply without_displays.
      * now injection Hrun as <-.
  - unfold addGoal in Hrun. rewrite number_of_text in Hrun. cbn [bind] in Hrun.
    destruct (_ || _); [now injection Hrun as <-|].
    match type of Hrun with
    | (x <- ?u ;; _) = _ => destruct u as [a1|] eqn:Hu; [|discriminate]
    end. cbn [bind] in Hrun. injection Hrun as <-. cbn [store setGoalForm].
    apply (@update_shown t Goals (prepend _) a a1 Hu); [|exact Hs].
    intros v'. apply prepend_displays; [reflexivity|]. apply goal_fits.
  - apply (@update_shown t Goals (JS.map (toggled id)) a a' Hrun); [|exact Hs].
    intros v'. apply toggle_displays.
  - apply (@update_shown t Goals (without id) a a' Hrun); [|exact Hs].
    intros v'. now apply without_displays.
  - unfold addFixedCost in Hrun. rewrite !truthy_prompted in Hrun.
    destruct (given answer1) eqn:H1; [|now injection Hrun as <-].
    destruct (given answer2) eqn:H2; [|now injection Hrun as <-].
    cbn [negb orb] in Hrun.
    destruct (given_some _ H1) as (c1 & s1 & ->).
    destruct (given_some _ H2) as (c2 & s2 & ->).
    cbn [prompted] in Hrun.
    apply (@update_shown t FixedCosts
             (prepend (VObj [ (js "id", VStr (uid r));
                              (js "name", VStr (c1 :: s1));
                              (js "value",
                               VNum (Num.StringToNumber (c2 :: s2))) ]))
             a a' Hrun); [|exact Hs].
    intros v'. apply prepend_displays; [reflexivity|]. apply fixedCost_fits.
  - apply (@update_shown t FixedCosts (without id) a a' Hrun); [|exact Hs].
    intros v'. now apply without_displays.
  - unfold addCategory in Hrun. rewrite truthy_prompted in Hrun.
    destruct (given answer) eqn:H1; [|now injection Hrun as <-].
    destruct (given_some _ H1) as (c & s & ->). cbn [prompted] in Hrun.
    apply (@update_shown t Categories (prepend _) a a' Hrun); [|exact Hs].
    intros v'. apply prepend_displays; [reflexivity|]. apply category_fits.
  - unfold editProfile in Hrun. rewrite truthy_prompted in Hrun.
    destruct (given answer) eqn:H1; [|now injection Hrun as <-].
    destruct (given_some _ H1) as (c & s & ->). cbn [prompted] in Hrun.
    apply (@update_shown t User
             (fun u => Ok (VObj (JS.setProp (js "name") (VStr (c :: s))
                                   (JS.spreadObject u))))
             a a' Hrun); [|exact Hs].
    intros v' [= <-]. apply renamed_displays.
  - now destruct (showTab_ok _ _ Hrun) as [-> | ->].
Qed.

(* ================================================================== *)
(** * The handlers of a displayed tab return                           *)
(* ================================================================== *)

Lemma update_returns (fld : field) (g : value -> result value) (a : App) :
  fine (g (get fld (store a))) ->
  exists a', update (fun s => v <- g (get fld s) ;; Ok (set fld v s)) a = Ok a'.
Proof.
  intros [v Hv]. unfold update. rewrite Hv. cbn [bind]. eauto.
Qed.

Lemma listed_array (t : Tab) (fld : field) (s : Store) :
  listed t fld = true -> render t s = Ok tt ->
  exists xs, get fld s = VArr xs /\ Forall (itemFits t fld) xs.
Proof.
  intros Hl Hs. apply (@displays_items t fld _ Hl). now apply render_displays.
Qed.

Lemma fits_not_nullish (t : Tab) (fld : field) (x : value) :
  listed t fld = true -> isCollection fld = true ->
  itemFits t fld x -> isNullish x = false.
Proof.
  intros Hl Hc Hx. destruct x; try reflexivity; exfalso;
    destruct fld, t; try discriminate Hl; try discriminate Hc;
    cbn [itemFits] in Hx;
    repeat match goal with H : _ /\ _ |- _ => destruct H end;
    match goal with H : fine _ |- _ => exact (fine_throw H) end.
Qed.

Lemma fits_no_nullish (t : Tab) (fld : field) (xs : list value) :
  listed t fld = true -> isCollection fld = true ->
  Forall (itemFits t fld) xs -> existsb isNullish xs = false.
Proof.
  intros Hl Hc. induction 1 as [|x xs Hx _ IH]; [reflexivity|].
  cbn [existsb]. now rewrite (@fits_not_nullish t fld x Hl Hc Hx).
Qed.

Lemma prepend_returns (t : Tab) (fld : field) (item : value) (s : Store) :
  listed t fld = true -> render t s = Ok tt ->
  fine (prepend item (get fld s)).
Proof.
  intros Hl Hs. destruct (@listed_array t fld s Hl Hs) as (xs & -> & _).
  apply fine_ok.
Qed.

Lemma without_returns (t : Tab) (fld : field) (id : jstring) (s : Store) :
  listed t fld = true -> isCollection fld = true -> render t s = Ok tt ->
  fine (without id (get fld s)).
Proof.
  intros Hl Hc Hs. destruct (@listed_array t fld s Hl Hs) as (xs & -> & Hxs).
  rewrite without_array, (@fits_no_nullish t fld xs Hl Hc Hxs). apply fine_ok.
Qed.

Lemma toggled_returns (id : jstring) (g : value) :
  isNullish g = false -> fine (toggled id g).
Proof.
  intros Hg. unfold toggled.
  destruct g; try discriminate Hg; cbn [JS.getProp bind];
    repeat match goal with
           | |- context [match ?x with _ => _ end] => destruct x; cbn [bind]
           end;
    apply fine_ok.
Qed.

Lemma toggle_returns (id : jstring) (s : Store) :
  render dashboard s = Ok tt -> fine (JS.map (toggled id) (get Goals s)).
Proof.
  intros Hs.
  destruct (@listed_array dashboard Goals s eq_refl Hs) as (xs & -> & Hxs).
  apply (@fits_no_nullish dashboard Goals xs eq_refl eq_refl) in Hxs.
  unfold JS.map. cbn [JS.asArray bind].
  assert (H : fine (JS.mapM (toggled id) xs)).
  { induction xs as [|x xs IH]; [apply fine_ok|].
    cbn [existsb] in Hxs. apply orb_false_iff in Hxs. destruct Hxs as [H1 H2].
    cbn [JS.mapM]. destruct (@toggled_returns id x H1) as [y ->].
    destruct (IH H2) as [ys ->]. apply fine_ok. }
  destruct H as [ys ->]. apply fine_ok.
Qed.

(** A handler returns when the tab that offers it is on display. *)
Lemma handle_returns (ev : event) (a : App) :
  isImport ev = false -> switches ev = false ->
  (forall t, offeredOn ev = Some t -> render t (store a) = Ok tt) ->
  exists a', handle ev a = Ok a'.
Proof.
  intros Hev Hsw Hs.
  destruct ev; try discriminate Hev; try discriminate Hsw; clear Hev Hsw;
    cbn [handle offeredOn] in *;
    try specialize (Hs _ eq_refl).
  - eauto.
  - eauto.
  - unfold addEntry. rewrite number_of_text. cbn [bind].
    destruct (_ || _); [eauto|].
    destruct (Str.eqb _ _).
    + match goal with
      | |- context [prepend ?item] =>
          destruct (@update_returns Entries (prepend item) a
                      (@prepend_returns finance Entries item (store a) eq_refl Hs))
            as [a1 Hu]
      end.
      cbn [get set] in Hu. rewrite Hu. cbn [bind]. eauto.
    + match goal with
      | |- context [prepend ?item] =>
          destruct (@update_returns Expenses (prepend item) a
                      (@prepend_returns finance Expenses item (store a) eq_refl Hs))
            as [a1 Hu]
      end.
      cbn [get set] in Hu. rewrite Hu. cbn [bind]. eauto.
  - unfold removeItem. destruct (negb confirmed); [eauto|].
    destruct (Str.eqb kind (js "income")) eqn:Hk.
    + rewrite (kind_income_not_expense _ Hk).
      destruct (@update_returns Entries (without id) a
                  (@without_returns finance Entries id (store a) eq_refl eq_refl Hs))
        as [a1 Hu].
      cbn [get set] in Hu. rewrite Hu. cbn [bind]. eauto.
    + cbn [bind]. destruct (Str.eqb kind (js "expense")); [|eauto].
      exact (@update_returns Expenses (without id) a
               (@without_returns finance Expenses id (store a) eq_refl eq_refl Hs)).
  - unfold addGoal. rewrite number_of_text. cbn [bind].
    destruct (_ || _); [eauto|].
    match goal with
    | |- context [prepend ?item] =>
        destruct (@update_returns Goals (prepend item) a
                    (@prepend_returns dashboard Goals item (store a) eq_refl Hs))
          as [a1 Hu]
    end.
    cbn [get set] in Hu. rewrite Hu. cbn [bind]. eauto.
  - exact (@update_returns Goals (JS.map (toggled id)) a
             (@toggle_returns id (store a) Hs)).
  - exact (@update_returns Goals (without id) a
             (@without_returns dashboard Goals id (store a) eq_refl eq_refl Hs)).
  - unfold addFixedCost. rewrite !truthy_prompted.
    destruct (given answer1) eqn:H1; cbn [negb orb]; [|eauto].
    destruct (given answer2) eqn:H2; cbn [negb orb]; [|eauto].
    destruct (given_some _ H1) as (c1 & s1 & ->).
    destruct (given_some _ H2) as (c2 & s2 & ->).
    cbn [prompted]. rewrite number_of_text. cbn [bind].
    match goal with
    | |- context [prepend ?item] =>
        exact (@update_returns FixedCosts (prepend item) a
                 (@prepend_returns dashboard FixedCosts item (store a) eq_refl Hs))
    end.
  - exact (@update_returns FixedCosts (without id) a
             (@without_returns dashboard FixedCosts id (store a) eq_refl eq_refl Hs)).
  - unfold addCategory. destruct (JS.truthy _); [|eauto].
    match goal with
    | |- context [prepend ?item] =>
        exact (@update_returns Categories (prepend item) a
                 (@prepend_returns finance Categories item (store a) eq_refl Hs))
    end.
  - unfold editProfile. destruct (JS.truthy _); [|eauto].
    unfold update. cbn [bind]. eauto.
Qed.

Lemma update_tab (f : Store -> result Store) (a a' : App) :
  update f a = Ok a' -> tab a' = tab a.
Proof.
  unfold update. destruct (f (store a)); [|discriminate].
  cbn [bind]. now intros [= <-].
Qed.

Lemma handle_tab (ev : event) (a a' : App) :
  isImport ev = false -> switches ev = false ->
  handle ev a = Ok a' -> tab a' = tab a.
Proof.
  intros Hev Hsw Hrun.
  destruct ev; try discriminate Hev; try discriminate Hsw; clear Hev Hsw;
    cbn [handle] in Hrun.
  - now injection Hrun as <-.
  - now injection Hrun as <-.
  - unfold addEntry in Hrun. rewrite number_of_text in Hrun. cbn [bind] in Hrun.
    destruct (_ || _); [now injection Hrun as <-|].
    destruct (Str.eqb _ _);
      match type of Hrun with
      | (x <- ?u ;; _) = _ => destruct u as [a1|] eqn:Hu; [|discriminate]
      end; cbn [bind] in Hrun; injection Hrun as <-;
      exact (@update_tab _ _ _ Hu).
  - unfold removeItem in Hrun. destruct (negb confirmed); [now injection Hrun as <-|].
    match type of Hrun with
    | (x <- ?u ;; _) = _ => destruct u as [a1|] eqn:Hu; [|discriminate]
    end. cbn [bind] in Hrun.
    assert (H1 : tab a1 = tab a).
    { destruct (Str.eqb kind (js "income")).
      - exact (@update_tab _ _ _ Hu).
      - now injection Hu as <-. }
    destruct (Str.eqb kind (js "expense")).
    + now rewrite (@update_tab _ _ _ Hrun).
    + now injection Hrun as <-.
  - unfold addGoal in Hrun. rewrite number_of_text in Hrun. cbn [bind] in Hrun.
    destruct (_ || _); [now injection Hrun as <-|].
    match type of Hrun with
    | (x <- ?u ;; _) = _ => destruct u as [a1|] eqn:Hu; [|discriminate]
    end. cbn [bind] in Hrun. injection Hrun as <-.
    exact (@update_tab _ _ _ Hu).
  - exact (@update_tab _ _ _ Hrun).
  - exact (@update_tab _ _ _ Hrun).
  - unfold addFixedCost in Hrun.
    destruct (_ || _); [now injection Hrun as <-|].
    exact (@update_tab _ _ _ Hrun).
  - exact (@update_tab _ _ _ Hrun).
  - unfold addCategory in Hrun.
    destruct (JS.truthy _); [|now injection Hrun as <-].
    exact (@update_tab _ _ _ Hrun).
  - unfold editProfile in Hrun.
    destruct (JS.truthy _); [|now injection Hrun as <-].
    exact (@update_tab _ _ _ Hrun).
Qed.

(* ================================================================== *)
(** * The application does not throw on its own data                   *)
(* ================================================================== *)

Lemma showTab_returns (t : Tab) (a : App) :
  render t (store a) = Ok tt -> exists a', showTab t a = Ok a'.
Proof.
  intros Hs. unfold showTab. rewrite Hs. cbn [bind].
  destruct t, (tab a); eauto.
Qed.

(** X17. So long as nothing is imported, an application whose two tabs
    can both be displayed does not throw.  Every sequence of events
    other than imports, handlers and switches of tab alike, runs
    through, and both tabs can be displayed in the state it ends in; so
    every render on the way succeeds, the totals included.  The state
    of a fresh start is such a state. *)
Theorem events_never_throw :
  forall (evs : list event) (a : App),
    forallb (fun ev => negb (isImport ev)) evs = true ->
    (forall t, render t (store a) = Ok tt) ->
    exists a',
      run evs a = Ok a'
      /\ (forall t, render t (store a') = Ok tt).
Proof.
  induction evs as [|ev evs IH]; intros a Hevs Hs.
  - exists a. auto.
  - cbn [forallb] in Hevs. apply andb_prop in Hevs. destruct Hevs as [H1 H2].
    apply negb_true_iff in H1.
    assert (Hret : exists a1, handle ev a = Ok a1).
    { destruct (switches ev) eqn:Hsw.
      - destruct ev; try discriminate Hsw. cbn [handle].
        apply showTab_returns, Hs.
      - apply handle_returns; auto. }
    destruct Hret as (a1 & Hrun).
    destruct (IH a1 H2) as (a' & Hrest).
    { intros t. exact (@handle_shown t ev a a1 H1 Hrun (Hs t)). }
    exists a'. cbn [run]. rewrite Hrun. exact Hrest.
Qed.

Lemma events_never_throw_witness :
  exists a',
    run sampleEvents (initialApp None) = Ok a'
    /\ (forall t, render t (store a') = Ok tt).
Proof.
  apply (events_never_throw sampleEvents (initialApp None)).
  - reflexivity.
  - intros t; destruct t; vm_compute; reflexivity.
Defined.

(* ================================================================== *)
(** * Every state reached is on display                                *)
(* ================================================================== *)

Lemma install_displayed (next : Store) (a a' : App) :
  install next a = Ok a' -> render (tab a') (store a') = Ok tt.
Proof.
  unfold install.
  destruct (applied (user next)); [|discriminate].
  destruct (applied (categories next)); [|discriminate].
  destruct (applied (entries next)); [|discriminate].
  destruct (applied (expenses next)); [|discriminate].
  destruct (applied (goals next)); [|discriminate].
  destruct (applied (fixedCosts next)); [|discriminate].
  cbn [bind]. destruct (render _ _) as [[]|] eqn:Hr; [|discriminate].
  cbn [bind]. intros [= <-]. exact Hr.
Qed.

Lemma defaults_displayed (t : Tab) : render t initialStore = Ok tt.
Proof. destruct t; vm_compute; reflexivity. Qed.

Lemma load_displayed (stored : option text) (a : App) :
  load stored = Ok a -> render (tab a) (store a) = Ok tt.
Proof.
  unfold load. destruct stored as [raw|];
    [|intros [= <-]; apply defaults_displayed].
  destruct (nonEmpty raw); [|intros [= <-]; apply defaults_displayed].
  destruct (data <- JSON.parse raw ;; readDocument data).
  - apply install_displayed.
  - intros [= <-]. apply defaults_displayed.
Qed.

Lemma handle_displayed (ev : event) (a a' : App) :
  handle ev a = Ok a' ->
  render (tab a) (store a) = Ok tt ->
  render (tab a') (store a') = Ok tt.
Proof.
  intros Hrun Hs.
  destruct (isImport ev) eqn:Hev; [|destruct (switches ev) eqn:Hsw].
  - destruct ev; try discriminate Hev. cbn [handle] in Hrun.
    unfold importData in Hrun.
    destruct file as [contents|]; [|now injection Hrun as <-].
    destruct (data <- JSON.parse contents ;; readDocument data).
    + exact (install_displayed _ _ Hrun).
    + now injection Hrun as <-.
  - destruct ev; try discriminate Hsw. cbn [handle] in Hrun.
    unfold showTab in Hrun.
    destruct t, (tab a) eqn:Ht; try (injection Hrun as <-; now rewrite Ht);
      (destruct (render _ _) as [[]|] eqn:Hr; [|discriminate]);
      cbn [bind] in Hrun; injection Hrun as <-; exact Hr.
  - rewrite (handle_tab ev a Hev Hsw Hrun).
    exact (@handle_shown (tab a) ev a a' Hev Hrun Hs).
Qed.

(** X19. Every state the application reaches is on display: the tab
    that is open can render it.  A load and an import keep only what
    they could render, and what a handler writes can be rendered
    wherever the state before could; so the render that follows a
    handler, which is not gone through again in [update], never
    throws. *)
Theorem reachable_states_are_displayed :
  forall a : App,
    reachable a ->
    render (tab a) (store a) = Ok tt.
Proof.
  intros a (stored & evs & Hrun).
  destruct (load stored) as [a0|] eqn:E; [|discriminate]. cbn [bind] in Hrun.
  apply load_displayed in E. clear stored.
  revert a0 E Hrun. induction evs as [|ev evs IH]; intros a0 E; cbn [run].
  - now intros [= <-].
  - destruct (handle ev a0) as [a1|] eqn:H; [|discriminate]. cbn [bind].
    apply IH. exact (handle_displayed ev a0 H E).
Qed.

Lemma reachable_states_are_displayed_witness :
  render (tab sampleApp) (store sampleApp) = Ok tt.
Proof.
  apply (@reachable_states_are_displayed sampleApp).
  exists None, sampleEvents. vm_compute. reflexivity.
Defined.

(** X20. A displayed application survives the handlers of its open tab:
    every event other than an import and a switch of tab that the open
    tab offers (the wish list and the fixed costs on the dashboard, the
    ledger and the categories on the other tab, the profile on both)
    returns, stays on the tab, and leaves a state the tab can render.
    Only an import and a switch of tab can bring the application
    down. *)
Theorem handlers_of_the_open_tab_return :
  forall (ev : event) (a : App),
    isImport ev = false ->
    switches ev = false ->
    (forall t, offeredOn ev = Some t -> t = tab a) ->
    render (tab a) (store a) = Ok tt ->
    exists a',
      handle ev a = Ok a'
      /\ tab a' = tab a
      /\ render (tab a') (store a') = Ok tt.
Proof.
  intros ev a Hev Hsw Hon Hs.
  destruct (@handle_returns ev a Hev Hsw) as (a' & Hrun).
  { intros t Ht. now rewrite (Hon t Ht). }
  exists a'. split; [exact Hrun|].
  split; [exact (handle_tab ev a Hev Hsw Hrun)|].
  exact (handle_displayed ev a Hrun Hs).
Qed.

Lemma handlers_of_the_open_tab_return_witness :
  exists a',
    handle (ToggleGoal (js "9zq1m4c")) sampleApp = Ok a'
    /\ tab a' = tab sampleApp
    /\ render (tab a') (store a') = Ok tt.
Proof.
  apply (handlers_of_the_open_tab_return (ToggleGoal (js "9zq1m4c")) sampleApp).
  - reflexivity.
  - reflexivity.
  - intros t [= <-]. reflexivity.
  - vm_compute. reflexivity.
Defined.
(* ================================================================== *)
(** * What the totals do not depend on                                 *)
(* ================================================================== *)

Lemma computeTotals_frame (s s' : Store) :
  (forall fld, counted fld = true -> get fld s' = get fld s) ->
  computeTotals s' = computeTotals s.
Proof.
  intros H.
  pose proof (H Entries eq_refl) as He.
  pose proof (H Expenses eq_refl) as Hx.
  pose proof (H FixedCosts eq_refl) as Hf.
  cbn [get] in He, Hx, Hf.
  unfold computeTotals, projectedBalance, totalIncome, totalExpenses.
  now rewrite He, Hx, Hf.
Qed.

(** X18. The totals and the projected balance are computed from the
    entries, the expenses and the fixed costs alone.  An event that
    writes to none of the three (a wish added, ticked off as bought or
    removed, a category added, the profile renamed, a form edited)
    leaves the totals as they were: buying a wish does not take its
    price off the balance. *)
Theorem totals_ignore_goals_and_profile :
  forall (ev : event) (a a' : App),
    isImport ev = false ->
    touchesTotals ev a = false ->
    handle ev a = Ok a' ->
    computeTotals (store a') = computeTotals (store a).
Proof.
  intros ev a a' Hev Ht Hrun. apply computeTotals_frame. intros fld Hc.
  apply (@handle_frame ev a a' fld Hev); [|exact Hrun].
  unfold touchesTotals in Ht. unfold writesTo.
  destruct (target ev a) as [f|]; [|reflexivity].
  destruct f, fld; try discriminate Hc; try discriminate Ht; reflexivity.
Qed.

Lemma totals_ignore_goals_and_profile_witness :
  exists a',
    handle (ToggleGoal (js "9zq1m4c")) sampleApp = Ok a'
    /\ get Goals (store a') <> get Goals (store sampleApp)
    /\ computeTotals (store a') = computeTotals (store sampleApp).
Proof.
  eexists. split; [reflexivity|]. split.
  - vm_compute. discriminate.
  - apply (@totals_ignore_goals_and_profile
             (ToggleGoal (js "9zq1m4c")) sampleApp); reflexivity.
Defined.
